(** * Tabular-data ingestion, preprocessing and method recommendation

    A shallow embedding of the data-analysis core of the paper-writing
    front end: [utils/dataProcessing.ts] (parser, normalization pass,
    dataset-shape detector, variable analyzer, correlation matrix,
    preprocessing pipeline), [utils/methodRecommendation.ts] (the
    recommender), the event handlers of the data-analysis editor that
    call them and the [useApi] hook, followed by the properties the
    specification states about them and by further properties of the
    code.

    JavaScript numbers are IEEE-754 binary64 values and are modelled by
    Rocq's primitive floats.  Array lengths and counters are integers far
    below 2^53; they are kept as [nat]/[Z] and converted where the source
    divides them.  Row objects live in a store and tables hold references
    to them wherever the source mutates rows in place. *)

From Stdlib Require Import Floats ZArith List String Ascii Bool Lia PeanoNat.
Import ListNotations.

Set Warnings "-inexact-float".
Local Open Scope string_scope.

(** ** JavaScript values, objects and built-ins *)

Module Js.

(** The scalar values a table cell can hold at run time ([any]).  A [Date]
    object is represented by its time value (milliseconds since the epoch,
    [nan] for an invalid date). *)
Inductive value : Type :=
| VUndefined
| VNull
| VBool (b : bool)
| VNum (x : float)
| VStr (s : string)
| VDate (t : float).

(** A plain object used as a record: its own enumerable string-keyed
    properties, in [Object.keys] order (the keys that are array indices
    first, by increasing index, then the others in the order of their
    creation).  Keys are unique. *)
Definition object (V : Type) : Type := list (string * V).

Definition keys {V} (o : object V) : list string := map fst o.

(** An array index: the canonical decimal form of an integer below
    2^32 - 1. *)
Definition digit_value (c : ascii) : option Z :=
  let n := Z.of_nat (nat_of_ascii c) in
  if ((48 <=? n) && (n <=? 57))%Z then Some (n - 48)%Z else None.

Fixpoint decimal_value (s : string) (acc : Z) : option Z :=
  match s with
  | EmptyString => Some acc
  | String c s' =>
      match digit_value c with
      | Some d => decimal_value s' (10 * acc + d)%Z
      | None => None
      end
  end.

Definition array_index (k : string) : option Z :=
  match k with
  | EmptyString => None
  | String "0" EmptyString => Some 0%Z
  | String "0" _ => None
  | _ =>
      match decimal_value k 0 with
      | Some n => if (n <? 4294967295)%Z then Some n else None
      | None => None
      end
  end.

Fixpoint lookup {V} (o : object V) (k : string) : option V :=
  match o with
  | [] => None
  | (k', v) :: o' => if String.eqb k' k then Some v else lookup o' k
  end.

(** Overwrites the property [k] in place when it exists, otherwise adds
    it last. *)
Fixpoint put_last {V} (o : object V) (k : string) (v : V) : object V :=
  match o with
  | [] => [(k, v)]
  | (k', v') :: o' =>
      if String.eqb k' k then (k', v) :: o' else (k', v') :: put_last o' k v
  end.

(** Adds a property whose key is the array index [n]: after the array
    indices below [n], before every other key. *)
Fixpoint insert_index {V} (o : object V) (n : Z) (k : string) (v : V)
  : object V :=
  match o with
  | [] => [(k, v)]
  | (k', v') :: o' =>
      match array_index k' with
      | Some m =>
          if (m <? n)%Z then (k', v') :: insert_index o' n k v
          else (k, v) :: o
      | None => (k, v) :: o
      end
  end.

(** [o[k] = v]: overwrite in place when the property exists; otherwise
    create it, among the array indices when [k] is one and last when it
    is not. *)
Definition set {V} (o : object V) (k : string) (v : V) : object V :=
  match lookup o k, array_index k with
  | None, Some n => insert_index o n k v
  | _, _ => put_last o k v
  end.

Definition row : Type := object value.

(** [row[k]]: a missing property reads as [undefined]. *)
Definition get (r : row) (k : string) : value :=
  match lookup r k with Some v => v | None => VUndefined end.

Definition row_ok (r : row) : Prop := NoDup (keys r).

(** Outcome of code that may throw. *)
Inductive result (A : Type) : Type :=
| Ok (a : A)
| Throw (message : string).
Arguments Ok {A} a.
Arguments Throw {A} message.

(** *** Numbers *)

Definition num_of_Z (z : Z) : float := PrimFloat.of_uint63 (Uint63.of_Z z).
Definition num_of_nat (n : nat) : float := num_of_Z (Z.of_nat n).

Definition isNaN_num (x : float) : bool := PrimFloat.is_nan x.

(** Truthiness of a number, as used by [x || d]. *)
Definition truthy_num (x : float) : bool :=
  negb (PrimFloat.is_zero x || PrimFloat.is_nan x).

Definition two52 : float := 4503599627370496%float.

(** [Math.floor]. Below 2^52 in magnitude, adding and removing 2^52 rounds to
    an integer, which is then corrected downwards. *)
Definition Math_floor (x : float) : float :=
  if PrimFloat.is_nan x || PrimFloat.is_infinity x || PrimFloat.is_zero x then x
  else if (two52 <=? PrimFloat.abs x)%float then x
  else
    let r := if (0 <? x)%float then ((x + two52) - two52)%float
             else ((x - two52) + two52)%float in
    if (x <? r)%float then (r - 1)%float else r.

(** An array index given as a number: [Some i] when the number is a
    non-negative integer, [None] otherwise (the access then reads
    [undefined]). *)
Definition index_of_num (x : float) : option nat :=
  match Prim2SF x with
  | S754_zero _ => Some 0%nat
  | S754_finite false m e =>
      if (0 <=? e)%Z then Some (Z.to_nat (Z.pos m * 2 ^ e))
      else if (Z.pos m mod 2 ^ (- e) =? 0)%Z
           then Some (Z.to_nat (Z.pos m / 2 ^ (- e)))
           else None
  | _ => None
  end.

(** The [TimeClip] operation applied to the argument of [new Date(x)]:
    an integral number of milliseconds within 8.64e15 of the epoch, or
    [nan]. *)
Definition clipTime (t : float) : float :=
  if negb (PrimFloat.is_finite t) then nan
  else if (8.64e15 <? PrimFloat.abs t)%float then nan
  else ((if (t <? 0)%float then - Math_floor (- t) else Math_floor t) + 0)%float.

(** [Math.min] and [Math.max] of two numbers: [nan] is contagious and
    [-0] is below [+0]. *)
Definition min2 (a b : float) : float :=
  if PrimFloat.is_nan a || PrimFloat.is_nan b then nan
  else if (a <? b)%float then a
  else if (b <? a)%float then b
  else if PrimFloat.get_sign a then a else b.

Definition max2 (a b : float) : float :=
  if PrimFloat.is_nan a || PrimFloat.is_nan b then nan
  else if (a <? b)%float then b
  else if (b <? a)%float then a
  else if PrimFloat.get_sign a then b else a.

(** [Math.min(...xs)] and [Math.max(...xs)]. *)
Definition Math_min (xs : list float) : float := fold_left min2 xs infinity.
Definition Math_max (xs : list float) : float := fold_left max2 xs neg_infinity.

(** [Math.pow(x, 2)], taken as the correctly rounded square. *)
Definition Math_pow2 (x : float) : float := (x * x)%float.

(** *** Strings

    Strings are byte strings (UTF-8).  The tokens the source searches for
    and the separators it splits on are ASCII, and no byte of a multi-byte
    sequence is an ASCII byte, so byte-wise matching agrees with matching on
    UTF-16 code units. *)

Definition lower_ascii (c : ascii) : ascii :=
  let n := nat_of_ascii c in
  if (65 <=? n)%nat && (n <=? 90)%nat then ascii_of_nat (n + 32) else c.

(** [s.toLowerCase()] on the ASCII letters; other bytes are kept.  No
    character outside ASCII lowers to a string in which one of the tokens
    searched below begins or continues, so token search is not affected. *)
Fixpoint toLowerCase (s : string) : string :=
  match s with
  | EmptyString => EmptyString
  | String c s' => String (lower_ascii c) (toLowerCase s')
  end.

(** [s.startsWith(p)]. *)
Fixpoint startsWith (s p : string) : bool :=
  match p, s with
  | EmptyString, _ => true
  | String a p', String b s' => Ascii.eqb a b && startsWith s' p'
  | String _ _, EmptyString => false
  end.

(** [s.includes(p)]. *)
Fixpoint includes (s p : string) : bool :=
  startsWith s p ||
  match s with
  | EmptyString => false
  | String _ s' => includes s' p
  end.

(** [s.endsWith(p)]. *)
Fixpoint endsWith (s p : string) : bool :=
  String.eqb s p ||
  match s with
  | EmptyString => false
  | String _ s' => endsWith s' p
  end.

(** [s.split(sep)] for a non-empty separator; [cur] holds the piece being
    read, [skip] the number of separator characters still to be passed
    over. *)
Fixpoint split_go (sep : string) (s : string) (skip : nat) (cur : string)
  : list string :=
  match s with
  | EmptyString => [cur]
  | String c s' =>
      match skip with
      | S k => split_go sep s' k cur
      | O =>
          if startsWith s sep
          then cur :: split_go sep s' (String.length sep - 1) EmptyString
          else split_go sep s' 0 (cur ++ String c EmptyString)
      end
  end.

Definition split (s sep : string) : list string := split_go sep s 0 EmptyString.

(** The ASCII white space and line terminators: U+0009 to U+000D and
    U+0020. *)
Definition is_space (c : ascii) : bool :=
  let n := nat_of_ascii c in
  ((9 <=? n)%nat && (n <=? 13)%nat) || (n =? 32)%nat.

Definition byte_is (c : ascii) (n : nat) : bool := (nat_of_ascii c =? n)%nat.

(** The string after one white-space or line-terminator character, if it
    starts with one.  Beyond ASCII these are U+00A0, U+1680, U+2000 to
    U+200A, U+2028, U+2029, U+202F, U+205F, U+3000 and U+FEFF, in their
    UTF-8 form. *)
Definition skip_space (s : string) : option string :=
  match s with
  | EmptyString => None
  | String c s1 =>
      if is_space c then Some s1
      else
        match s1 with
        | String b1 s2 =>
            if byte_is c 194 && byte_is b1 160 then Some s2
            else
              match s2 with
              | String b2 s3 =>
                  let n2 := nat_of_ascii b2 in
                  if (byte_is c 225 && byte_is b1 154 && byte_is b2 128)
                     || (byte_is c 226 && byte_is b1 128
                         && (((128 <=? n2)%nat && (n2 <=? 138)%nat)
                             || (n2 =? 168)%nat || (n2 =? 169)%nat
                             || (n2 =? 175)%nat))
                     || (byte_is c 226 && byte_is b1 129 && byte_is b2 159)
                     || (byte_is c 227 && byte_is b1 128 && byte_is b2 128)
                     || (byte_is c 239 && byte_is b1 187 && byte_is b2 191)
                  then Some s3
                  else None
              | EmptyString => None
              end
        | EmptyString => None
        end
  end.

Fixpoint trimStart_from (fuel : nat) (s : string) : string :=
  match fuel with
  | O => s
  | S fuel' =>
      match skip_space s with
      | Some rest => trimStart_from fuel' rest
      | None => s
      end
  end.

Definition trimStart (s : string) : string :=
  trimStart_from (String.length s) s.

(** The string holds white space only. *)
Fixpoint all_space_from (fuel : nat) (s : string) : bool :=
  match s, fuel with
  | EmptyString, _ => true
  | _, O => false
  | _, S fuel' =>
      match skip_space s with
      | Some rest => all_space_from fuel' rest
      | None => false
      end
  end.

Definition all_space (s : string) : bool := all_space_from (String.length s) s.

Fixpoint trimEnd (s : string) : string :=
  match s with
  | EmptyString => EmptyString
  | String c s' => if all_space s then EmptyString else String c (trimEnd s')
  end.

(** [s.trim()]. *)
Definition trim (s : string) : string := trimEnd (trimStart s).

(** [s < t] on strings: the order of their UTF-16 code units.  On UTF-8
    bytes this is the order of the first bytes that differ, except that a
    character beyond U+FFFF (first byte 240 to 244), whose first code
    unit is a surrogate, comes before the characters from U+E000 to
    U+FFFF (first byte 238 or 239). *)
Definition unit_key (c : ascii) : nat :=
  let n := nat_of_ascii c in
  if (238 <=? n)%nat && (n <=? 239)%nat then (n + 16)%nat else n.

Fixpoint string_ltb (s t : string) : bool :=
  match s, t with
  | _, EmptyString => false
  | EmptyString, String _ _ => true
  | String a s', String b t' =>
      if Ascii.eqb a b then string_ltb s' t'
      else (unit_key a <? unit_key b)%nat
  end.

(** *** The host

    The conversions between strings, numbers and dates are supplied by the
    JavaScript engine ([Date.parse] is implementation-defined outside the
    ISO format).  The embedding is parametric in them. *)
Record Host : Type := {
  StringToNumber : string -> float;   (* Number(s) *)
  Date_parse : string -> float;       (* Date.parse(s): a time value or nan *)
  NumberToString : float -> string;   (* String(x) *)
  DateToString : float -> string;     (* String(d), d a Date *)
  (* [xs.sort((a, b) => a - b)] on elements whose numbers are the given
     ones, one of them at least being NaN: the comparator need not be
     consistent then, and the order is left to the engine.  The result
     lists the positions of the elements in the order the engine leaves
     them. *)
  sortOrder : list float -> list nat
}.

Section Coercions.
Context (H : Host).

(** [Number(v)], the coercion behind [isNaN], [-], [/], [<] and [>]. *)
Definition ToNumber (v : value) : float :=
  match v with
  | VUndefined => nan
  | VNull => 0
  | VBool b => if b then 1 else 0
  | VNum x => x
  | VStr s => StringToNumber H s
  | VDate t => t
  end.

(** [String(v)]. *)
Definition ToString (v : value) : string :=
  match v with
  | VUndefined => "undefined"
  | VNull => "null"
  | VBool b => if b then "true" else "false"
  | VNum x => NumberToString H x
  | VStr s => s
  | VDate t => DateToString H t
  end.

(** Global [isNaN(v)]. *)
Definition isNaN (v : value) : bool := isNaN_num (ToNumber v).

(** [Date.parse(v)]: the argument is first converted to a string. *)
Definition Date_parse_value (v : value) : float := Date_parse H (ToString v).

(** [new Date(v)]: a date is copied, a string is parsed, anything else is
    converted to a number and clipped to the range of time values. *)
Definition new_Date (v : value) : value :=
  match v with
  | VDate t => VDate t
  | VStr s => VDate (Date_parse H s)
  | _ => VDate (clipTime (ToNumber v))
  end.

(** [a + b]: string concatenation as soon as one operand is a string or a
    date (whose default primitive is its string form), numeric addition
    otherwise. *)
Definition stringish (v : value) : bool :=
  match v with VStr _ | VDate _ => true | _ => false end.

Definition add (a b : value) : value :=
  if stringish a || stringish b
  then VStr (ToString a ++ ToString b)
  else VNum (ToNumber a + ToNumber b).

(** [a > b]: the order of strings when both operands are strings, the
    order of their numbers otherwise (a date counts by its time value). *)
Definition gt (a b : value) : bool :=
  match a, b with
  | VStr s, VStr t => string_ltb t s
  | _, _ => (ToNumber b <? ToNumber a)%float
  end.

End Coercions.

Definition is_null (v : value) : bool :=
  match v with VNull => true | _ => false end.

End Js.

(** ** utils/dataProcessing.ts *)

Module DataProcessing.
Import Js.
Local Open Scope list_scope.

Inductive VariableType : Type := numeric | categorical | date | dummy.

Record DataStats : Type := {
  count : Z;
  mean : float;
  std : float;
  min : float;
  max : float;
  missing : Z
}.

Record VariableInfo : Type := {
  name : string;
  type : VariableType;
  stats : DataStats
}.

Inductive DataKind : Type := panel | cross_section | time_series.

(** The object returned by [detectDataType]. *)
Module Detected.
Record t : Type := { dataType : option DataKind; confidence : float }.
End Detected.

Record ProcessedData : Type := {
  rawData : list row;
  variables : list VariableInfo;
  dataType : option DataKind;
  confidence : float
}.

(** [obj[key] = s] on an object created by a literal, [s] being a string:
    the property is created or updated, except that [__proto__] is no own
    property but an accessor inherited from [Object.prototype], whose
    setter ignores a string. *)
Definition assign_string (obj : row) (key s : string) : row :=
  if String.eqb key "__proto__" then obj else set obj key (VStr s).

(** [parseCSV].  The source splits the text on the two-character string
    made of a backslash and the letter n (its literal is written with a
    doubled backslash); here that string is written with one backslash, as
    Rocq strings have no escapes.  Each line yields an object built by
    [reduce] from the empty object, one assignment per header. *)
Definition parseCSV (text : string) : list row :=
  let lines := split text "\n" in
  let headers := map trim (split (hd "" lines) ",") in
  map (fun line =>
         let values := split line "," in
         fst (fold_left
                (fun (acc : row * nat) header =>
                   let (obj, index) := acc in
                   (assign_string obj header
                      (match nth_error values index with
                       | Some v => trim v
                       | None => ""
                       end),
                    S index))
                headers ([], 0%nat)))
      (filter (fun line => negb (String.eqb (trim line) "")) (tl lines)).

(** *** The preprocessing pipeline

    The stages receive an array of row objects and mutate some of them in
    place, so rows live in a store and an array holds references. *)

Definition ref : Type := nat.
Definition store : Type := list row.

Definition deref (h : store) (r : ref) : row := nth r h [].

Fixpoint update (h : store) (r : ref) (f : row -> row) : store :=
  match h, r with
  | [], _ => []
  | o :: h', O => f o :: h'
  | o :: h', S r' => o :: update h' r' f
  end.

(** Computations over the store that may throw. *)
Definition M (A : Type) : Type := store -> result A * store.

Definition ret {A} (a : A) : M A := fun h => (Ok a, h).

Definition bind {A B} (m : M A) (f : A -> M B) : M B :=
  fun h =>
    match m h with
    | (Ok a, h') => f a h'
    | (Throw e, h') => (Throw e, h')
    end.

Definition throw {A} (e : string) : M A := fun h => (Throw e, h).

Definition get_store : M store := fun h => (Ok h, h).

Definition read (r : ref) : M row := fun h => (Ok (deref h r), h).

(** [{ ...row }]-style creation of a fresh object. *)
Definition alloc (o : row) : M ref := fun h => (Ok (List.length h), h ++ [o]).

(** [row[key] = v] on the object behind a reference. *)
Definition write (r : ref) (key : string) (v : value) : M unit :=
  fun h => (Ok tt, update h r (fun o => set o key v)).

Notation "x <- m ;; k" := (bind m (fun x => k))
  (at level 61, m at next level, right associativity).
Notation "m ;;; k" := (bind m (fun _ => k))
  (at level 61, right associativity).

(** [xs.forEach(f)]. *)
Fixpoint forEach {A} (xs : list A) (f : A -> M unit) : M unit :=
  match xs with
  | [] => ret tt
  | x :: xs' => f x ;;; forEach xs' f
  end.

(** A loop over [xs] that threads the local variables [acc] of the
    enclosing function. *)
Fixpoint foldM {A S} (f : S -> A -> M S) (xs : list A) (acc : S) : M S :=
  match xs with
  | [] => ret acc
  | x :: xs' => acc' <- f acc x ;; foldM f xs' acc'
  end.

(** The cells of column [key] in the rows of [data], read in the store. *)
Definition cells (h : store) (data : list ref) (key : string) : list value :=
  map (fun r => get (deref h r) key) data.

Inductive MissingMethod : Type :=
| mv_mean | mv_median | mv_mode | mv_remove | mv_none.
Inductive OutlierMethod : Type := out_zscore | out_iqr | out_none.
Inductive StandardMethod : Type := std_zscore | std_minmax | std_none.

Definition OutlierMethod_str (m : OutlierMethod) : string :=
  match m with
  | out_zscore => "zscore" | out_iqr => "iqr" | out_none => "none"
  end.

Module MissingValue.
Record t : Type := { method : MissingMethod; threshold : option float }.
End MissingValue.

Module Outlier.
Record t : Type := { method : OutlierMethod; threshold : float }.
End Outlier.

Module Standardization.
Record t : Type := { method : StandardMethod }.
End Standardization.

Record PreprocessConfig : Type := {
  missingValue : MissingValue.t;
  outlier : Outlier.t;
  standardization : Standardization.t
}.

(** Entries of the per-column summaries. *)
Module Entry.
Record t : Type := { method : string; count : Z }.
End Entry.

Inductive StdParams : Type :=
| ZScoreParams (mean std : float)
| MinMaxParams (min max : float).

Module StdEntry.
Record t : Type := { method : string; params : StdParams }.
End StdEntry.

Record PreprocessSummary : Type := {
  missingValues : object Entry.t;
  outliers : object Entry.t;
  standardizationSummary : object StdEntry.t
}.

(** *** Reading an uploaded file

    [parseFile] starts one read on a [FileReader] and settles its promise in
    the reader's [onload] or [onerror] handler.  It is modelled by the read
    it starts together with the settlement it produces for each event. *)

Module File.
Record t : Type := { name : string; type : string }.
End File.

Inductive ReadRequest : Type := readAsText | readAsArrayBuffer.
Inductive ReaderEvent : Type := onload (content : string) | onerror.
Inductive Settlement : Type :=
| resolve (value : ProcessedData)
| reject (message : string).

Section WithHost.
Context (H : Host).

(** The [xlsx] package: [XLSX.utils.sheet_to_json] applied to the first
    sheet of [XLSX.read(buffer, { type: 'array' })]; it may throw. *)
Context (XLSX_first_sheet : string -> result (list row)).

(** [parseExcel]. *)
Definition parseExcel (buffer : string) : result (list row) :=
  XLSX_first_sheet buffer.

(** The body of the [forEach] in [preprocessData], for one key of the
    copied row. *)
Definition normalizeKey (processed : row) (key : string) : row :=
  let value := get processed key in
  match value with
  | VStr "" | VUndefined | VNull => set processed key VNull
  | _ =>
      if negb (isNaN H value) then set processed key (VNum (ToNumber H value))
      else if negb (isNaN_num (Date_parse_value H value))
           then set processed key (new_Date H value)
           else processed
  end.

(** [preprocessData]: every row is copied and its cells normalized. *)
Definition preprocessData (data : list row) : list row :=
  match data with
  | [] => []
  | _ => map (fun row => fold_left normalizeKey (keys row) row) data
  end.

Definition isTimeKey (key : string) : bool :=
  includes (toLowerCase key) "year" ||
  includes (toLowerCase key) "date" ||
  includes (toLowerCase key) "time".

Definition isEntityKey (key : string) : bool :=
  includes (toLowerCase key) "id" ||
  includes (toLowerCase key) "entity" ||
  includes (toLowerCase key) "firm" ||
  includes (toLowerCase key) "company" ||
  includes (toLowerCase key) "province" ||
  includes (toLowerCase key) "city".

(** [detectDataType]. *)
Definition detectDataType (data : list row) : Detected.t :=
  match data with
  | [] => {| Detected.dataType := None; Detected.confidence := 0 |}
  | first :: _ =>
      let hasTimeVariable := existsb isTimeKey (keys first) in
      let hasEntityVariable := existsb isEntityKey (keys first) in
      if hasTimeVariable && hasEntityVariable
      then {| Detected.dataType := Some panel; Detected.confidence := 0.9 |}
      else if hasTimeVariable
      then {| Detected.dataType := Some time_series; Detected.confidence := 0.8 |}
      else {| Detected.dataType := Some cross_section; Detected.confidence := 0.7 |}
  end.

(** [calculateMean]: the [reduce] adds with [+], the quotient is numeric. *)
Definition calculateMean (values : list value) : float :=
  match values with
  | [] => 0%float
  | _ => (ToNumber H (fold_left (add H) values (VNum 0))
          / num_of_nat (List.length values))%float
  end.

(** [calculateStd]: population standard deviation. *)
Definition calculateStd (values : list value) : float :=
  match values with
  | [] => 0%float
  | _ =>
      let mean := calculateMean values in
      let squareDiffs :=
        map (fun value => VNum (Math_pow2 (ToNumber H value - mean))) values in
      PrimFloat.sqrt (calculateMean squareDiffs)
  end.

Definition column (data : list row) (name : string) : list value :=
  map (fun row => get row name) data.

Definition nonNull (values : list value) : list value :=
  filter (fun v => negb (is_null v)) values.

(** The body of the [forEach] in [analyzeVariables], for one column. *)
Definition analyzeColumn (data : list row) (column_name : string)
  : VariableInfo :=
  let values := nonNull (column data column_name) in
  let numericValues :=
    map (ToNumber H) (filter (fun v => negb (isNaN H v)) values) in
  let type :=
    if (List.length numericValues =? List.length values)%nat &&
       forallb (fun v => (v =? 0)%float || (v =? 1)%float) numericValues
    then dummy
    else if (0.8 <? num_of_nat (List.length numericValues)
                    / num_of_nat (List.length values))%float
    then numeric
    else if forallb (fun v => negb (isNaN_num (Date_parse_value H v))) values
    then date
    else categorical in
  let numeric_or_dummy :=
    match type with numeric | dummy => true | _ => false end in
  {| name := column_name;
     type := type;
     stats :=
       {| count := Z.of_nat (List.length values);
          mean := if numeric_or_dummy
                  then calculateMean (map VNum numericValues) else 0;
          std := if numeric_or_dummy
                 then calculateStd (map VNum numericValues) else 0;
          min := if numeric_or_dummy then Math_min numericValues else 0;
          max := if numeric_or_dummy then Math_max numericValues else 0;
          missing := Z.of_nat (List.length data) - Z.of_nat (List.length values) |} |}.

(** [analyzeVariables]: one entry per key of the first row. *)
Definition analyzeVariables (data : list row) : list VariableInfo :=
  match data with
  | [] => []
  | first :: _ => map (analyzeColumn data) (keys first)
  end.

(** *** Statistics used by the pipeline *)

(** [[...values].sort((a, b) => a - b)]: [undefined] elements go last
    without being compared.  When every other element converts to a
    number, the comparator is consistent and they are sorted stably (a
    [nan] difference, between equal infinities, counting as 0).  When one
    of them converts to [nan] the order is left to the engine, which
    permutes them. *)
Definition is_undefined (v : value) : bool :=
  match v with VUndefined => true | _ => false end.

Fixpoint insert_sorted (x : value) (sorted : list value) : list value :=
  match sorted with
  | [] => [x]
  | y :: rest =>
      if (0 <? ToNumber H x - ToNumber H y)%float
      then y :: insert_sorted x rest
      else x :: sorted
  end.

Fixpoint distinct (xs : list nat) : bool :=
  match xs with
  | [] => true
  | x :: xs' => negb (existsb (Nat.eqb x) xs') && distinct xs'
  end.

(** [order] lists each of the positions below [n] once. *)
Definition is_order (n : nat) (order : list nat) : bool :=
  (List.length order =? n)%nat
  && forallb (fun i => (i <? n)%nat) order
  && distinct order.

Definition sort_numeric (values : list value) : list value :=
  let defined := filter (fun v => negb (is_undefined v)) values in
  (if forallb (fun v => negb (isNaN H v)) defined
   then fold_right insert_sorted [] defined
   else
     let order := sortOrder H (map (ToNumber H) defined) in
     if is_order (List.length defined) order
     then map (fun i => nth i defined VUndefined) order
     else defined)
  ++ filter is_undefined values.

(** [xs[i]] for a numeric index. *)
Definition at_num (xs : list value) (i : float) : value :=
  match index_of_num i with
  | Some n => nth n xs VUndefined
  | None => VUndefined
  end.

(** [calculateMedian]: for an odd count the middle element itself, which
    need not be a number. *)
Definition calculateMedian (values : list value) : value :=
  match values with
  | [] => VNum 0
  | _ =>
      let sorted := sort_numeric values in
      let middle := Math_floor (num_of_nat (List.length sorted) / 2) in
      if (Nat.modulo (List.length sorted) 2 =? 0)%nat
      then VNum (ToNumber H (add H (at_num sorted (middle - 1))
                                   (at_num sorted middle))
                 / 2)%float
      else at_num sorted middle
  end.

(** The [map]/[filter]/[map] chain of the two detectors: the indices of the
    values that satisfy [p]. *)
Fixpoint indices_where (p : value -> bool) (values : list value) (index : nat)
  : list nat :=
  match values with
  | [] => []
  | value :: rest =>
      if p value then index :: indices_where p rest (S index)
      else indices_where p rest (S index)
  end.

(** [detectOutliersZScore]. *)
Definition detectOutliersZScore (values : list value) (threshold : float)
  : list nat :=
  let mean := calculateMean values in
  let std := calculateStd values in
  indices_where
    (fun value =>
       (threshold <? PrimFloat.abs ((ToNumber H value - mean) / std))%float)
    values 0.

(** [detectOutliersIQR]. *)
Definition detectOutliersIQR (values : list value) (threshold : float)
  : list nat :=
  let sorted := sort_numeric values in
  let q1 := at_num sorted (Math_floor (num_of_nat (List.length sorted) * 0.25)) in
  let q3 := at_num sorted (Math_floor (num_of_nat (List.length sorted) * 0.75)) in
  let iqr := (ToNumber H q3 - ToNumber H q1)%float in
  let lowerBound := (ToNumber H q1 - threshold * iqr)%float in
  let upperBound := add H q3 (VNum (threshold * iqr)) in
  indices_where
    (fun value =>
       (ToNumber H value <? lowerBound)%float
       || gt H value upperBound)
    values 0.

(** *** The stages *)

(** [config.threshold || 0.5]. *)
Definition threshold_or_default (config : MissingValue.t) : float :=
  match MissingValue.threshold config with
  | Some t => if truthy_num t then t else 0.5%float
  | None => 0.5%float
  end.

(** The [map] of the ['mean'] and ['median'] cases: a row whose cell is
    [null] is replaced by a copy with the cell set to [fill], and counted. *)
Fixpoint fillMissing (key : string) (fill : value) (processedData : list ref)
  : M (list ref * Z) :=
  match processedData with
  | [] => ret ([], 0%Z)
  | r :: rest =>
      row <- read r ;;
      if is_null (get row key)
      then r' <- alloc (set row key fill) ;;
           res <- fillMissing key fill rest ;;
           ret (r' :: fst res, (1 + snd res)%Z)
      else res <- fillMissing key fill rest ;;
           ret (r :: fst res, snd res)
  end.

(** The body of the [forEach] in [handleMissingValues]; the state is the
    pair of the local [processedData] and [summary].  The summary entry
    carries the name of the method of the [switch] case taken. *)
Definition handleMissingValues_step (config : MissingValue.t)
  (st : list ref * object Entry.t) (variable : VariableInfo)
  : M (list ref * object Entry.t) :=
  let (processedData, summary) := st in
  match type variable with
  | numeric =>
      h <- get_store ;;
      let cs := cells h processedData (name variable) in
      let missingCount := List.length (filter is_null cs) in
      let missingRatio :=
        (num_of_nat missingCount / num_of_nat (List.length processedData))%float in
      if (threshold_or_default config <? missingRatio)%float
      then ret (processedData,
                set summary (name variable)
                    {| Entry.method := "skip";
                       Entry.count := Z.of_nat missingCount |})
      else
        match MissingValue.method config with
        | mv_mean =>
            let mean := calculateMean (nonNull cs) in
            res <- fillMissing (name variable) (VNum mean) processedData ;;
            ret (fst res,
                 set summary (name variable)
                     {| Entry.method := "mean"; Entry.count := snd res |})
        | mv_median =>
            let median := calculateMedian (nonNull cs) in
            res <- fillMissing (name variable) median processedData ;;
            ret (fst res,
                 set summary (name variable)
                     {| Entry.method := "median"; Entry.count := snd res |})
        | mv_remove =>
            let newData :=
              filter (fun r => negb (is_null (get (deref h r) (name variable))))
                     processedData in
            ret (newData,
                 set summary (name variable)
                     {| Entry.method := "remove";
                        Entry.count := Z.of_nat (List.length processedData)
                                       - Z.of_nat (List.length newData) |})
        | _ => ret (processedData, summary)
        end
  | _ => ret (processedData, summary)
  end.

(** [handleMissingValues]. *)
Definition handleMissingValues (data : list ref) (variables : list VariableInfo)
  (config : MissingValue.t) : M (list ref * object Entry.t) :=
  let processedData := data in
  let summary : object Entry.t := [] in
  foldM (handleMissingValues_step config) variables (processedData, summary).

(** The body of the [forEach] over [outlierIndices] in [handleOutliers]:
    the flagged value is looked up in [values], the row in [processedData]. *)
Definition replaceOutlier (processedData : list ref) (config : Outlier.t)
  (variable : VariableInfo) (values : list value) (index : nat) : M unit :=
  let value := nth index values VUndefined in
  let mean := calculateMean values in
  let std := calculateStd values in
  match nth_error processedData index with
  | Some r =>
      write r (name variable)
        (VNum (if (mean <? ToNumber H value)%float
               then mean + Outlier.threshold config * std
               else mean - Outlier.threshold config * std)%float)
  | None => throw "TypeError: Cannot set properties of undefined"
  end.

(** The body of the [forEach] over the variables in [handleOutliers]. *)
Definition handleOutliers_step (data processedData : list ref)
  (config : Outlier.t) (summary : object Entry.t) (variable : VariableInfo)
  : M (object Entry.t) :=
  match type variable with
  | numeric =>
      h <- get_store ;;
      let values := nonNull (cells h data (name variable)) in
      let outlierIndices :=
        match Outlier.method config with
        | out_zscore => detectOutliersZScore values (Outlier.threshold config)
        | out_iqr => detectOutliersIQR values (Outlier.threshold config)
        | out_none => []
        end in
      forEach outlierIndices
        (replaceOutlier processedData config variable values) ;;;
      ret (set summary (name variable)
               {| Entry.method := OutlierMethod_str (Outlier.method config);
                  Entry.count := Z.of_nat (List.length outlierIndices) |})
  | _ => ret summary
  end.

(** [handleOutliers].  [processedData] is a new array holding the same row
    objects as [data]; the indices found in [values] (the non-null cells)
    are used to index [processedData]. *)
Definition handleOutliers (data : list ref) (variables : list VariableInfo)
  (config : Outlier.t) : M (list ref * object Entry.t) :=
  let summary : object Entry.t := [] in
  let processedData := data in
  summary' <- foldM (handleOutliers_step data processedData config)
                    variables summary ;;
  ret (processedData, summary').

(** The body of the [forEach] over the rows in [standardizeData]:
    [row[key] = (row[key] - shift) / scale] unless the cell is [null]. *)
Definition rescale (key : string) (shift scale : float) (r : ref) : M unit :=
  row <- read r ;;
  if negb (is_null (get row key))
  then write r key (VNum ((ToNumber H (get row key) - shift) / scale)%float)
  else ret tt.

(** The body of the [forEach] over the variables in [standardizeData]. *)
Definition standardizeData_step (data processedData : list ref)
  (config : Standardization.t) (summary : object StdEntry.t)
  (variable : VariableInfo) : M (object StdEntry.t) :=
  match type variable with
  | numeric =>
      h <- get_store ;;
      let values := nonNull (cells h data (name variable)) in
      match Standardization.method config with
      | std_zscore =>
          let mean := calculateMean values in
          let std := calculateStd values in
          forEach processedData (rescale (name variable) mean std) ;;;
          ret (set summary (name variable)
                   {| StdEntry.method := "zscore";
                      StdEntry.params := ZScoreParams mean std |})
      | std_minmax =>
          let min := Math_min (map (ToNumber H) values) in
          let max := Math_max (map (ToNumber H) values) in
          forEach processedData (rescale (name variable) min (max - min)) ;;;
          ret (set summary (name variable)
                   {| StdEntry.method := "minmax";
                      StdEntry.params := MinMaxParams min max |})
      | std_none => ret summary
      end
  | _ => ret summary
  end.

(** [standardizeData]. *)
Definition standardizeData (data : list ref) (variables : list VariableInfo)
  (config : Standardization.t) : M (list ref * object StdEntry.t) :=
  let summary : object StdEntry.t := [] in
  let processedData := data in
  summary' <- foldM (standardizeData_step data processedData config)
                    variables summary ;;
  ret (processedData, summary').

(** [preprocessDataAdvanced]. *)
Definition preprocessDataAdvanced (data : list ref)
  (variables : list VariableInfo) (config : PreprocessConfig)
  : M (list ref * PreprocessSummary) :=
  let processedData := data in
  st1 <-
    match MissingValue.method (missingValue config) with
    | mv_none => ret (processedData, [])
    | _ => handleMissingValues processedData variables (missingValue config)
    end ;;
  st2 <-
    match Outlier.method (outlier config) with
    | out_none => ret (fst st1, [])
    | _ => handleOutliers (fst st1) variables (outlier config)
    end ;;
  st3 <-
    match Standardization.method (standardization config) with
    | std_none => ret (fst st2, [])
    | _ => standardizeData (fst st2) variables (standardization config)
    end ;;
  ret (fst st3,
       {| missingValues := snd st1;
          outliers := snd st2;
          standardizationSummary := snd st3 |}).

(** *** [parseFile] *)

(** The [onload] handler. *)
Definition parseFile_onload (file : File.t) (content : string) : Settlement :=
  let data : result (list row) :=
    if endsWith (File.name file) ".csv" then Ok (parseCSV content)
    else if endsWith (File.name file) ".xlsx" || endsWith (File.name file) ".xls"
    then parseExcel content
    else Ok [] in
  match data with
  | Ok data =>
      let processedData := preprocessData data in
      let detected := detectDataType processedData in
      let variables := analyzeVariables processedData in
      resolve {| rawData := processedData;
                 variables := variables;
                 dataType := Detected.dataType detected;
                 confidence := Detected.confidence detected |}
  | Throw message => reject ("文件解析失败：" ++ message)%string
  end.

(** [parseFile]: the read started on the reader, and the way the promise
    is settled by the reader's event. *)
Definition parseFile (file : File.t) : ReadRequest * (ReaderEvent -> Settlement) :=
  (if endsWith (File.name file) ".csv" then readAsText else readAsArrayBuffer,
   fun event =>
     match event with
     | onload content => parseFile_onload file content
     | onerror => reject "文件读取失败"
     end).

(** *** The correlation matrix *)

(** The three accumulators of the loop in [calculateCorrelation]. *)
Definition correlationSums (mean1 mean2 : float)
  (acc : float * float * float) (pair : value * value) : float * float * float :=
  let '(numerator, denominator1, denominator2) := acc in
  let diff1 := (ToNumber H (fst pair) - mean1)%float in
  let diff2 := (ToNumber H (snd pair) - mean2)%float in
  ((numerator + diff1 * diff2)%float,
   (denominator1 + diff1 * diff1)%float,
   (denominator2 + diff2 * diff2)%float).

(** [calculateCorrelation]. *)
Definition calculateCorrelation (values1 values2 : list value) : float :=
  if negb (List.length values1 =? List.length values2)%nat
     || (List.length values1 =? 0)%nat
  then 0%float
  else
    let mean1 := calculateMean values1 in
    let mean2 := calculateMean values2 in
    let '(numerator, denominator1, denominator2) :=
      fold_left (correlationSums mean1 mean2) (combine values1 values2)
                (0%float, 0%float, 0%float) in
    if (denominator1 =? 0)%float || (denominator2 =? 0)%float then 0%float
    else (numerator / PrimFloat.sqrt (denominator1 * denominator2))%float.

(** The values of a column that enter a correlation:
    [data.map(row => row[name]).filter(v => v !== null && !isNaN(v))]. *)
Definition numericCells (data : list row) (name : string) : list value :=
  filter (fun v => negb (is_null v) && negb (isNaN H v)) (column data name).

(** [generateCorrelationMatrix]: the two nested loops over the indices of
    [variables]; a name read past the end of the array is [undefined], and a
    row has no such property. *)
Definition generateCorrelationMatrix (data : list row) (variables : list string)
  : list (list float) :=
  let n := List.length variables in
  map (fun i =>
         map (fun j =>
                if (i =? j)%nat then 1%float
                else
                  let var1 := nth i variables "" in
                  let var2 := nth j variables "" in
                  calculateCorrelation (numericCells data var1)
                                       (numericCells data var2))
             (seq 0 n))
      (seq 0 n).

End WithHost.

End DataProcessing.

(** ** utils/methodRecommendation.ts *)

Module MethodRecommendation.

Record MethodRecommendation : Type := {
  name : string;
  description : string;
  advantages : list string;
  considerations : list string;
  assumptions : list string;
  testMethods : list string;
  formula : string;
  suitableConditions : list string;
  suitableScenarios : list string;
  confidence : float
}.

(** [dataType] is declared as one of three literals, but the caller passes
    on whatever string the server answered, so it is kept as a string. *)
Record DataInfo : Type := {
  dataType : string;
  hasInstrumental : bool;
  hasMediator : bool;
  hasModerator : bool;
  hasGroupVariable : bool;
  hasTimeVariable : bool;
  hasEntityVariable : bool;
  sampleSize : float
}.

(** The five object literals pushed by the recommender. *)

Definition fixedEffects : MethodRecommendation :=
  {| name := "固定效应模型";
     description := "控制不随时间变化的个体特征，适用于研究个体内部的变化";
     advantages := ["控制不可观测的个体固定效应";
       "减少遗漏变量偏误";
       "适用于大样本面板数据"];
     considerations := ["无法估计不随时间变化的变量系数";
       "需要足够的时间维度变异"];
     assumptions := ["严格外生性";
       "误差项同方差性";
       "误差项无序列相关"];
     testMethods := ["Hausman检验";
       "F检验";
       "异方差检验"];
     formula := "Y_it = α_i + X_it′β + ε_it";
     suitableConditions := ["个体效应与解释变量相关";
       "样本量充足";
       "时间跨度适中"];
     suitableScenarios := ["公司金融研究";
       "产业经济分析";
       "区域经济研究"];
     confidence := 0.9%float |}.

Definition randomEffects : MethodRecommendation :=
  {| name := "随机效应模型";
     description := "假设个体效应为随机变量，适用于研究个体间的差异";
     advantages := ["可以估计不随时间变化的变量系数";
       "效率更高（如果假设成立）"];
     considerations := ["需要个体效应与解释变量不相关的假设";
       "可能存在内生性问题"];
     assumptions := ["个体效应与解释变量不相关";
       "误差项同方差性";
       "误差项无序列相关"];
     testMethods := ["Hausman检验";
       "Breusch-Pagan LM检验"];
     formula := "Y_it = α + X_it′β + (u_i + ε_it)";
     suitableConditions := ["个体效应与解释变量不相关";
       "样本是总体的随机抽样"];
     suitableScenarios := ["宏观经济研究";
       "人口统计分析";
       "社会调查研究"];
     confidence := 0.85%float |}.

Definition ols : MethodRecommendation :=
  {| name := "普通最小二乘法（OLS）";
     description := "最基础的回归方法，适用于基本的线性关系分析";
     advantages := ["计算简单";
       "结果易于解释";
       "在古典假设下是最佳线性无偏估计量"];
     considerations := ["可能存在内生性问题";
       "需要满足严格的古典假设"];
     assumptions := ["线性关系";
       "误差项独立同分布";
       "解释变量与误差项不相关"];
     testMethods := ["异方差检验";
       "序列相关检验";
       "正态性检验"];
     formula := "Y = Xβ + ε";
     suitableConditions := ["无严重内生性问题";
       "误差项满足古典假设"];
     suitableScenarios := ["简单的因果关系分析";
       "预测模型构建";
       "相关性研究"];
     confidence := 0.8%float |}.

Definition twoSLS : MethodRecommendation :=
  {| name := "两阶段最小二乘法（2SLS）";
     description := "处理内生性问题的常用方法，通过工具变量进行估计";
     advantages := ["可以处理内生性问题";
       "得到一致估计量"];
     considerations := ["需要有效的工具变量";
       "弱工具变量问题"];
     assumptions := ["工具变量的相关性";
       "工具变量的外生性";
       "排他性假设"];
     testMethods := ["过度识别检验";
       "弱工具变量检验";
       "Hausman内生性检验"];
     formula := "第一阶段：X = Zπ + v
第二阶段：Y = X̂β + ε";
     suitableConditions := ["存在内生性问题";
       "有合适的工具变量"];
     suitableScenarios := ["政策效果评估";
       "供需关系研究";
       "因果推断分析"];
     confidence := 0.85%float |}.

Definition timeSeries : MethodRecommendation :=
  {| name := "时间序列分析";
     description := "适用于研究变量随时间变化的模式和关系";
     advantages := ["可以捕捉时间趋势";
       "处理序列相关";
       "进行预测"];
     considerations := ["需要足够长的时间序列";
       "可能存在单位根问题"];
     assumptions := ["平稳性（或可转化为平稳）";
       "无序列相关";
       "误差项同方差性"];
     testMethods := ["单位根检验";
       "协整检验";
       "Granger因果检验"];
     formula := "取决于具体模型（AR、MA、ARIMA等）";
     suitableConditions := ["时间序列数据";
       "关注时间动态变化"];
     suitableScenarios := ["经济周期研究";
       "金融市场分析";
       "预测研究"];
     confidence := 0.85%float |}.

(** [recommendMethodsByDataStructure]: three independent [if] blocks, each
    pushing onto the end of [recommendations]. *)
Definition recommendMethodsByDataStructure (dataInfo : DataInfo)
  : list MethodRecommendation :=
  let recommendations := @nil MethodRecommendation in
  let recommendations :=
    if String.eqb (dataType dataInfo) "panel"
    then (recommendations ++ [fixedEffects] ++ [randomEffects])%list
    else recommendations in
  let recommendations :=
    if String.eqb (dataType dataInfo) "cross_section"
    then
      let recommendations := (recommendations ++ [ols])%list in
      if hasInstrumental dataInfo then (recommendations ++ [twoSLS])%list
      else recommendations
    else recommendations in
  let recommendations :=
    if String.eqb (dataType dataInfo) "time_series"
    then (recommendations ++ [timeSeries])%list
    else recommendations in
  recommendations.

End MethodRecommendation.

(** ** features/writing/components/DataAnalysisEditor.tsx

    The event handlers of the data-analysis editor.  A handler is modelled
    by the calls it makes on its callbacks and on the state setters, in
    order.  A React state setter called with a value replaces the state,
    so after an event the state is the value of the last call. *)

Module Editor.
Import Js.
Local Open Scope list_scope.

(** *** [PreprocessingConfig]: [handleChange] *)

(** The sections of the configuration, the keys [handleChange] is called
    with. *)
Inductive Field : Type := missingValue | outlier | standardization.

Definition field_key (field : Field) : string :=
  match field with
  | missingValue => "missingValue"
  | outlier => "outlier"
  | standardization => "standardization"
  end.

(** [defaultThresholds[field] || 0]. *)
Definition defaultThreshold (field : Field) : float :=
  match field with
  | missingValue => 0.5
  | outlier => 3
  | standardization => 0
  end.

(** [config[field]] under a spread: a missing section spreads to nothing. *)
Definition section (config : object row) (field : Field) : row :=
  match lookup config (field_key field) with
  | Some o => o
  | None => []
  end.

(** [handleChange]: the configuration passed to [onConfigChange]. *)
Definition handleChange (config : object row) (field : Field)
  (subField : string) (value : value) : object row :=
  set config (field_key field)
      (set (set (section config field) subField value)
           "threshold" (VNum (defaultThreshold field))).

(** *** [VariableSelection] *)

Record VariableInfo : Type := {
  name : string;
  type : string;
  role : option string;
  stats : row
}.

(** [{ ...variable, role }]. *)
Definition with_role (variable : VariableInfo) (role : string) : VariableInfo :=
  {| name := name variable;
     type := type variable;
     role := Some role;
     stats := stats variable |}.

Definition named (varName : string) (v : VariableInfo) : bool :=
  String.eqb (name v) varName.

Definition has_role (r : string) (v : VariableInfo) : bool :=
  match role v with
  | Some r' => String.eqb r' r
  | None => false
  end.

(** [xs.findIndex(p)]; [None] stands for -1. *)
Fixpoint findIndex {A} (p : A -> bool) (xs : list A) : option nat :=
  match xs with
  | [] => None
  | x :: xs' =>
      if p x then Some 0%nat
      else match findIndex p xs' with
           | Some i => Some (S i)
           | None => None
           end
  end.

(** [xs[i] = x] for an index within the array. *)
Fixpoint assign {A} (xs : list A) (i : nat) (x : A) : list A :=
  match xs, i with
  | [], _ => []
  | _ :: xs', O => x :: xs'
  | y :: xs', S i' => y :: assign xs' i' x
  end.

(** [handleVariableChange]: the calls made on [onVariableChange]. *)
Definition handleVariableChange (variables selectedVars : list VariableInfo)
  (varName role : string) : list (list VariableInfo) :=
  match find (named varName) variables with
  | Some variable =>
      let newSelectedVars := selectedVars in
      match findIndex (named varName) newSelectedVars with
      | Some existingIndex =>
          [assign newSelectedVars existingIndex (with_role variable role)]
      | None => [newSelectedVars ++ [with_role variable role]]
      end
  | None => []
  end.

(** [handleRemoveVariable]. *)
Definition handleRemoveVariable (selectedVars : list VariableInfo)
  (varName : string) : list (list VariableInfo) :=
  [filter (fun v => negb (named varName v)) selectedVars].

(** The [onChange] handler of a single-choice selector (time, id and
    dependent variable): [value] is [undefined] when the choice is
    cleared. *)
Definition onChange_single (variables selectedVars : list VariableInfo)
  (role : string) (value : option string) : list (list VariableInfo) :=
  match value with
  | Some (String c s) =>
      handleVariableChange variables selectedVars (String c s) role
  | _ =>
      handleRemoveVariable selectedVars
        match find (has_role role) selectedVars with
        | Some v => name v
        | None => ""
        end
  end.

(** The [onChange] handler of a multiple-choice selector (independent,
    control, instrumental, moderator, mediator, dummy and grouping
    variables).  Every call of the two handlers starts from the
    [selectedVars] of the current render. *)
Definition onChange_multiple (variables selectedVars : list VariableInfo)
  (role : string) (values : list string) : list (list VariableInfo) :=
  let current := filter (has_role role) selectedVars in
  let toRemove :=
    filter (fun v => negb (existsb (String.eqb (name v)) values)) current in
  let toAdd :=
    filter (fun value => negb (existsb (named value) current)) values in
  flat_map (fun v => handleRemoveVariable selectedVars (name v)) toRemove
  ++ flat_map (fun value =>
                 handleVariableChange variables selectedVars value role)
              toAdd.

(** The state held by [useState] after an event whose handler called the
    setter with [calls]. *)
Definition settle {A} (state : A) (calls : list A) : A := last calls state.

(** *** [DataAnalysisEditor]: [handleFileUpload] *)

Module DataTypeInfo.
Record t : Type := { type : string; confidence : float }.
End DataTypeInfo.

(** What the handler reads in the answer of the upload end point.  The
    answer is untyped: any of the properties read may be absent. *)
Module Uploaded.
Record variable : Type := { type : string; observations : option float }.
Record processed : Type := { variables : option (list variable) }.
Record data : Type := {
  processedData : option processed;
  preview : option string;
  detectedDataType : option DataTypeInfo.t
}.
End Uploaded.

(** [error.response] of a failed request. *)
Module ErrorResponse.
Record t : Type := { status : Z; message : option string }.
End ErrorResponse.

(** How [axiosInstance.post] settles: with a response whose [data] may be
    empty, or with an error that may carry a response. *)
Inductive PostOutcome : Type :=
| fulfilled (data : option Uploaded.data)
| rejected (response : option ErrorResponse.t).

(** The calls the handler makes (console output and the progress messages
    of the transfer are left out). *)
Inductive Effect : Type :=
| message_error (content : string)
| message_success (content : string)
| setUploading (uploading : bool)
| setCurrentFile (file : option DataProcessing.File.t)
| post (url : string) (file : DataProcessing.File.t)
| setProcessedData (processedData : option Uploaded.processed)
| setDataPreview (preview : option string)
| setDetectedDataType (detected : DataTypeInfo.t)
| setDataType (dataType : string)
| setMethodRecommendations
    (recommendations : list MethodRecommendation.MethodRecommendation).

Definition allowedTypes : list string :=
  [ "application/vnd.ms-excel";
    "application/vnd.openxmlformats-officedocument.spreadsheetml.sheet";
    "text/csv" ].

(** The [catch] block. *)
Definition handleFileUpload_catch (response : option ErrorResponse.t)
  : list Effect :=
  let errorMessage :=
    match response with
    | Some response =>
        if (ErrorResponse.status response =? 400)%Z
        then "文件格式错误或数据无效"
        else if (ErrorResponse.status response =? 413)%Z
        then "文件大小超出限制"
        else if (ErrorResponse.status response =? 415)%Z
        then "不支持的文件类型"
        else match ErrorResponse.message response with
             | Some (String c s) => String c s
             | _ => "文件上传失败，请重试"
             end
    | None => "文件上传失败"
    end in
  [message_error errorMessage; setCurrentFile None].

(** The argument of [recommendMethodsByDataStructure] built from the
    answer. *)
Definition dataInfo (detected : DataTypeInfo.t)
  (variables : list Uploaded.variable) : MethodRecommendation.DataInfo :=
  {| MethodRecommendation.dataType := DataTypeInfo.type detected;
     MethodRecommendation.hasInstrumental := false;
     MethodRecommendation.hasMediator := false;
     MethodRecommendation.hasModerator := false;
     MethodRecommendation.hasGroupVariable :=
       existsb (fun v => String.eqb (Uploaded.type v) "categorical") variables;
     MethodRecommendation.hasTimeVariable :=
       existsb (fun v => String.eqb (Uploaded.type v) "time") variables;
     MethodRecommendation.hasEntityVariable :=
       existsb (fun v => String.eqb (Uploaded.type v) "id") variables;
     MethodRecommendation.sampleSize :=
       match variables with
       | v :: _ =>
           match Uploaded.observations v with
           | Some n => if truthy_num n then n else 0%float
           | None => 0%float
           end
       | [] => 0%float
       end |}.

(** The body of [if (response.data)]: the calls made, and whether it
    returned [true] ([false] stands for a [TypeError] thrown on an absent
    property, which the [catch] block receives). *)
Definition handleFileUpload_data (data : Uploaded.data) : list Effect * bool :=
  let stored :=
    [setProcessedData (Uploaded.processedData data);
     setDataPreview (Uploaded.preview data)]
    ++ match Uploaded.detectedDataType data with
       | Some detected =>
           [setDetectedDataType detected;
            setDataType (DataTypeInfo.type detected)]
       | None => []
       end
    ++ [message_success "文件上传成功"] in
  match Uploaded.detectedDataType data, Uploaded.processedData data with
  | Some detected, Some processed =>
      match Uploaded.variables processed with
      | Some variables =>
          (stored
           ++ [setMethodRecommendations
                 (MethodRecommendation.recommendMethodsByDataStructure
                    (dataInfo detected variables))],
           true)
      | None => (stored ++ handleFileUpload_catch None, false)
      end
  | _, _ => (stored ++ handleFileUpload_catch None, false)
  end.

(** [handleFileUpload]: the calls made and the value returned, given how
    the request settles if it is sent. *)
Definition handleFileUpload (writingId sectionId : string)
  (file : option DataProcessing.File.t) (answer : PostOutcome)
  : list Effect * bool :=
  match file with
  | None => ([message_error "请选择要上传的文件"], false)
  | Some file =>
      if negb (existsb (String.eqb (DataProcessing.File.type file))
                       allowedTypes)
      then ([message_error "只支持 .csv, .xlsx, .xls 格式的文件"], false)
      else
        let url :=
          ("/api/writing/" ++ writingId ++ "/sections/" ++ sectionId
           ++ "/data-analysis/upload")%string in
        let started :=
          [setUploading true; setCurrentFile (Some file); post url file] in
        let (body, returned) :=
          match answer with
          | fulfilled (Some data) => handleFileUpload_data data
          | fulfilled None => ([], false)
          | rejected response => (handleFileUpload_catch response, false)
          end in
        (started ++ body ++ [setUploading false], returned)
  end.

(** *** [DataAnalysisEditor]: [triggerEmpiricalAnalysis] *)

Module Empirical.

(** A selected variable as it is sent: its statistics are left out. *)
Record variable : Type := {
  name : string;
  role : option string;
  type : string
}.

(** What both requests carry. *)
Record content : Type := {
  dataType : string;
  selectedMethod : MethodRecommendation.MethodRecommendation;
  variables : list variable;
  preprocessConfig : object row;
  dataSource : option string
}.

Inductive Effect : Type :=
| message_error (text : string)
| message_success (text : string)
| post (url writingId sectionId : string) (body : content)
| put (url : string) (body : content) (completed : bool)
| onNext.

End Empirical.

(** [triggerEmpiricalAnalysis]: the calls made, given the state of the
    component, whether each request succeeds, and the [onNext] property
    (absent, or present and returning normally or not). *)
Definition triggerEmpiricalAnalysis (writingId sectionId : string)
  (processedData : option Uploaded.processed)
  (selectedMethod : option MethodRecommendation.MethodRecommendation)
  (selectedVariables : list VariableInfo) (dataType : string)
  (preprocessConfig : object row)
  (currentFile : option DataProcessing.File.t)
  (onNext : option bool) (postSucceeds putSucceeds : bool)
  : list Empirical.Effect :=
  let failed := [Empirical.message_error "实证分析失败，请重试"] in
  match processedData, selectedMethod, selectedVariables with
  | Some _, Some method, _ :: _ =>
      let variables :=
        map (fun v => {| Empirical.name := name v;
                         Empirical.role := role v;
                         Empirical.type := type v |})
            selectedVariables in
      let body :=
        {| Empirical.dataType := dataType;
           Empirical.selectedMethod := method;
           Empirical.variables := variables;
           Empirical.preprocessConfig := preprocessConfig;
           Empirical.dataSource :=
             match currentFile with
             | Some file => Some (DataProcessing.File.name file)
             | None => None
             end |} in
      Empirical.post
        ("/api/writing/" ++ writingId ++ "/sections/" ++ sectionId
         ++ "/empirical-analysis/start")%string
        writingId sectionId body
      :: (if postSucceeds
          then
            Empirical.put
              ("/api/writings/" ++ writingId ++ "/sections/" ++ sectionId)%string
              body true
            :: (if putSucceeds
                then
                  Empirical.message_success "实证分析已开始"
                  :: match onNext with
                     | Some true => [Empirical.onNext]
                     | Some false => Empirical.onNext :: failed
                     | None => []
                     end
                else failed)
          else failed)
  | _, _, _ => [Empirical.message_error "请先完成数据分析配置"]
  end.

End Editor.

(** ** hooks: [useApi]

    The [execute] function of the hook, modelled by the calls it makes on
    the state setters and on the two optional callbacks, and by the way
    its promise settles. *)

Module UseApi.
Local Open Scope list_scope.

(** What a [catch] block can receive: an axios error with the [detail] of
    its response, if any, and its own message; another [Error]; or a value
    that is not an [Error]. *)
Inductive Thrown : Type :=
| AxiosError (detail : option string) (message : string)
| ErrorObject (message : string)
| OtherValue.

(** A callback of [options]: absent, or present with the way a call of it
    ends ([None] when it returns). *)
Definition Callback : Type := option (option Thrown).

Section Execute.
Context {T : Type}.

Inductive Effect : Type :=
| setIsLoading (isLoading : bool)
| setError (error : option string)
| setData (data : T)
| onSuccess (data : T)
| onError (error : string).

Inductive Settled : Type :=
| resolved (result : option T)
| rejected (reason : Thrown).

(** The message of the [Error] built by the [catch] block;
    [detail || message] takes the message when the detail is absent or
    empty. *)
Definition errorMessage (err : Thrown) : string :=
  match err with
  | AxiosError (Some (String c s)) _ => String c s
  | AxiosError _ message => message
  | ErrorObject message => message
  | OtherValue => "未知错误"
  end.

(** The [catch] block followed by [finally]. *)
Definition execute_catch (onErrorCallback : Callback) (err : Thrown)
  : list Effect * Settled :=
  let error := errorMessage err in
  match onErrorCallback with
  | None => ([setError (Some error); setIsLoading false], resolved None)
  | Some None =>
      ([setError (Some error); onError error; setIsLoading false],
       resolved None)
  | Some (Some thrown) =>
      ([setError (Some error); onError error; setIsLoading false],
       rejected thrown)
  end.

(** [execute]: [api] is the way [apiFunction(request)] settles. *)
Definition execute (api : T + Thrown) (onSuccessCallback onErrorCallback : Callback)
  : list Effect * Settled :=
  let started := [setIsLoading true; setError None] in
  match api with
  | inl result =>
      match onSuccessCallback with
      | None =>
          (started ++ [setData result; setIsLoading false],
           resolved (Some result))
      | Some None =>
          (started ++ [setData result; onSuccess result; setIsLoading false],
           resolved (Some result))
      | Some (Some thrown) =>
          let (handled, settled) := execute_catch onErrorCallback thrown in
          (started ++ [setData result; onSuccess result] ++ handled, settled)
      end
  | inr err =>
      let (handled, settled) := execute_catch onErrorCallback err in
      (started ++ handled, settled)
  end.

End Execute.

Arguments Effect : clear implicits.
Arguments Settled : clear implicits.

End UseApi.

(** ** A reference host

    One admissible engine, used to run the embedding on concrete tables:
    it runs in the UTC time zone, converts decimal, hexadecimal, octal and
    binary numeric literals with correct rounding, prints numbers with the
    fewest digits that read back, and its [Date.parse] recognizes the
    ECMAScript date-time format ([YYYY-MM-DDTHH:mm:ss.sssZ] and its
    shortened forms) and the format written by [Date.prototype.toString]. *)

Module RefHost.
Import Js.
Local Open Scope Z_scope.

Definition digit (c : ascii) : option Z :=
  let n := Z.of_nat (nat_of_ascii c) in
  if (48 <=? n) && (n <=? 57) then Some (n - 48) else None.

Definition hex_digit (c : ascii) : option Z :=
  let n := Z.of_nat (nat_of_ascii c) in
  if (48 <=? n) && (n <=? 57) then Some (n - 48)
  else if (97 <=? n) && (n <=? 102) then Some (n - 87)
  else if (65 <=? n) && (n <=? 70) then Some (n - 55)
  else None.

(** Reads the longest prefix of digits in [base]: its value, its length
    and the rest of the string. *)
Fixpoint digits_from (dig : ascii -> option Z) (base : Z) (s : string)
  (acc : Z) (n : Z) : Z * Z * string :=
  match s with
  | String c s' =>
      match dig c with
      | Some d => digits_from dig base s' (base * acc + d) (n + 1)
      | None => (acc, n, s)
      end
  | EmptyString => (acc, n, s)
  end.

(** The binary64 number nearest to [m * 2 ^ e]. *)
Definition round_binary (m e : Z) : float :=
  SF2Prim (binary_normalize prec emax m e false).

(** The binary64 number nearest to [m * 10 ^ e10], for [m > 0].  For a
    negative exponent the quotient is computed with at least 56 significant
    bits and a sticky last bit, which rounds like the exact value. *)
Definition round_decimal (m e10 : Z) : float :=
  if 400 <? e10 then infinity
  else if e10 + Z.log2 m <? - 1400 then 0%float
  else if 0 <=? e10 then round_binary (m * 10 ^ e10) 0
  else
    let den := 10 ^ (- e10) in
    let k := Z.max 0 (58 + Z.log2 den - Z.log2 m) in
    let q := (m * 2 ^ k) / den in
    let sticky := if (m * 2 ^ k) mod den =? 0 then 0 else 1 in
    round_binary (2 * q + sticky) (- (k + 1)).

Definition signed (negative : bool) (x : float) : float :=
  if negative then (- x)%float else x.

(** [StrUnsignedDecimalLiteral], after the sign. *)
Definition unsigned_decimal (s : string) : option float :=
  if String.eqb s "Infinity" then Some infinity
  else
    let '(int, n1, s1) := digits_from digit 10 s 0 0 in
    let '(frac, n2, s2) :=
      match s1 with
      | String "." s1' => digits_from digit 10 s1' int 0
      | _ => (int, 0, s1)
      end in
    if n1 + n2 =? 0 then None
    else
      let exponent : option (Z * string) :=
        match s2 with
        | String c s2' =>
            if Ascii.eqb c "e" || Ascii.eqb c "E" then
              let '(negative, s3) :=
                match s2' with
                | String "-" t => (true, t)
                | String "+" t => (false, t)
                | _ => (false, s2')
                end in
              let '(e, n3, s4) := digits_from digit 10 s3 0 0 in
              if n3 =? 0 then None
              else Some (if negative then - e else e, s4)
            else Some (0, s2)
        | EmptyString => Some (0, s2)
        end in
      match exponent with
      | Some (e, EmptyString) =>
          Some (if frac =? 0 then 0%float else round_decimal frac (e - n2))
      | _ => None
      end.

Definition radix_literal (s : string) : option float :=
  let read dig base t :=
    let '(v, n, rest) := digits_from dig base t 0 0 in
    match rest with
    | EmptyString => if n =? 0 then None else Some (round_binary v 0)
    | _ => None
    end in
  match s with
  | String "0" (String c t) =>
      if Ascii.eqb c "x" || Ascii.eqb c "X" then read hex_digit 16 t
      else if Ascii.eqb c "o" || Ascii.eqb c "O" then
        read (fun a => match digit a with
                       | Some d => if d <? 8 then Some d else None
                       | None => None end) 8 t
      else if Ascii.eqb c "b" || Ascii.eqb c "B" then
        read (fun a => match digit a with
                       | Some d => if d <? 2 then Some d else None
                       | None => None end) 2 t
      else None
  | _ => None
  end.

(** [Number(s)] for a string: the [StringToNumber] operation. *)
Definition StringToNumber (s : string) : float :=
  let t := trim s in
  match t with
  | EmptyString => 0%float
  | String c t' =>
      match radix_literal t with
      | Some x => x
      | None =>
          let '(negative, u) :=
            if Ascii.eqb c "-" then (true, t')
            else if Ascii.eqb c "+" then (false, t')
            else (false, t) in
          match unsigned_decimal u with
          | Some x => signed negative x
          | None => nan
          end
      end
  end.

(** *** Calendar arithmetic (proleptic Gregorian, UTC) *)

Definition is_leap (y : Z) : bool :=
  ((y mod 4 =? 0) && negb (y mod 100 =? 0)) || (y mod 400 =? 0).

Definition days_in_month (y m : Z) : Z :=
  if m =? 2 then (if is_leap y then 29 else 28)
  else if (m =? 4) || (m =? 6) || (m =? 9) || (m =? 11) then 30
  else 31.

(** Days from 1970-01-01 to the civil date [y-m-d]. *)
Definition days_from_civil (y m d : Z) : Z :=
  let y' := if m <=? 2 then y - 1 else y in
  let era := y' / 400 in
  let yoe := y' - era * 400 in
  let mp := (m + 9) mod 12 in
  let doy := (153 * mp + 2) / 5 + d - 1 in
  let doe := yoe * 365 + yoe / 4 - yoe / 100 + doy in
  era * 146097 + doe - 719468.

(** The civil date of a day number. *)
Definition civil_from_days (z : Z) : Z * Z * Z :=
  let z := z + 719468 in
  let era := z / 146097 in
  let doe := z - era * 146097 in
  let yoe := (doe - doe / 1460 + doe / 36524 - doe / 146096) / 365 in
  let doy := doe - (365 * yoe + yoe / 4 - yoe / 100) in
  let mp := (5 * doy + 2) / 153 in
  let d := doy - (153 * mp + 2) / 5 + 1 in
  let m := if mp <? 10 then mp + 3 else mp - 9 in
  (yoe + era * 400 + (if m <=? 2 then 1 else 0), m, d).

Definition ms_per_day : Z := 86400000.

(** The time value of a date and time of day, [nan] outside the range of
    time values or for an impossible date. *)
Definition make_time (y m d hh mm ss ms offset_minutes : Z) : float :=
  if (1 <=? m) && (m <=? 12) && (1 <=? d) && (d <=? days_in_month y m)
     && ((hh <=? 23) || ((hh =? 24) && (mm =? 0) && (ss =? 0) && (ms =? 0)))
     && (mm <=? 59) && (ss <=? 59)
  then
    let t := days_from_civil y m d * ms_per_day
             + ((hh * 60 + mm - offset_minutes) * 60 + ss) * 1000 + ms in
    if Z.abs t <=? 8640000000000000 then
      if t <? 0 then PrimFloat.opp (round_binary (- t) 0) else round_binary t 0
    else nan
  else nan.

(** Exactly [n] decimal digits. *)
Fixpoint fixed_digits (n : nat) (s : string) (acc : Z) : option (Z * string) :=
  match n with
  | O => Some (acc, s)
  | S n' =>
      match s with
      | String c s' =>
          match digit c with
          | Some d => fixed_digits n' s' (10 * acc + d)
          | None => None
          end
      | EmptyString => None
      end
  end.

Definition expect (c : ascii) (s : string) : option string :=
  match s with
  | String c' s' => if Ascii.eqb c c' then Some s' else None
  | EmptyString => None
  end.

(** The time-zone part of the ISO format: nothing (local time, here UTC),
    [Z], or [+HH:mm] / [-HH:mm]; the result is the offset in minutes. *)
Definition iso_zone (s : string) : option Z :=
  match s with
  | EmptyString => Some 0
  | String "Z" EmptyString => Some 0
  | String c s' =>
      if Ascii.eqb c "+" || Ascii.eqb c "-" then
        match fixed_digits 2 s' 0 with
        | Some (h, s1) =>
            match expect ":" s1 with
            | Some s2 =>
                match fixed_digits 2 s2 0 with
                | Some (m, EmptyString) =>
                    if (h <=? 23) && (m <=? 59)
                    then Some (if Ascii.eqb c "-" then - (h * 60 + m)
                               else h * 60 + m)
                    else None
                | _ => None
                end
            | None => None
            end
        | None => None
        end
      else None
  end.

(** The time part, after the [T]: [HH:mm], [HH:mm:ss] or [HH:mm:ss.sss],
    then the zone. *)
Definition iso_time (y m d : Z) (s : string) : float :=
  match fixed_digits 2 s 0 with
  | Some (hh, s1) =>
      match expect ":" s1 with
      | Some s2 =>
          match fixed_digits 2 s2 0 with
          | Some (mm, s3) =>
              let '(ss, ms, s4) :=
                match expect ":" s3 with
                | Some s31 =>
                    match fixed_digits 2 s31 0 with
                    | Some (ss, s32) =>
                        match expect "." s32 with
                        | Some s33 =>
                            match fixed_digits 3 s33 0 with
                            | Some (ms, s34) => (ss, ms, s34)
                            | None => (ss, 0, s32)
                            end
                        | None => (ss, 0, s32)
                        end
                    | None => (0, 0, s3)
                    end
                | None => (0, 0, s3)
                end in
              match iso_zone s4 with
              | Some offset => make_time y m d hh mm ss ms offset
              | None => nan
              end
          | None => nan
          end
      | None => nan
      end
  | None => nan
  end.

(** The ECMAScript date-time string format. *)
Definition parse_iso (s : string) : float :=
  match fixed_digits 4 s 0 with
  | Some (y, EmptyString) => make_time y 1 1 0 0 0 0 0
  | Some (y, String "-" s1) =>
      match fixed_digits 2 s1 0 with
      | Some (m, EmptyString) => make_time y m 1 0 0 0 0 0
      | Some (m, String "-" s2) =>
          match fixed_digits 2 s2 0 with
          | Some (d, EmptyString) => make_time y m d 0 0 0 0 0
          | Some (d, String "T" s3) => iso_time y m d s3
          | _ => nan
          end
      | Some (m, String "T" s3) => iso_time y m 1 s3
      | _ => nan
      end
  | Some (y, String "T" s3) => iso_time y 1 1 s3
  | _ => nan
  end.

Definition month_names : list string :=
  ["Jan"; "Feb"; "Mar"; "Apr"; "May"; "Jun";
   "Jul"; "Aug"; "Sep"; "Oct"; "Nov"; "Dec"]%list.

Definition day_names : list string :=
  ["Sun"; "Mon"; "Tue"; "Wed"; "Thu"; "Fri"; "Sat"]%list.

Fixpoint month_of_name (names : list string) (s : string) (m : Z)
  : option (Z * string) :=
  match names with
  | nil => None
  | cons n names' =>
      if startsWith s n then Some (m, substring 3 (String.length s - 3) s)
      else month_of_name names' s (m + 1)
  end.

(** The format written by [toString]:
    [Www Mmm DD YYYY HH:mm:ss GMT+0000 (...)]. *)
Definition parse_toString (s : string) : float :=
  if existsb (fun n => startsWith s (n ++ " ")) day_names then
    match month_of_name month_names (substring 4 (String.length s - 4) s) 1 with
    | Some (m, s1) =>
        match expect " " s1 with
        | Some s2 =>
            match fixed_digits 2 s2 0 with
            | Some (d, s3) =>
                match expect " " s3 with
                | Some s4 =>
                    let '(y, n, s5) := digits_from digit 10 s4 0 0 in
                    if n <? 4 then nan
                    else
                      match expect " " s5 with
                      | Some s6 =>
                          if startsWith (substring 8 (String.length s6 - 8) s6)
                                        " GMT+0000"
                          then iso_time y m d (substring 0 8 s6)
                          else nan
                      | None => nan
                      end
                | None => nan
                end
            | None => nan
            end
        | None => nan
        end
    | None => nan
    end
  else nan.

(** [Date.parse(s)]. *)
Definition Date_parse (s : string) : float :=
  let t := parse_iso s in
  if PrimFloat.is_nan t then parse_toString s else t.

(** *** Printing *)

Definition digit_char (d : Z) : ascii := ascii_of_nat (Z.to_nat (48 + d)).

Fixpoint digits_of (fuel : nat) (n : Z) (acc : string) : string :=
  match fuel with
  | O => acc
  | S fuel' =>
      let acc' := String (digit_char (n mod 10)) acc in
      if n <? 10 then acc' else digits_of fuel' (n / 10) acc'
  end.

(** Decimal digits of a non-negative integer. *)
Definition Z_to_string (n : Z) : string :=
  digits_of (S (Z.to_nat (Z.log2 n))) n EmptyString.

Fixpoint zeros (n : nat) : string :=
  match n with O => EmptyString | S n' => String "0" (zeros n') end.

Definition pad (width : nat) (n : Z) : string :=
  let s := Z_to_string n in
  (zeros (width - String.length s) ++ s)%string.

(** The integer a finite integral number denotes. *)
Definition Z_of_num (x : float) : Z :=
  match Prim2SF x with
  | S754_finite s m e =>
      let v := if 0 <=? e then Z.pos m * 2 ^ e else Z.pos m / 2 ^ (- e) in
      if s then - v else v
  | _ => 0
  end.

(** [String(d)] for a date: [Date.prototype.toString] in UTC. *)
Definition DateToString (t : float) : string :=
  if PrimFloat.is_nan t then "Invalid Date"
  else
    let tv := Z_of_num t in
    let day := tv / ms_per_day in
    let ms := tv mod ms_per_day in
    let '(y, m, d) := civil_from_days day in
    let wd := (day + 4) mod 7 in
    let year := if y <? 0 then String "-" (pad 6 (- y)) else pad 4 y in
    let hh := pad 2 (ms / 3600000) in
    let mm := pad 2 (ms / 60000 mod 60) in
    let ss := pad 2 (ms / 1000 mod 60) in
    (nth (Z.to_nat wd) day_names "" ++ " "
     ++ nth (Z.to_nat (m - 1)) month_names "" ++ " "
     ++ pad 2 d ++ " " ++ year ++ " " ++ hh ++ ":" ++ mm ++ ":" ++ ss
     ++ " GMT+0000 (Coordinated Universal Time)")%string.

(** The exact value [p / q] of a positive finite number. *)
Definition exact_ratio (x : float) : Z * Z :=
  match Prim2SF x with
  | S754_finite _ m e =>
      if 0 <=? e then (Z.pos m * 2 ^ e, 1) else (Z.pos m, 2 ^ (- e))
  | _ => (0, 1)
  end.

(** [p / q * 10 ^ j] as a fraction. *)
Definition scale10 (pq : Z * Z) (j : Z) : Z * Z :=
  let (p, q) := pq in
  if 0 <=? j then (p * 10 ^ j, q) else (p, q * 10 ^ (- j)).

(** The decimal exponent [k] with [10 ^ (k - 1) <= p / q < 10 ^ k]. *)
Fixpoint adjust_exponent (fuel : nat) (pq : Z * Z) (k : Z) : Z :=
  match fuel with
  | O => k
  | S fuel' =>
      let (num, den) := scale10 pq (- k) in
      if den <=? num then adjust_exponent fuel' pq (k + 1) else k
  end.

Definition decimal_exponent (pq : Z * Z) : Z :=
  let (p, q) := pq in
  adjust_exponent 8 pq (((Z.log2 p - Z.log2 q) * 30103) / 100000 - 2).

(** The shortest digit string [s] (with [n] digits) and exponent [k] such
    that [s * 10 ^ (k - n)] converts back to [x]; among the candidates of
    that length the one nearest to [x] is chosen, the even one on a tie. *)
Fixpoint shortest (fuel : nat) (x : float) (pq : Z * Z) (k n : Z)
  : Z * Z * Z :=
  let (num, den) := scale10 pq (n - k) in
  let lo := num / den in
  let hi := lo + 1 in
  let ok c := PrimFloat.eqb (round_decimal c (k - n)) x in
  let pick_lo := (lo, n, k) in
  let pick_hi := if hi =? 10 ^ n then (10 ^ (n - 1), n, k + 1) else (hi, n, k) in
  match fuel with
  | O => pick_lo
  | S fuel' =>
      if num mod den =? 0 then pick_lo
      else
        match ok lo, ok hi with
        | true, false => pick_lo
        | false, true => pick_hi
        | true, true =>
            match 2 * num ?= (2 * lo + 1) * den with
            | Lt => pick_lo
            | Gt => pick_hi
            | Eq => if Z.even lo then pick_lo else pick_hi
            end
        | false, false => shortest fuel' x pq k (n + 1)
        end
  end.

(** [Number::toString] for a positive finite number. *)
Definition positive_to_string (x : float) : string :=
  let pq := exact_ratio x in
  let '(s, n, k) := shortest 20 x pq (decimal_exponent pq) 1 in
  let digits := pad (Z.to_nat n) s in
  if (n <=? k) && (k <=? 21) then (digits ++ zeros (Z.to_nat (k - n)))%string
  else if (0 <? k) && (k <=? 21) then
    (substring 0 (Z.to_nat k) digits ++ "."
     ++ substring (Z.to_nat k) (Z.to_nat (n - k)) digits)%string
  else if (-6 <? k) && (k <=? 0) then
    ("0." ++ zeros (Z.to_nat (- k)) ++ digits)%string
  else
    let e := k - 1 in
    let sign : string := if e <? 0 then "-" else "+" in
    let exponent := (sign ++ Z_to_string (Z.abs e))%string in
    if n =? 1 then (digits ++ "e" ++ exponent)%string
    else (substring 0 1 digits ++ "."
          ++ substring 1 (Z.to_nat (n - 1)) digits ++ "e" ++ exponent)%string.

(** [String(x)] for a number. *)
Definition NumberToString (x : float) : string :=
  if PrimFloat.is_nan x then "NaN"
  else if PrimFloat.is_zero x then "0"
  else if PrimFloat.is_infinity x then
    (if PrimFloat.ltb x 0 then "-Infinity" else "Infinity")
  else if PrimFloat.ltb x 0 then String "-" (positive_to_string (PrimFloat.opp x))
  else positive_to_string x.

(** *** Sorting with an inconsistent comparator

    The order left by a binary insertion sort that first takes the run at
    the start of the array, reversed when it descends, as TimSort does on
    a short array.  A [nan] difference counts as 0. *)

(** The comparator [(a, b) => a - b] answers a negative number. *)
Definition before (a b : float) : bool := (a - b <? 0)%float.

(** The length of the run that starts with [previous], within [rest]. *)
Fixpoint run_length (descending : bool) (previous : float)
  (rest : list (float * nat)) : nat :=
  match rest with
  | [] => O
  | current :: rest' =>
      if Bool.eqb (before (fst current) previous) descending
      then S (run_length descending (fst current) rest')
      else O
  end.

(** The place of [pivot] in the sorted [prefix], between [left] and
    [right]. *)
Fixpoint search (fuel : nat) (prefix : list (float * nat)) (pivot : float)
  (left right : nat) : nat :=
  match fuel with
  | O => left
  | S fuel' =>
      if (left <? right)%nat
      then
        let mid := (left + (right - left) / 2)%nat in
        if before pivot (fst (nth mid prefix (0%float, O)))
        then search fuel' prefix pivot left mid
        else search fuel' prefix pivot (S mid) right
      else left
  end.

Definition insert_pivot (prefix : list (float * nat)) (pivot : float * nat)
  : list (float * nat) :=
  let place :=
    search (S (List.length prefix)) prefix (fst pivot) O (List.length prefix) in
  (firstn place prefix ++ pivot :: skipn place prefix)%list.

Definition sortOrder (numbers : list float) : list nat :=
  let items := combine numbers (seq O (List.length numbers)) in
  match items with
  | first :: second :: rest =>
      let descending := before (fst second) (fst first) in
      let n := S (S (run_length descending (fst second) rest)) in
      let run := firstn n items in
      map snd (fold_left insert_pivot (skipn n items)
                 (if descending then rev run else run))
  | _ => map snd items
  end.

Definition host : Host :=
  {| Js.StringToNumber := StringToNumber;
     Js.Date_parse := Date_parse;
     Js.NumberToString := NumberToString;
     Js.DateToString := DateToString;
     Js.sortOrder := sortOrder |}.

End RefHost.

(** * Properties

    ** Vocabulary of the statements *)

Import Js DataProcessing.
Local Open Scope list_scope.

Section NormalizedCells.
Context (H : Host).

(** What [normalizeKey] leaves in a cell holding [v]. *)
Definition normalized (v : value) : value :=
  match v with
  | VStr "" | VUndefined | VNull => VNull
  | _ =>
      if negb (isNaN H v) then VNum (ToNumber H v)
      else if negb (isNaN_num (Date_parse_value H v)) then new_Date H v
      else v
  end.

Definition is_date (v : value) : bool :=
  match v with VDate _ => true | _ => false end.

(** No cell of the table is a [Date]. *)
Definition date_free (data : list row) : bool :=
  forallb (forallb (fun kv : string * value => negb (is_date (snd kv)))) data.

Definition normalizedRow (r : row) : row :=
  map (fun kv => (fst kv, normalized (snd kv))) r.

End NormalizedCells.

(** [key] contains [token], letter case apart. *)
Definition mentions (key token : string) : Prop :=
  exists pre mid post, key = (pre ++ mid ++ post)%string /\ toLowerCase mid = token.

(** The tokens of the dataset-shape heuristic. *)
Definition time_tokens : list string := ["year"; "date"; "time"].
Definition entity_tokens : list string :=
  ["id"; "entity"; "firm"; "company"; "province"; "city"].

(** Some column name contains one of the tokens. *)
Definition some_column_mentions (tokens columns : list string) : Prop :=
  exists column token,
    In column columns /\ In token tokens /\ mentions column token.

(** Every reference of the table points into the store. *)
Definition table_ok (h : store) (data : list ref) : Prop :=
  Forall (fun r => r < List.length h) data.

(** A cell after imputation with [fill]. *)
Definition impute (fill : value) (c : value) : value :=
  if is_null c then fill else c.

(** The indices flagged by the configured detector. *)
Definition flagged (H : Host) (config : Outlier.t) (values : list value)
  : list nat :=
  match Outlier.method config with
  | out_zscore => detectOutliersZScore H values (Outlier.threshold config)
  | out_iqr => detectOutliersIQR H values (Outlier.threshold config)
  | out_none => []
  end.

(** The bound written over a flagged cell holding [c]:
    [mean + threshold * std] above the mean, [mean - threshold * std]
    otherwise. *)
Definition clamped (H : Host) (config : Outlier.t) (values : list value)
  (c : value) : value :=
  let mean := calculateMean H values in
  let std := calculateStd H values in
  VNum (if (mean <? ToNumber H c)%float
        then mean + Outlier.threshold config * std
        else mean - Outlier.threshold config * std)%float.

(** ** Sample data *)

(** A table as the CSV parser yields it: every cell is a string. *)
Definition sample_table : list row :=
  [ [("id", VStr "1"); ("height", VStr "1.5"); ("city", VStr "Lyon");
     ("note", VStr "")];
    [("id", VStr "2"); ("height", VStr " 2e1 "); ("city", VStr "");
     ("note", VStr "n/a")] ].

Definition firm_year_table : list row :=
  [[("firm_id", VStr "a"); ("Year", VNum 2020); ("revenue", VNum 1)]].

Definition empty_column_table : list row :=
  [ [("age", VNum 31); ("note", VNull)];
    [("age", VNum 45); ("note", VNull)] ].

(** A numeric variable named [x]; the stages only read its name and type. *)
Definition numeric_variable (x : string) : VariableInfo :=
  {| name := x;
     type := numeric;
     stats := {| count := 0; mean := 0; std := 0; min := 0; max := 0;
                 missing := 0 |} |}.

(** The store holding one row [{x: v}] per cell of a column. *)
Definition single_column (x : string) (cells : list value) : store :=
  map (fun v => [(x, v)]) cells.

Definition survey_rows : store :=
  [ [("age", VNum 31); ("income", VNull)];
    [("age", VNull); ("income", VNum 10)];
    [("age", VNum 45); ("income", VNum 20)];
    [("age", VNum 52); ("income", VNum 30)] ].

Definition mean_half : MissingValue.t :=
  {| MissingValue.method := mv_mean; MissingValue.threshold := Some 0.5%float |}.

Definition mean_zero : MissingValue.t :=
  {| MissingValue.method := mv_mean; MissingValue.threshold := Some 0%float |}.

Definition zscore_only : PreprocessConfig :=
  {| missingValue := {| MissingValue.method := mv_none;
                        MissingValue.threshold := Some 0.5%float |};
     outlier := {| Outlier.method := out_none; Outlier.threshold := 3 |};
     standardization := {| Standardization.method := std_zscore |} |}.

Definition iqr_15 : Outlier.t :=
  {| Outlier.method := out_iqr; Outlier.threshold := 1.5 |}.

Definition survey : MethodRecommendation.DataInfo :=
  {| MethodRecommendation.dataType := "cross_section";
     MethodRecommendation.hasInstrumental := true;
     MethodRecommendation.hasMediator := false;
     MethodRecommendation.hasModerator := false;
     MethodRecommendation.hasGroupVariable := false;
     MethodRecommendation.hasTimeVariable := false;
     MethodRecommendation.hasEntityVariable := false;
     MethodRecommendation.sampleSize := 120 |}.

(** A column of prices with one far value. *)
Definition priced_rows : store :=
  single_column "price" (map VNum [1; 2; 3; 4; 100]%float).

(** ** Vocabulary of the further properties *)

(** The entry in row [i] and column [j] of a matrix. *)
Definition entry (m : list (list float)) (i j : nat) : float :=
  nth j (nth i m []) 0%float.

(** A cell after [row[key] = (row[key] - shift) / scale], which skips the
    [null] cells. *)
Definition rescaled (H : Host) (shift scale : float) (c : value) : value :=
  if is_null c then c else VNum ((ToNumber H c - shift) / scale)%float.

(** A column after the standardization stage: z-scores with the mean and
    the standard deviation of its non-null cells, or min-max scaling with
    their minimum and maximum. *)
Definition standardized (H : Host) (config : Standardization.t)
  (cs : list value) : list value :=
  let values := nonNull cs in
  match Standardization.method config with
  | std_zscore =>
      map (rescaled H (calculateMean H values) (calculateStd H values)) cs
  | std_minmax =>
      let min := Math_min (map (ToNumber H) values) in
      let max := Math_max (map (ToNumber H) values) in
      map (rescaled H min (max - min)) cs
  | std_none => cs
  end.

(** The replay parameters recorded for the column. *)
Definition standardEntry (H : Host) (config : Standardization.t)
  (cs : list value) : option StdEntry.t :=
  let values := nonNull cs in
  match Standardization.method config with
  | std_zscore =>
      Some {| StdEntry.method := "zscore";
              StdEntry.params :=
                ZScoreParams (calculateMean H values) (calculateStd H values) |}
  | std_minmax =>
      Some {| StdEntry.method := "minmax";
              StdEntry.params :=
                MinMaxParams (Math_min (map (ToNumber H) values))
                             (Math_max (map (ToNumber H) values)) |}
  | std_none => None
  end.

Definition minmax_scaling : Standardization.t :=
  {| Standardization.method := std_minmax |}.

(** Whether the summary records that the rows with a null cell of the
    numeric variable [v] were dropped. *)
Definition removed (summary : object Entry.t) (v : VariableInfo) : bool :=
  match type v, lookup summary (name v) with
  | numeric, Some e => String.eqb (Entry.method e) "remove"
  | _, _ => false
  end.

(** A row survives when its cell is not null for every removed variable. *)
Definition survives (h : store) (summary : object Entry.t)
  (variables : list VariableInfo) (r : ref) : bool :=
  forallb (fun v => negb (removed summary v)
                    || negb (is_null (get (deref h r) (name v)))) variables.

(** The counts recorded for the removed variables, added up. *)
Definition droppedCount (summary : object Entry.t)
  (variables : list VariableInfo) : Z :=
  fold_right
    (fun v acc =>
       (match lookup summary (name v) with
        | Some e => if removed summary v then Entry.count e else 0
        | None => 0
        end + acc)%Z)
    0%Z variables.

Definition remove_half : MissingValue.t :=
  {| MissingValue.method := mv_remove; MissingValue.threshold := None |}.

(** The value written over the null cells of a column by the imputing
    methods (the median is written as [calculateMedian] returns it, the
    mean is a number), and the name they are recorded under. *)
Definition fill_value (H : Host) (config : MissingValue.t)
  (values : list value) : value :=
  match MissingValue.method config with
  | mv_median => calculateMedian H values
  | _ => VNum (calculateMean H values)
  end.

Definition fill_name (config : MissingValue.t) : string :=
  match MissingValue.method config with
  | mv_median => "median"
  | _ => "mean"
  end.

Definition median_nan : MissingValue.t :=
  {| MissingValue.method := mv_median;
     MissingValue.threshold := Some PrimFloat.nan |}.

(** A cell that the normalization pass turns into [null]. *)
Definition blank (v : value) : bool :=
  match v with
  | VStr "" | VUndefined | VNull => true
  | _ => false
  end.

(** The row has a property [k] and it is blank. *)
Definition blank_cell (r : row) (k : string) : bool :=
  match lookup r k with
  | Some v => blank v
  | None => false
  end.

(** What a cell can hold after the normalization pass: never [undefined],
    a boolean or the empty string, and a string only if it is neither
    numeric nor a date the engine can parse. *)
Definition cell_normal (H : Host) (c : value) : Prop :=
  match c with
  | VUndefined | VBool _ => False
  | VStr s => s <> ""
              /\ isNaN_num (StringToNumber H s) = true
              /\ isNaN_num (Date_parse H s) = true
  | _ => True
  end.

(** The header names of a CSV text and its data lines, as [parseCSV]
    splits it. *)
Definition csv_headers (text : string) : list string :=
  map trim (split (hd "" (split text "\n")) ",").

Definition csv_lines (text : string) : list string :=
  filter (fun line => negb (String.eqb (trim line) "")) (tl (split text "\n")).

(** The field of [line] at position [index], trimmed; the empty string
    when the line is too short. *)
Definition csv_field (line : string) (index : nat) : string :=
  match nth_error (split line ",") index with
  | Some v => trim v
  | None => ""
  end.

(** The record of a line: the [i]-th header with the [i]-th field. *)
Definition csv_record (headers : list string) (line : string) : row :=
  map (fun ih => (snd ih, VStr (csv_field line (fst ih))))
      (combine (seq 0 (List.length headers)) headers).

(** The order in which an object lists the properties created in the
    order of [o]: those whose key is an array index first, by increasing
    index, then the others as they come. *)
Definition is_index {V} (kv : string * V) : bool :=
  match array_index (fst kv) with Some _ => true | None => false end.

Definition index_of {V} (kv : string * V) : Z :=
  match array_index (fst kv) with Some n => n | None => 0%Z end.

Fixpoint insert_by_index {V} (kv : string * V) (sorted : object V)
  : object V :=
  match sorted with
  | [] => [kv]
  | e :: rest =>
      if (index_of e <? index_of kv)%Z then e :: insert_by_index kv rest
      else kv :: sorted
  end.

Definition own_order {V} (o : object V) : object V :=
  fold_left (fun sorted kv => insert_by_index kv sorted) (filter is_index o) []
  ++ filter (fun kv => negb (is_index kv)) o.

(** U+00A0, a no-break space, in UTF-8. *)
Definition no_break_space : string :=
  String "194"%char (String "160"%char EmptyString).

(** The properties that an assignment of a string creates: all but
    [__proto__]. *)
Definition assignable {V} (kv : string * V) : bool :=
  negb (String.eqb (fst kv) "__proto__").

(** A column after the outlier stage: the cells at the flagged positions
    are clamped, the others are kept. *)
Definition clampColumn (H : Host) (config : Outlier.t) (values : list value)
  : list value :=
  map (fun ic => if existsb (Nat.eqb (fst ic)) (flagged H config values)
                 then clamped H config values (snd ic)
                 else snd ic)
      (combine (seq 0 (List.length values)) values).

(** The entry of the outlier summary for a column; the stage is not run
    at all with method ['none']. *)
Definition outlierEntry (H : Host) (config : Outlier.t) (values : list value)
  : option Entry.t :=
  match Outlier.method config with
  | out_none => None
  | m => Some {| Entry.method := OutlierMethod_str m;
                 Entry.count :=
                   Z.of_nat (List.length (flagged H config values)) |}
  end.

Definition full_pipeline : PreprocessConfig :=
  {| missingValue := {| MissingValue.method := mv_mean;
                        MissingValue.threshold := None |};
     outlier := {| Outlier.method := out_iqr; Outlier.threshold := 1.5 |};
     standardization := {| Standardization.method := std_minmax |} |}.

(** Prices with a missing cell and a far value. *)
Definition gapped_prices : store :=
  single_column "price" [VNum 1; VNum 2; VNull; VNum 3; VNum 4; VNum 100].

(** A column after imputation by the configured method. *)
Definition imputed (H : Host) (config : MissingValue.t) (cs : list value)
  : list value :=
  map (impute (fill_value H config (nonNull cs))) cs.

(** *** The editor *)

(** The recommendations that go with a detected type when no instrumental
    variable is declared. *)
Definition recommended_for (dataType : string)
  : list MethodRecommendation.MethodRecommendation :=
  if String.eqb dataType "panel"
  then [MethodRecommendation.fixedEffects; MethodRecommendation.randomEffects]
  else if String.eqb dataType "cross_section"
  then [MethodRecommendation.ols]
  else if String.eqb dataType "time_series"
  then [MethodRecommendation.timeSeries]
  else [].

(** A variable of the editor, with the fields the handlers read. *)
Definition editor_variable (x : string) (r : option string)
  : Editor.VariableInfo :=
  {| Editor.name := x; Editor.type := "numeric"; Editor.role := r;
     Editor.stats := [] |}.

Definition spreadsheet : DataProcessing.File.t :=
  {| DataProcessing.File.name := "panel.csv";
     DataProcessing.File.type := "text/csv" |}.

(** An answer of the upload end point that names the data type in the
    editor's own vocabulary. *)
Definition cross_answer : Editor.Uploaded.data :=
  {| Editor.Uploaded.processedData :=
       Some {| Editor.Uploaded.variables :=
                 Some [ {| Editor.Uploaded.type := "numeric";
                           Editor.Uploaded.observations := Some 120%float |} ] |};
     Editor.Uploaded.preview := Some "x y";
     Editor.Uploaded.detectedDataType :=
       Some {| Editor.DataTypeInfo.type := "cross";
               Editor.DataTypeInfo.confidence := 0.7 |} |}.

(** An answer without the detected data type. *)
Definition untyped_answer : Editor.Uploaded.data :=
  {| Editor.Uploaded.processedData :=
       Some {| Editor.Uploaded.variables := Some [] |};
     Editor.Uploaded.preview := None;
     Editor.Uploaded.detectedDataType := None |}.

(** The file passes the gate of [handleFileUpload]: it is present and its
    MIME type is one of the three allowed. *)
Definition accepted (file : option DataProcessing.File.t) : bool :=
  match file with
  | Some f =>
      existsb (String.eqb (DataProcessing.File.type f)) Editor.allowedTypes
  | None => false
  end.

(** The answer holds everything the handler reads. *)
Definition complete (data : Editor.Uploaded.data) : bool :=
  match Editor.Uploaded.detectedDataType data,
        Editor.Uploaded.processedData data with
  | Some _, Some processed =>
      match Editor.Uploaded.variables processed with
      | Some _ => true
      | None => false
      end
  | _, _ => false
  end.

Definition upload_url (writingId sectionId : string) : string :=
  ("/api/writing/" ++ writingId ++ "/sections/" ++ sectionId
   ++ "/data-analysis/upload")%string.

(** The cell converts to the number 0 or to the number 1. *)
Definition zero_one (H : Host) (v : value) : bool :=
  (ToNumber H v =? 0)%float || (ToNumber H v =? 1)%float.

(** The share of the values that convert to a number. *)
Definition numeric_share (H : Host) (values : list value) : float :=
  (num_of_nat (List.length (filter (fun v => negb (isNaN H v)) values))
   / num_of_nat (List.length values))%float.

(** The type [analyzeVariables] gives a column whose non-null cells are
    [values]. *)
Definition column_type (H : Host) (values : list value) : VariableType :=
  if forallb (zero_one H) values then dummy
  else if (0.8 <? numeric_share H values)%float then numeric
  else if forallb (fun v => negb (isNaN_num (Date_parse_value H v))) values
  then date
  else categorical.

Definition answers_table : list row :=
  [ [("passed", VStr "1"); ("score", VNum 12)];
    [("passed", VBool false); ("score", VNum 7)];
    [("passed", VNull); ("score", VStr "n/a")] ].

(** The configuration of the analysis is complete: processed data, a
    selected method and at least one selected variable. *)
Definition ready (processedData : option Editor.Uploaded.processed)
  (selectedMethod : option MethodRecommendation.MethodRecommendation)
  (selectedVariables : list Editor.VariableInfo) : bool :=
  match processedData, selectedMethod, selectedVariables with
  | Some _, Some _, _ :: _ => true
  | _, _, _ => false
  end.

(** The callback is present and a call of it throws. *)
Definition throws (callback : UseApi.Callback) : bool :=
  match callback with
  | Some (Some _) => true
  | _ => false
  end.

(** * Proofs *)

(** ** Objects *)

Section ObjectFacts.
Context {V : Type}.
Implicit Types (o : object V) (k : string) (v : V).

Lemma lookup_put_last_same o k v : lookup (put_last o k v) k = Some v.
Proof.
  induction o as [|[k' v'] o IH]; simpl.
  - now rewrite String.eqb_refl.
  - destruct (String.eqb k' k) eqn:E; simpl; rewrite E; auto.
Qed.

Lemma lookup_put_last_other o k k' v :
  k <> k' -> lookup (put_last o k v) k' = lookup o k'.
Proof.
  intros Hne. induction o as [|[k1 v1] o IH]; simpl.
  - destruct (String.eqb k k') eqn:E; auto.
    apply String.eqb_eq in E. contradiction.
  - destruct (String.eqb k1 k) eqn:E; simpl.
    + apply String.eqb_eq in E. subst k1.
      destruct (String.eqb k k') eqn:E'; auto.
      apply String.eqb_eq in E'. contradiction.
    + now rewrite IH.
Qed.

Lemma lookup_insert_index_same o n k v :
  lookup o k = None -> lookup (insert_index o n k v) k = Some v.
Proof.
  induction o as [|[k' v'] o IH]; simpl; intros Hnone.
  - now rewrite String.eqb_refl.
  - destruct (String.eqb k' k) eqn:E; [discriminate|].
    destruct (array_index k') as [m|]; [destruct (m <? n)%Z|]; simpl;
      rewrite ?E, ?String.eqb_refl; auto.
Qed.

Lemma lookup_insert_index_other o n k k' v :
  k <> k' -> lookup (insert_index o n k v) k' = lookup o k'.
Proof.
  intros Hne. apply String.eqb_neq in Hne.
  induction o as [|[k1 v1] o IH]; simpl.
  - now rewrite Hne.
  - destruct (array_index k1) as [m|]; [destruct (m <? n)%Z|]; simpl;
      rewrite ?Hne, ?IH; reflexivity.
Qed.

Lemma lookup_set_same o k v : lookup (set o k v) k = Some v.
Proof.
  unfold set. destruct (lookup o k) eqn:El; [apply lookup_put_last_same|].
  destruct (array_index k);
    [now apply lookup_insert_index_same | apply lookup_put_last_same].
Qed.

Lemma lookup_set_other o k k' v :
  k <> k' -> lookup (set o k v) k' = lookup o k'.
Proof.
  intros Hne. unfold set.
  destruct (lookup o k); [now apply lookup_put_last_other|].
  destruct (array_index k);
    [now apply lookup_insert_index_other | now apply lookup_put_last_other].
Qed.

Lemma lookup_not_in o k : ~ In k (keys o) -> lookup o k = None.
Proof.
  induction o as [|[k' v'] o IH]; simpl; auto.
  intros Hn. destruct (String.eqb k' k) eqn:E.
  - apply String.eqb_eq in E. tauto.
  - apply IH. tauto.
Qed.

(** Assigning to a key that sits after a prefix not holding it. *)
Lemma lookup_middle (pre post : object V) k v :
  ~ In k (keys pre) -> lookup (pre ++ (k, v) :: post) k = Some v.
Proof.
  induction pre as [|[k1 v1] pre IH]; simpl; intros Hn.
  - now rewrite String.eqb_refl.
  - destruct (String.eqb k1 k) eqn:E.
    + apply String.eqb_eq in E. tauto.
    + apply IH. tauto.
Qed.

Lemma set_middle (pre post : object V) k v v' :
  ~ In k (keys pre) ->
  set (pre ++ (k, v) :: post) k v' = pre ++ (k, v') :: post.
Proof.
  intros Hn. unfold set. rewrite (lookup_middle pre post k v Hn).
  induction pre as [|[k1 v1] pre IH]; simpl.
  - now rewrite String.eqb_refl.
  - destruct (String.eqb k1 k) eqn:E.
    + apply String.eqb_eq in E. simpl in Hn. tauto.
    + rewrite IH; [reflexivity|]. simpl in Hn. tauto.
Qed.

Lemma keys_app (a b : object V) : keys (a ++ b) = keys a ++ keys b.
Proof. apply map_app. Qed.

End ObjectFacts.

Lemma get_set_same (r : row) k v : get (set r k v) k = v.
Proof. unfold get. now rewrite lookup_set_same. Qed.

Lemma get_set_other (r : row) k k' v : k <> k' -> get (set r k v) k' = get r k'.
Proof. intros. unfold get. now rewrite lookup_set_other. Qed.

(** ** The normalization pass *)

Section Normalization.
Context (H : Host).

Lemma normalizeKey_middle (pre post : row) key v :
  ~ In key (keys pre) ->
  normalizeKey H (pre ++ (key, v) :: post) key
  = pre ++ (key, normalized H v) :: post.
Proof.
  intros Hn. unfold normalizeKey, get.
  rewrite lookup_middle by assumption.
  unfold normalized.
  destruct v as [| |b|x|s|t]; try (now rewrite set_middle).
  - destruct (negb (isNaN H (VBool b))); [now rewrite set_middle|].
    destruct (negb _); [now rewrite set_middle | reflexivity].
  - destruct (negb (isNaN H (VNum x))); [now rewrite set_middle|].
    destruct (negb _); [now rewrite set_middle | reflexivity].
  - destruct s as [|c s]; [now rewrite set_middle|].
    destruct (negb (isNaN H _)); [now rewrite set_middle|].
    destruct (negb _); [now rewrite set_middle | reflexivity].
  - destruct (negb (isNaN H (VDate t))); [now rewrite set_middle|].
    destruct (negb _); [now rewrite set_middle | reflexivity].
Qed.

Lemma fold_normalizeKey (pre post : row) :
  NoDup (keys (pre ++ post)) ->
  fold_left (normalizeKey H) (keys post) (pre ++ post)
  = pre ++ normalizedRow H post.
Proof.
  revert pre. induction post as [|[key v] post IH]; intros pre Hnd; simpl.
  - reflexivity.
  - assert (Hn : ~ In key (keys pre)).
    { rewrite keys_app in Hnd. simpl in Hnd.
      apply NoDup_remove_2 in Hnd. intros Hin. apply Hnd.
      apply in_or_app. now left. }
    rewrite normalizeKey_middle by assumption.
    change (pre ++ (key, normalized H v) :: post)
      with (pre ++ [(key, normalized H v)] ++ post).
    rewrite app_assoc. rewrite IH.
    + now rewrite <- app_assoc.
    + rewrite <- app_assoc. rewrite keys_app in *. simpl in *. exact Hnd.
Qed.

Lemma keys_normalizedRow r : keys (normalizedRow H r) = keys r.
Proof.
  unfold keys, normalizedRow. rewrite map_map. now apply map_ext.
Qed.

(** On well-formed rows the pass normalizes every cell in place. *)
Lemma preprocessData_map (data : list row) :
  Forall row_ok data -> preprocessData H data = map (normalizedRow H) data.
Proof.
  intros Hok. destruct data as [|r data]; [reflexivity|].
  unfold preprocessData. apply map_ext_in. intros r' Hin.
  rewrite Forall_forall in Hok.
  apply (fold_normalizeKey [] r'). apply Hok, Hin.
Qed.

Lemma is_date_new_Date (v : value) : is_date (new_Date H v) = true.
Proof. now destruct v. Qed.

Lemma normalized_VNum (x : float) :
  isNaN_num x = false -> normalized H (VNum x) = VNum x.
Proof. intros E. unfold normalized, isNaN. simpl. now rewrite E. Qed.

(** A second normalization changes nothing unless the first one made a
    date. *)
Lemma normalized_twice (v : value) :
  is_date (normalized H v) = false ->
  normalized H (normalized H v) = normalized H v.
Proof.
  assert (Hgen : forall w,
    is_date (if negb (isNaN H w) then VNum (ToNumber H w)
             else if negb (isNaN_num (Date_parse_value H w)) then new_Date H w
             else w) = false ->
    normalized H w = (if negb (isNaN H w) then VNum (ToNumber H w)
                      else if negb (isNaN_num (Date_parse_value H w))
                           then new_Date H w else w) ->
    normalized H (normalized H w) = normalized H w).
  { intros w Hd Hw. rewrite Hw in *.
    destruct (isNaN H w) eqn:E; simpl in *.
    - destruct (isNaN_num (Date_parse_value H w)); simpl in *.
      + exact Hw.
      + now rewrite is_date_new_Date in Hd.
    - now apply normalized_VNum. }
  destruct v as [| |b|x|s|t]; try reflexivity;
    try (intros Hd; apply Hgen; [exact Hd | reflexivity]).
  destruct s as [|c s]; [reflexivity|].
  intros Hd; apply Hgen; [exact Hd | reflexivity].
Qed.

Lemma normalizedRow_twice (r : row) :
  forallb (fun kv : string * value => negb (is_date (snd kv)))
          (normalizedRow H r) = true ->
  normalizedRow H (normalizedRow H r) = normalizedRow H r.
Proof.
  induction r as [|[k v] r IH]; simpl; [reflexivity|].
  intros Hd. apply andb_prop in Hd. destruct Hd as [Hv Hr].
  rewrite IH by assumption. f_equal. f_equal.
  apply normalized_twice. now apply negb_true_iff in Hv.
Qed.

End Normalization.

(** C1 (amended): the normalization pass is idempotent on every table whose
    normalized form holds no date cell: cells already normalized to null,
    a number or a string are left unchanged by a second run. *)
Theorem preprocessData_idempotent_without_dates (H : Host) (data : list row) :
  Forall row_ok data ->
  date_free (preprocessData H data) = true ->
  preprocessData H (preprocessData H data) = preprocessData H data.
Proof.
  intros Hok Hfree.
  rewrite (preprocessData_map H data Hok) in *.
  rewrite preprocessData_map.
  - rewrite map_map. apply map_ext_in. intros r Hin.
    apply normalizedRow_twice.
    unfold date_free in Hfree. rewrite forallb_forall in Hfree.
    apply Hfree. now apply in_map.
  - rewrite Forall_forall in *. intros r Hin.
    apply in_map_iff in Hin. destruct Hin as [r0 [<- Hin0]].
    unfold row_ok. rewrite keys_normalizedRow. now apply Hok.
Qed.

Lemma sample_table_ok : Forall row_ok sample_table.
Proof.
  repeat constructor; simpl; intuition discriminate.
Defined.

Lemma preprocessData_idempotent_witness :
  Forall row_ok sample_table /\
  date_free (preprocessData RefHost.host sample_table) = true /\
  preprocessData RefHost.host (preprocessData RefHost.host sample_table)
  = preprocessData RefHost.host sample_table.
Proof.
  split; [exact sample_table_ok|]. split; [vm_compute; reflexivity|].
  apply (preprocessData_idempotent_without_dates RefHost.host sample_table).
  - exact sample_table_ok.
  - vm_compute; reflexivity.
Defined.

(** A second run turns a valid date into its time value. *)
Lemma preprocessData_date_to_number (H : Host) (key : string) (t : float) :
  isNaN_num t = false ->
  preprocessData H [[(key, VDate t)]] = [[(key, VNum t)]].
Proof.
  intros Ht. unfold preprocessData. simpl.
  unfold normalizeKey, get. simpl. rewrite String.eqb_refl.
  unfold isNaN. simpl. rewrite Ht. cbn [negb].
  pose proof (set_middle [] [] key (VDate t) (VNum t)) as Hset.
  cbn [app] in Hset. rewrite Hset by (intros []). reflexivity.
Qed.

(** C1, as stated, fails on a date column: the ISO date string becomes a
    [Date] in the first run and a number in the second. *)
Lemma preprocessData_not_idempotent :
  preprocessData RefHost.host
    (preprocessData RefHost.host [[("day", VStr "2020-01-01")]])
  <> preprocessData RefHost.host [[("day", VStr "2020-01-01")]].
Proof. vm_compute. discriminate. Qed.

Example preprocessData_date_runs :
  preprocessData RefHost.host [[("day", VStr "2020-01-01")]]
  = [[("day", VDate 1577836800000)]]
  /\ preprocessData RefHost.host [[("day", VDate 1577836800000)]]
  = [[("day", VNum 1577836800000)]].
Proof. split; vm_compute; reflexivity. Qed.

(** ** Strings *)

Local Open Scope string_scope.

Lemma startsWith_spec (s p : string) :
  startsWith s p = true <-> exists post, s = p ++ post.
Proof.
  revert s. induction p as [|a p IH]; intros s; simpl.
  - split; [intros _; now exists s | intros _; now destruct s].
  - destruct s as [|b s]; simpl.
    + split; [discriminate | intros [post Hp]; discriminate].
    + rewrite andb_true_iff, Ascii.eqb_eq, IH. split.
      * intros [-> [post ->]]. now exists post.
      * intros [post Hp]. injection Hp as -> ->. split; [reflexivity|now exists post].
Qed.

Lemma includes_unfold (s p : string) :
  includes s p
  = startsWith s p
    || match s with EmptyString => false | String _ s' => includes s' p end.
Proof. now destruct s. Qed.

Lemma includes_spec (s p : string) :
  includes s p = true <-> exists pre post, s = pre ++ p ++ post.
Proof.
  induction s as [|c s IH]; rewrite includes_unfold, orb_true_iff, startsWith_spec.
  - split.
    + intros [[post Hp]|Hf]; [|discriminate]. now exists "", post.
    + intros [pre [post Hp]]. left. destruct pre; [now exists post | discriminate].
  - rewrite IH. split.
    + intros [[post Hp]|[pre [post Hp]]].
      * now exists "", post.
      * exists (String c pre), post. simpl. now rewrite Hp.
    + intros [pre [post Hp]]. destruct pre as [|c' pre]; simpl in Hp.
      * left. now exists post.
      * right. injection Hp as -> ->. now exists pre, post.
Qed.

Lemma toLowerCase_app (a b : string) :
  toLowerCase (a ++ b) = toLowerCase a ++ toLowerCase b.
Proof. induction a as [|c a IH]; simpl; [reflexivity | now rewrite IH]. Qed.

Lemma toLowerCase_app_inv (s a b : string) :
  toLowerCase s = a ++ b ->
  exists s1 s2, s = s1 ++ s2 /\ toLowerCase s1 = a /\ toLowerCase s2 = b.
Proof.
  revert s. induction a as [|c a IH]; intros s Hs; simpl in Hs.
  - now exists "", s.
  - destruct s as [|d s]; [discriminate|]. simpl in Hs.
    injection Hs as Hc Hs. destruct (IH s Hs) as [s1 [s2 [-> [H1 H2]]]].
    exists (String d s1), s2. simpl. now rewrite Hc, H1.
Qed.

Lemma includes_toLowerCase (key token : string) :
  includes (toLowerCase key) token = true <-> mentions key token.
Proof.
  rewrite includes_spec. unfold mentions. split.
  - intros [pre [post Hk]].
    destruct (toLowerCase_app_inv _ _ _ Hk) as [s1 [s2 [-> [_ H2]]]].
    destruct (toLowerCase_app_inv _ _ _ H2) as [m [s3 [-> [Hm _]]]].
    now exists s1, m, s3.
  - intros [pre [mid [post [-> <-]]]].
    exists (toLowerCase pre), (toLowerCase post).
    now rewrite !toLowerCase_app.
Qed.

Local Open Scope list_scope.

Lemma isTimeKey_spec (key : string) :
  isTimeKey key = true <-> exists token, In token time_tokens /\ mentions key token.
Proof.
  unfold isTimeKey. rewrite !orb_true_iff, !includes_toLowerCase. split.
  - intros [[Hm|Hm]|Hm]; eexists; (split; [|exact Hm]); simpl; auto.
  - intros [token [Hin Hm]]. simpl in Hin.
    destruct Hin as [<-|[<-|[<-|[]]]]; auto.
Qed.

Lemma isEntityKey_spec (key : string) :
  isEntityKey key = true <->
  exists token, In token entity_tokens /\ mentions key token.
Proof.
  unfold isEntityKey. rewrite !orb_true_iff, !includes_toLowerCase. split.
  - intros [[[[[Hm|Hm]|Hm]|Hm]|Hm]|Hm];
      eexists; (split; [|exact Hm]); simpl; auto 7.
  - intros [token [Hin Hm]]. simpl in Hin.
    destruct Hin as [<-|[<-|[<-|[<-|[<-|[<-|[]]]]]]]; auto 7.
Qed.

Lemma existsb_isTimeKey (columns : list string) :
  existsb isTimeKey columns = true <-> some_column_mentions time_tokens columns.
Proof.
  rewrite existsb_exists. unfold some_column_mentions. split.
  - intros [c [Hin Hc]]. apply isTimeKey_spec in Hc.
    destruct Hc as [token [Ht Hm]]. now exists c, token.
  - intros [c [token [Hin [Ht Hm]]]]. exists c. split; [assumption|].
    apply isTimeKey_spec. now exists token.
Qed.

Lemma existsb_isEntityKey (columns : list string) :
  existsb isEntityKey columns = true <->
  some_column_mentions entity_tokens columns.
Proof.
  rewrite existsb_exists. unfold some_column_mentions. split.
  - intros [c [Hin Hc]]. apply isEntityKey_spec in Hc.
    destruct Hc as [token [Ht Hm]]. now exists c, token.
  - intros [c [token [Hin [Ht Hm]]]]. exists c. split; [assumption|].
    apply isEntityKey_spec. now exists token.
Qed.

(** C8: [detectDataType] answers [null] with confidence 0 on the empty
    table; otherwise, matching the tokens in the column names of the first
    row without regard to case, panel (0.9) when a time token and an entity
    token occur, time series (0.8) when only a time token occurs, and cross
    section (0.7) otherwise. *)
Theorem detectDataType_decision_table (data : list row) :
  match data with
  | [] =>
      detectDataType data
      = {| Detected.dataType := None; Detected.confidence := 0 |}
  | first :: _ =>
      let time := some_column_mentions time_tokens (keys first) in
      let entity := some_column_mentions entity_tokens (keys first) in
      (time /\ entity ->
       detectDataType data
       = {| Detected.dataType := Some panel; Detected.confidence := 0.9 |})
      /\ (time /\ ~ entity ->
          detectDataType data
          = {| Detected.dataType := Some time_series;
               Detected.confidence := 0.8 |})
      /\ (~ time ->
          detectDataType data
          = {| Detected.dataType := Some cross_section;
               Detected.confidence := 0.7 |})
  end.
Proof.
  destruct data as [|first rest]; [reflexivity|].
  cbv zeta. unfold detectDataType.
  rewrite <- existsb_isTimeKey, <- existsb_isEntityKey.
  destruct (existsb isTimeKey (keys first));
    destruct (existsb isEntityKey (keys first)); simpl;
    repeat split; intros; intuition congruence.
Qed.

Lemma detectDataType_witness :
  detectDataType firm_year_table
  = {| Detected.dataType := Some panel; Detected.confidence := 0.9 |}.
Proof.
  apply (detectDataType_decision_table firm_year_table). split.
  - exists "Year", "year". simpl. repeat split; auto.
    exists "", "Year", "". split; reflexivity.
  - exists "firm_id", "id". simpl. repeat split; auto.
    exists "firm_", "id", "". split; reflexivity.
Defined.

(** The examples of the specification. *)
Example detectDataType_examples :
  detectDataType [] = {| Detected.dataType := None; Detected.confidence := 0 |}
  /\ detectDataType [[("firm_id", VNull); ("year", VNull); ("revenue", VNull)]]
     = {| Detected.dataType := Some panel; Detected.confidence := 0.9 |}
  /\ detectDataType [[("year", VNull); ("revenue", VNull)]]
     = {| Detected.dataType := Some time_series; Detected.confidence := 0.8 |}
  /\ detectDataType [[("revenue", VNull); ("cost", VNull)]]
     = {| Detected.dataType := Some cross_section; Detected.confidence := 0.7 |}.
Proof. repeat split. Qed.

(** ** The variable analyzer *)

Section Analyzer.
Context (H : Host).

Lemma analyzeColumn_name data c : name (analyzeColumn H data c) = c.
Proof. reflexivity. Qed.

Lemma analyzeColumn_count_missing data c :
  (count (stats (analyzeColumn H data c))
   + missing (stats (analyzeColumn H data c)))%Z
  = Z.of_nat (List.length data).
Proof. unfold analyzeColumn. simpl. lia. Qed.

(** C9: every [VariableInfo] produced by [analyzeVariables] satisfies
    [stats.count + stats.missing = data.length], whatever type was inferred;
    on a non-empty table there is one per column of the first row. *)
Theorem analyzeVariables_count_plus_missing (data : list row) :
  Forall (fun v => (count (stats v) + missing (stats v))%Z
                   = Z.of_nat (List.length data))
         (analyzeVariables H data)
  /\ map name (analyzeVariables H data)
     = match data with [] => [] | first :: _ => keys first end.
Proof.
  destruct data as [|first rest]; [split; [constructor | reflexivity]|].
  unfold analyzeVariables. split.
  - apply Forall_forall. intros v Hin. apply in_map_iff in Hin.
    destruct Hin as [c [<- _]]. apply analyzeColumn_count_missing.
  - rewrite map_map. simpl. apply map_id.
Qed.

Lemma nonNull_all_null (cs : list value) :
  Forall (fun c => c = VNull) cs -> nonNull cs = [].
Proof.
  induction 1 as [|c cs Hc _ IH]; [reflexivity|].
  subst c. simpl. exact IH.
Qed.

(** C10: on a non-empty table a column all of whose cells are [null] is a
    dummy with count 0, every row missing, mean 0, std 0, min [+Infinity]
    and max [-Infinity]. *)
Theorem analyzeVariables_all_null_column
  (first : row) (rest : list row) (c : string) :
  In c (keys first) ->
  (forall r, In r (first :: rest) -> get r c = VNull) ->
  In {| name := c;
        type := dummy;
        stats := {| count := 0;
                    mean := 0;
                    std := 0;
                    min := infinity;
                    max := neg_infinity;
                    missing := Z.of_nat (List.length (first :: rest)) |} |}
     (analyzeVariables H (first :: rest)).
Proof.
  intros Hc Hnull. unfold analyzeVariables.
  apply in_map_iff. exists c. split; [|exact Hc].
  unfold analyzeColumn.
  rewrite (nonNull_all_null (column (first :: rest) c)).
  - cbn [filter map List.length Nat.eqb forallb andb].
    unfold calculateMean, calculateStd, Math_min, Math_max.
    cbn [map fold_left]. rewrite Z.sub_0_r. reflexivity.
  - unfold column. apply Forall_forall. intros v Hin.
    apply in_map_iff in Hin. destruct Hin as [r [<- Hr]]. now apply Hnull.
Qed.

End Analyzer.

Lemma analyzeVariables_all_null_witness :
  In "note" (keys (hd [] empty_column_table))
  /\ In {| name := "note";
           type := dummy;
           stats := {| count := 0; mean := 0; std := 0;
                       min := infinity; max := neg_infinity;
                       missing := 2 |} |}
        (analyzeVariables RefHost.host empty_column_table).
Proof.
  split; [simpl; auto|].
  apply (analyzeVariables_all_null_column RefHost.host
           [("age", VNum 31); ("note", VNull)]
           [[("age", VNum 45); ("note", VNull)]] "note").
  - simpl; auto.
  - intros r [<-|[<-|[]]]; reflexivity.
Defined.

Example analyzeVariables_dummy_example :
  map (fun v => (type v, count (stats v), missing (stats v)))
      (analyzeVariables RefHost.host
         (map (fun v => [("d", v)]) [VNum 0; VNum 1; VNum 1; VNum 0; VNull]))
  = [(dummy, 4%Z, 1%Z)].
Proof. vm_compute. reflexivity. Qed.

(** ** The recommender *)

Module RecommenderFacts.
Import MethodRecommendation.

(** C5: for ['cross_section'] the recommender returns OLS (0.8) first and
    2SLS (0.85) second exactly when [hasInstrumental] holds; for ['panel']
    fixed effects (0.9) then random effects (0.85); for ['time_series'] the
    one time-series method (0.85); for any other [dataType] the empty list.
    The order is the order of the rules, not of the confidences. *)
Theorem recommendMethodsByDataStructure_table (dataInfo : DataInfo) :
  (dataType dataInfo = "cross_section" ->
   recommendMethodsByDataStructure dataInfo
   = if hasInstrumental dataInfo then [ols; twoSLS] else [ols])
  /\ (dataType dataInfo = "panel" ->
      recommendMethodsByDataStructure dataInfo = [fixedEffects; randomEffects])
  /\ (dataType dataInfo = "time_series" ->
      recommendMethodsByDataStructure dataInfo = [timeSeries])
  /\ (dataType dataInfo <> "cross_section" ->
      dataType dataInfo <> "panel" ->
      dataType dataInfo <> "time_series" ->
      recommendMethodsByDataStructure dataInfo = [])
  /\ map confidence [ols; twoSLS; fixedEffects; randomEffects; timeSeries]
     = [0.8; 0.85; 0.9; 0.85; 0.85]%float
  /\ (confidence ols <? confidence twoSLS)%float = true.
Proof.
  unfold recommendMethodsByDataStructure.
  repeat split.
  - intros ->. simpl. now destruct (hasInstrumental dataInfo).
  - now intros ->.
  - now intros ->.
  - intros Hc Hp Ht.
    apply String.eqb_neq in Hc, Hp, Ht. now rewrite Hc, Hp, Ht.
Qed.

Lemma recommendMethodsByDataStructure_witness :
  recommendMethodsByDataStructure survey = [ols; twoSLS]
  /\ recommendMethodsByDataStructure
       {| dataType := "cross";
          hasInstrumental := true;
          hasMediator := false;
          hasModerator := false;
          hasGroupVariable := false;
          hasTimeVariable := false;
          hasEntityVariable := false;
          sampleSize := 120 |} = [].
Proof.
  split.
  - apply (recommendMethodsByDataStructure_table survey). reflexivity.
  - apply recommendMethodsByDataStructure_table; simpl; discriminate.
Defined.

End RecommenderFacts.

(** ** The pipeline on concrete tables *)

(** C2 fails on the code: z-score standardization of the constant column
    [5, 5] divides 0 by 0 and leaves [NaN] in every cell, not 0. *)
Theorem standardizeData_constant_column_nan (H : Host) :
  standardizeData H [0; 1]%nat [numeric_variable "x"]
    {| Standardization.method := std_zscore |}
    (single_column "x" [VNum 5; VNum 5])
  = (Ok ([0; 1]%nat,
         [("x", {| StdEntry.method := "zscore";
                   StdEntry.params := ZScoreParams 5 0 |})]),
     single_column "x" [VNum nan; VNum nan]).
Proof. reflexivity. Qed.

(** C3 fails on the code: after [preprocessDataAdvanced] the caller's two
    row objects, which held 1 and 3, hold -1 and 1. *)
Theorem preprocessDataAdvanced_mutates_input (H : Host) :
  let before := single_column "x" [VNum 1; VNum 3] in
  let after :=
    snd (preprocessDataAdvanced H [0; 1]%nat [numeric_variable "x"]
           zscore_only before) in
  cells before [0; 1]%nat "x" = [VNum 1; VNum 3]
  /\ cells after [0; 1]%nat "x" = [VNum (-1); VNum 1].
Proof. split; reflexivity. Qed.

(** C4 fails on the code: for a file that is neither CSV nor a spreadsheet
    [parseFile] still starts a read, and when the read completes it resolves
    with an empty data set instead of rejecting. *)
Theorem parseFile_unsupported_resolves (H : Host)
  (XLSX_first_sheet : string -> result (list row)) (content : string) :
  let file := {| File.name := "notes.txt"; File.type := "text/plain" |} in
  fst (parseFile H XLSX_first_sheet file) = readAsArrayBuffer
  /\ snd (parseFile H XLSX_first_sheet file) (onload content)
     = resolve {| rawData := [];
                  variables := [];
                  dataType := None;
                  confidence := 0 |}.
Proof. split; reflexivity. Qed.

(** The same holds for every name without one of the three extensions. *)
Lemma parseFile_other_extension (H : Host)
  (XLSX_first_sheet : string -> result (list row))
  (file : File.t) (content : string) :
  endsWith (File.name file) ".csv" = false ->
  endsWith (File.name file) ".xlsx" = false ->
  endsWith (File.name file) ".xls" = false ->
  fst (parseFile H XLSX_first_sheet file) = readAsArrayBuffer
  /\ snd (parseFile H XLSX_first_sheet file) (onload content)
     = resolve {| rawData := [];
                  variables := [];
                  dataType := None;
                  confidence := 0 |}.
Proof.
  intros Hc Hx Hl. unfold parseFile, parseFile_onload. simpl.
  now rewrite Hc, Hx, Hl.
Qed.

(** The example of the specification: IQR detection on [1, 2, 3, 4, 100]
    with threshold 1.5 flags index 4 only, and the outlier stage clamps
    that cell to [mean + 1.5 * std]. *)
Example detectOutliersIQR_example (H : Host) :
  detectOutliersIQR H (map VNum [1; 2; 3; 4; 100]%float) 1.5 = [4%nat]
  /\ snd (handleOutliers H [0; 1; 2; 3; 4]%nat [numeric_variable "x"] iqr_15
            (single_column "x" (map VNum [1; 2; 3; 4; 100]%float)))
     = single_column "x"
         (map VNum [1; 2; 3; 4; (22 + 1.5 * PrimFloat.sqrt 1522)]%float).
Proof. split; reflexivity. Qed.

(** C7 fails on the code when the column has a missing cell: the index of
    the outlier among the non-null values is used as a row index, so in
    [null, 1, 2, 3, 4, 100] the cell holding 4 is overwritten and the
    outlier 100 is kept. *)
Theorem handleOutliers_shifted_by_null (H : Host) :
  let before := single_column "x" (VNull :: map VNum [1; 2; 3; 4; 100]%float) in
  let rows := [0; 1; 2; 3; 4; 5]%nat in
  detectOutliersIQR H (nonNull (cells before rows "x")) 1.5 = [4%nat]
  /\ nth 4 (nonNull (cells before rows "x")) VUndefined = VNum 100
  /\ snd (handleOutliers H rows [numeric_variable "x"] iqr_15 before)
     = single_column "x"
         [VNull; VNum 1; VNum 2; VNum 3;
          VNum (22 + 1.5 * PrimFloat.sqrt 1522); VNum 100].
Proof. repeat split. Qed.

(** ** The missing-value stage *)

Lemma deref_app (h ext : store) (r : ref) :
  r < List.length h -> deref (h ++ ext) r = deref h r.
Proof. intros Hr. unfold deref. now apply app_nth1. Qed.

Lemma deref_new (h : store) (o : row) : deref (h ++ [o]) (List.length h) = o.
Proof. unfold deref. rewrite app_nth2, Nat.sub_diag by lia. reflexivity. Qed.

Lemma table_ok_app (h ext : store) (data : list ref) :
  table_ok h data -> table_ok (h ++ ext) data.
Proof.
  unfold table_ok. rewrite !Forall_forall. intros Hok r Hin.
  rewrite length_app. specialize (Hok r Hin). lia.
Qed.

Lemma cells_app (h ext : store) (data : list ref) (key : string) :
  table_ok h data -> cells (h ++ ext) data key = cells h data key.
Proof.
  unfold table_ok, cells. rewrite Forall_forall. intros Hok.
  apply map_ext_in. intros r Hin. now rewrite deref_app by auto.
Qed.

Lemma bind_run {A B} (m : M A) (f : A -> M B) (h : store) :
  bind m f h
  = match m h with
    | (Ok a, h') => f a h'
    | (Throw e, h') => (Throw e, h')
    end.
Proof. reflexivity. Qed.

Lemma cells_cons (h : store) (r : ref) (rest : list ref) (key : string) :
  cells h (r :: rest) key = get (deref h r) key :: cells h rest key.
Proof. reflexivity. Qed.

Lemma foldM_app {A S} (f : S -> A -> M S) (xs ys : list A) (acc : S)
  (h : store) :
  foldM f (xs ++ ys) acc h = bind (foldM f xs acc) (foldM f ys) h.
Proof.
  revert acc h. induction xs as [|x xs IH]; intros acc h; [reflexivity|].
  cbn [app foldM]. rewrite !bind_run.
  destruct (f acc x h) as [[acc'|e] h']; [|reflexivity].
  rewrite IH. now rewrite bind_run.
Qed.

Section MissingValues.
Context (H : Host).

Lemma fillMissing_spec (key : string) (fill : value) (data : list ref) :
  forall h, table_ok h data ->
  exists out ext,
    fillMissing key fill data h
    = (Ok (out, Z.of_nat (List.length (filter is_null (cells h data key)))),
       h ++ ext)
    /\ table_ok (h ++ ext) out
    /\ List.length out = List.length data
    /\ cells (h ++ ext) out key = map (impute fill) (cells h data key)
    /\ (forall key', key <> key' ->
        cells (h ++ ext) out key' = cells h data key').
Proof.
  induction data as [|r rest IH]; intros h Hok.
  - exists [], []. rewrite app_nil_r. repeat split; constructor.
  - inversion Hok as [|r0 rest0 Hr Hrest]; subst.
    cbn [fillMissing]. rewrite bind_run. cbn [read].
    rewrite cells_cons. cbn [filter map].
    destruct (is_null (get (deref h r) key)) eqn:Enull.
    + rewrite bind_run. cbn [alloc].
      set (o := set (deref h r) key fill : row).
      assert (Hok1 : table_ok (h ++ [o]) rest) by now apply table_ok_app.
      destruct (IH (h ++ [o]) Hok1)
        as (out & ext & Hrun & Hout & Hlen & Hkey & Hother).
      exists (List.length h :: out), ([o] ++ ext).
      rewrite bind_run, Hrun. cbn [ret fst snd].
      rewrite app_assoc.
      assert (Hnew : deref ((h ++ [o]) ++ ext) (List.length h) = o).
      { rewrite deref_app by (rewrite length_app; simpl; lia).
        apply deref_new. }
      repeat split.
      * rewrite (cells_app h [o] rest key Hrest).
        cbn [List.length]. rewrite Nat2Z.inj_succ.
        replace (Z.succ (Z.of_nat (List.length (filter is_null (cells h rest key)))))
          with (1 + Z.of_nat (List.length (filter is_null (cells h rest key))))%Z
          by lia.
        reflexivity.
      * constructor; [|exact Hout].
        rewrite !length_app. simpl. lia.
      * simpl. now rewrite Hlen.
      * rewrite cells_cons, Hnew, Hkey, (cells_app h [o] rest key Hrest).
        unfold impute at 2. rewrite Enull. unfold o. now rewrite get_set_same.
      * intros key' Hne.
        rewrite !cells_cons, Hnew, (Hother key' Hne),
          (cells_app h [o] rest key' Hrest).
        unfold o. now rewrite get_set_other.
    + destruct (IH h Hrest) as (out & ext & Hrun & Hout & Hlen & Hkey & Hother).
      exists (r :: out), ext.
      rewrite bind_run, Hrun. cbn [ret fst snd]. repeat split.
      * constructor; [|exact Hout]. rewrite length_app. lia.
      * simpl. now rewrite Hlen.
      * rewrite cells_cons, deref_app, Hkey by exact Hr.
        unfold impute at 2. now rewrite Enull.
      * intros key' Hne.
        now rewrite !cells_cons, deref_app, (Hother key' Hne) by exact Hr.
Qed.

End MissingValues.

(** C6 fails on the code when the configured threshold is 0: one cell in
    three of the column is missing, which exceeds 0, yet the column is
    not skipped: its null cell is replaced by 1.5 and the summary records
    ['mean'] with count 1, because [config.threshold || 0.5] takes the
    threshold 0 for an absent one and compares the ratio with 0.5. *)
Theorem handleMissingValues_zero_threshold_imputes (H : Host) :
  MissingValue.threshold mean_zero = Some 0%float
  /\ (0 <? num_of_nat
             (List.length
                (filter is_null
                   (cells (single_column "x" [VNull; VNum 1; VNum 2])
                      [0; 1; 2]%nat "x")))
           / num_of_nat (List.length [0; 1; 2]%nat))%float = true
  /\ handleMissingValues H [0; 1; 2]%nat [numeric_variable "x"]
       mean_zero (single_column "x" [VNull; VNum 1; VNum 2])
     = (Ok ([3; 1; 2]%nat,
            [("x", {| Entry.method := "mean"; Entry.count := 1 |})]),
        single_column "x" [VNull; VNum 1; VNum 2; VNum 1.5]).
Proof. repeat split. Qed.

(** The mean written by the stage is the one [calculateMean] computes,
    whose [+] concatenates as soon as a cell is a string: with the cells
    0.1 and ["5"] the sum is the string ["0.15"] and the null cell
    receives 0.075, not the arithmetic mean 2.55. *)
Example handleMissingValues_mean_concatenates :
  handleMissingValues RefHost.host [0; 1; 2]%nat [numeric_variable "x"]
    mean_half (single_column "x" [VNum 0.1; VStr "5"; VNull])
  = (Ok ([0; 1; 3]%nat,
         [("x", {| Entry.method := "mean"; Entry.count := 1 |})]),
     single_column "x" [VNum 0.1; VStr "5"; VNull; VNum 0.075]).
Proof. vm_compute. reflexivity. Qed.

(** With method ['median'] and an odd number of non-null cells the null
    cells receive the middle cell itself, here a string; on the reference
    engine the cell ["x2"], which is no number, stays where it is while
    the numbers around it are sorted, and the median of 5, 4, ["x2"], 4, 5
    is 5. *)
Example calculateMedian_middle_cell :
  calculateMedian RefHost.host [VStr "7"; VStr "10"; VStr "9"] = VStr "9"
  /\ sort_numeric RefHost.host [VNum 5; VNum 4; VStr "x2"; VNum 4; VNum 5]
     = [VNum 4; VNum 4; VNum 5; VStr "x2"; VNum 5]
  /\ calculateMedian RefHost.host [VNum 5; VNum 4; VStr "x2"; VNum 4; VNum 5]
     = VNum 5.
Proof. vm_compute. repeat split. Qed.

(** ** The outlier stage *)

Lemma length_update (h : store) (r : ref) (f : row -> row) :
  List.length (update h r f) = List.length h.
Proof.
  revert r. induction h as [|o h IH]; intros [|r]; simpl; auto.
Qed.

Lemma deref_update_same (h : store) (r : ref) (f : row -> row) :
  r < List.length h -> deref (update h r f) r = f (deref h r).
Proof.
  revert r. induction h as [|o h IH]; intros [|r] Hr; simpl in *; try lia.
  - reflexivity.
  - apply IH. lia.
Qed.

Lemma deref_update_other (h : store) (r r' : ref) (f : row -> row) :
  r <> r' -> deref (update h r f) r' = deref h r'.
Proof.
  revert r r'. induction h as [|o h IH]; intros [|r] [|r'] Hne; simpl;
    try reflexivity; try congruence.
  apply IH. congruence.
Qed.

(** Assigning to [key] in one row leaves the other keys of every row. *)
Lemma get_update_other_key (h : store) (r r' : ref) (key key' : string)
  (v : value) :
  key <> key' ->
  get (deref (update h r (fun o => set o key v)) r') key' = get (deref h r') key'.
Proof.
  intros Hk. destruct (Nat.eq_dec r r') as [<-|Hne].
  - destruct (Nat.lt_ge_cases r (List.length h)) as [Hlt|Hge].
    + rewrite deref_update_same by assumption. now apply get_set_other.
    + unfold deref. rewrite !nth_overflow; auto.
      now rewrite length_update.
  - now rewrite deref_update_other.
Qed.

Lemma indices_where_bound (p : value -> bool) (values : list value) (k : nat) :
  Forall (fun i => k <= i < k + List.length values) (indices_where p values k).
Proof.
  revert k. induction values as [|c values IH]; intros k; simpl.
  - constructor.
  - assert (Hrest : Forall (fun i => k <= i < k + S (List.length values))
                      (indices_where p values (S k))).
    { eapply Forall_impl; [|apply IH]. simpl. intros i Hi. lia. }
    destruct (p c); [constructor; [lia | exact Hrest] | exact Hrest].
Qed.

Lemma nonNull_length (cs : list value) :
  List.length (nonNull cs) <= List.length cs.
Proof. apply filter_length_le. Qed.

Section Outliers.
Context (H : Host).

Lemma flagged_bound (config : Outlier.t) (values : list value) :
  Forall (fun i => i < List.length values) (flagged H config values).
Proof.
  unfold flagged, detectOutliersZScore, detectOutliersIQR.
  destruct (Outlier.method config); try constructor;
    (eapply Forall_impl; [|apply indices_where_bound]; simpl; intros i Hi; lia).
Qed.

(** The writes of one variable never throw, keep the size of the store and
    touch no other key. *)
Lemma replaceOutlier_frame (data : list ref) (config : Outlier.t)
  (w : VariableInfo) (values : list value) (idxs : list nat) :
  Forall (fun i => i < List.length data) idxs ->
  forall h,
  exists h',
    forEach idxs (replaceOutlier H data config w values) h = (Ok tt, h')
    /\ List.length h' = List.length h
    /\ (forall r key, name w <> key ->
        get (deref h' r) key = get (deref h r) key).
Proof.
  induction 1 as [|i idxs Hi _ IH]; intros h.
  - exists h. now repeat split.
  - cbn [forEach]. rewrite bind_run. unfold replaceOutlier at 1.
    destruct (nth_error data i) as [r|] eqn:Er.
    + cbn [write].
      destruct (IH (update h r (fun o => set o (name w)
                      (VNum (if (calculateMean H values
                                 <? ToNumber H (nth i values VUndefined))%float
                             then (calculateMean H values
                                   + Outlier.threshold config
                                     * calculateStd H values)%float
                             else (calculateMean H values
                                   - Outlier.threshold config
                                     * calculateStd H values)%float)))))
        as (h' & Hrun & Hlen & Hkeys).
      exists h'. split; [exact Hrun|]. split.
      * now rewrite Hlen, length_update.
      * intros r' key Hne. rewrite Hkeys by assumption.
        now apply get_update_other_key.
    + apply nth_error_None in Er. lia.
Qed.

(** With distinct rows, the flagged cells of the column are clamped and the
    others keep their value. *)
Lemma replaceOutlier_column (data : list ref) (config : Outlier.t)
  (w : VariableInfo) (values : list value) (idxs : list nat) :
  NoDup data ->
  Forall (fun i => i < List.length data) idxs ->
  forall h, table_ok h data ->
  exists h',
    forEach idxs (replaceOutlier H data config w values) h = (Ok tt, h')
    /\ forall i r, nth_error data i = Some r ->
       get (deref h' r) (name w)
       = if existsb (Nat.eqb i) idxs
         then clamped H config values (nth i values VUndefined)
         else get (deref h r) (name w).
Proof.
  intros Hnd. induction 1 as [|i idxs Hi _ IH]; intros h Hok.
  - exists h. split; [reflexivity|]. now intros.
  - cbn [forEach]. rewrite bind_run. unfold replaceOutlier at 1.
    destruct (nth_error data i) as [r|] eqn:Er;
      [|apply nth_error_None in Er; lia].
    cbn [write].
    set (h1 := update h r _).
    assert (Hok1 : table_ok h1 data).
    { unfold table_ok, h1. now rewrite length_update. }
    destruct (IH h1 Hok1) as (h' & Hrun & Hcol).
    exists h'. split; [exact Hrun|].
    intros j r' Hj. rewrite (Hcol j r' Hj). cbn [existsb].
    destruct (Nat.eqb j i) eqn:Eji.
    + apply Nat.eqb_eq in Eji. subst j.
      assert (r' = r) by congruence. subst r'.
      cbn [orb]. destruct (existsb (Nat.eqb i) idxs); [reflexivity|].
      unfold h1. rewrite deref_update_same.
      * now rewrite get_set_same.
      * unfold table_ok in Hok. rewrite Forall_forall in Hok.
        apply Hok. eapply nth_error_In; eassumption.
    + cbn [orb]. destruct (existsb (Nat.eqb j) idxs); [reflexivity|].
      unfold h1. rewrite deref_update_other; [reflexivity|].
      intros ->. apply Nat.eqb_neq in Eji. apply Eji.
      apply (proj1 (NoDup_nth_error data) Hnd); [|congruence].
      apply nth_error_Some. congruence.
Qed.

End Outliers.

Section OutlierStage.
Context (H : Host).

(** One variable of the outlier stage: it never throws, keeps the size of
    the store, and touches neither the other keys of the rows nor the other
    entries of the summary. *)
Lemma handleOutliers_step_frame (data : list ref) (config : Outlier.t)
  (summary : object Entry.t) (w : VariableInfo) (h : store) :
  exists summary' h',
    handleOutliers_step H data data config summary w h = (Ok summary', h')
    /\ List.length h' = List.length h
    /\ (forall r key, name w <> key ->
        get (deref h' r) key = get (deref h r) key)
    /\ (forall key, name w <> key -> lookup summary' key = lookup summary key).
Proof.
  unfold handleOutliers_step.
  destruct (type w); try (exists summary, h; now repeat split).
  rewrite bind_run. cbn [get_store].
  set (values := nonNull (cells h data (name w))).
  fold (flagged H config values).
  assert (Hidx : Forall (fun i => i < List.length data) (flagged H config values)).
  { eapply Forall_impl; [|apply flagged_bound]. simpl. intros i Hi.
    pose proof (nonNull_length (cells h data (name w))) as Hle.
    unfold cells in Hle at 2. rewrite length_map in Hle.
    fold values in Hle. lia. }
  destruct (replaceOutlier_frame H data config w values _ Hidx h)
    as (h' & Hrun & Hlen & Hkeys).
  rewrite bind_run, Hrun. cbn [ret].
  eexists _, h'. split; [reflexivity|]. split; [exact Hlen|].
  split; [exact Hkeys|].
  intros key Hne. now apply lookup_set_other.
Qed.

Lemma handleOutliers_fold_frame (data : list ref) (config : Outlier.t)
  (ws : list VariableInfo) :
  forall summary h,
  exists summary' h',
    foldM (handleOutliers_step H data data config) ws summary h
    = (Ok summary', h')
    /\ List.length h' = List.length h
    /\ (forall r key, ~ In key (map name ws) ->
        get (deref h' r) key = get (deref h r) key)
    /\ (forall key, ~ In key (map name ws) ->
        lookup summary' key = lookup summary key).
Proof.
  induction ws as [|w ws IH]; intros summary h.
  - exists summary, h. now repeat split.
  - destruct (handleOutliers_step_frame data config summary w h)
      as (s1 & h1 & Hrun1 & Hlen1 & Hkeys1 & Hsum1).
    destruct (IH s1 h1) as (s2 & h2 & Hrun2 & Hlen2 & Hkeys2 & Hsum2).
    exists s2, h2. cbn [foldM]. rewrite bind_run, Hrun1.
    split; [exact Hrun2|]. split; [congruence|]. cbn [map In].
    split.
    + intros r key Hnot. rewrite Hkeys2, Hkeys1; tauto.
    + intros key Hnot. rewrite Hsum2, Hsum1; tauto.
Qed.

(** The variable itself, when its column has no null cell and the rows are
    distinct objects. *)
Lemma handleOutliers_step_column (data : list ref) (config : Outlier.t)
  (summary : object Entry.t) (v : VariableInfo) (h : store) :
  type v = numeric ->
  NoDup data ->
  table_ok h data ->
  nonNull (cells h data (name v)) = cells h data (name v) ->
  let values := cells h data (name v) in
  exists summary' h',
    handleOutliers_step H data data config summary v h = (Ok summary', h')
    /\ lookup summary' (name v)
       = Some {| Entry.method := OutlierMethod_str (Outlier.method config);
                 Entry.count :=
                   Z.of_nat (List.length (flagged H config values)) |}
    /\ forall i r, nth_error data i = Some r ->
       get (deref h' r) (name v)
       = if existsb (Nat.eqb i) (flagged H config values)
         then clamped H config values (nth i values VUndefined)
         else get (deref h r) (name v).
Proof.
  intros Hnum Hnd Hok Hfull. cbv zeta.
  unfold handleOutliers_step. rewrite Hnum, bind_run. cbn [get_store].
  rewrite Hfull.
  set (values := cells h data (name v)).
  fold (flagged H config values).
  assert (Hidx : Forall (fun i => i < List.length data) (flagged H config values)).
  { eapply Forall_impl; [|apply flagged_bound]. simpl. intros i Hi.
    unfold values, cells in Hi. now rewrite length_map in Hi. }
  destruct (replaceOutlier_column H data config v values _ Hnd Hidx h Hok)
    as (h' & Hrun & Hcol).
  rewrite bind_run, Hrun. cbn [ret].
  eexists _, h'. split; [reflexivity|].
  split; [apply lookup_set_same | exact Hcol].
Qed.

End OutlierStage.

(** On a numeric column without null cell, in a table whose rows are
    distinct objects (variable names being distinct), the outlier stage
    clamps exactly the cells flagged by the detector: a flagged cell above
    the column mean becomes [mean + threshold * std], any other flagged
    cell [mean - threshold * std]; the unflagged cells of the column, the
    columns that belong to no variable, the array and the number of rows
    are unchanged, and the summary records the method and the number of
    flagged cells. *)
Theorem handleOutliers_null_free (H : Host) (h : store) (data : list ref)
  (variables : list VariableInfo) (config : Outlier.t) (v : VariableInfo) :
  NoDup (map name variables) ->
  In v variables ->
  type v = numeric ->
  NoDup data ->
  table_ok h data ->
  nonNull (cells h data (name v)) = cells h data (name v) ->
  let values := cells h data (name v) in
  exists summary h',
    handleOutliers H data variables config h = (Ok (data, summary), h')
    /\ List.length h' = List.length h
    /\ lookup summary (name v)
       = Some {| Entry.method := OutlierMethod_str (Outlier.method config);
                 Entry.count :=
                   Z.of_nat (List.length (flagged H config values)) |}
    /\ (forall i r, nth_error data i = Some r ->
        get (deref h' r) (name v)
        = if existsb (Nat.eqb i) (flagged H config values)
          then clamped H config values (nth i values VUndefined)
          else get (deref h r) (name v))
    /\ (forall key, ~ In key (map name variables) ->
        cells h' data key = cells h data key).
Proof.
  intros Hnames Hin Hnum Hnd Hok Hfull. cbv zeta.
  destruct (in_split _ _ Hin) as (ws1 & ws2 & ->).
  rewrite map_app in Hnames. cbn [map] in Hnames.
  assert (Hnot1 : ~ In (name v) (map name ws1)).
  { intros Hi. apply (NoDup_remove_2 _ _ _ Hnames). apply in_or_app. now left. }
  assert (Hnot2 : ~ In (name v) (map name ws2)).
  { intros Hi. apply (NoDup_remove_2 _ _ _ Hnames). apply in_or_app. now right. }
  destruct (handleOutliers_fold_frame H data config ws1 [] h)
    as (s1 & h1 & Hrun1 & Hlen1 & Hkeys1 & _).
  assert (Hcells1 : cells h1 data (name v) = cells h data (name v)).
  { unfold cells. apply map_ext. intros r. now apply Hkeys1. }
  assert (Hok1 : table_ok h1 data).
  { unfold table_ok. now rewrite Hlen1. }
  destruct (handleOutliers_step_column H data config s1 v h1 Hnum Hnd Hok1)
    as (s2 & h2 & Hrun2 & Hsum2 & Hcol2).
  { now rewrite Hcells1. }
  destruct (handleOutliers_step_frame H data config s1 v h1)
    as (s2' & h2' & Hrun2' & Hlen2 & Hkeys2 & _).
  rewrite Hrun2 in Hrun2'. injection Hrun2' as <- <-.
  destruct (handleOutliers_fold_frame H data config ws2 s2 h2)
    as (s3 & h3 & Hrun3 & Hlen3 & Hkeys3 & Hsum3).
  exists s3, h3.
  unfold handleOutliers. cbv zeta.
  rewrite bind_run, foldM_app, bind_run, Hrun1.
  cbn [foldM]. rewrite bind_run, Hrun2, Hrun3. cbn [ret].
  split; [reflexivity|]. split; [congruence|].
  split; [rewrite Hsum3 by assumption; now rewrite Hsum2, Hcells1|]. split.
  - intros i r Hi. rewrite Hkeys3 by assumption.
    rewrite (Hcol2 i r Hi), Hcells1. now rewrite Hkeys1.
  - intros key Hnot. rewrite map_app in Hnot. cbn [map] in Hnot.
    assert (Hk1 : ~ In key (map name ws1)).
    { intros Hi. apply Hnot. apply in_or_app. now left. }
    assert (Hkv : name v <> key).
    { intros Heq. apply Hnot. apply in_or_app. right. now left. }
    assert (Hk2 : ~ In key (map name ws2)).
    { intros Hi. apply Hnot. apply in_or_app. right. now right. }
    unfold cells. apply map_ext. intros r.
    now rewrite Hkeys3, Hkeys2, Hkeys1 by assumption.
Qed.

(** On a column of dates the upper bound of the IQR detector is a string,
    the date followed by a number: no cell is above it, and a far date is
    not flagged. *)
Example detectOutliersIQR_dates :
  detectOutliersIQR RefHost.host
    [VDate 1; VDate 2; VDate 3; VDate 4; VDate 100] 1.5 = []
  /\ detectOutliersIQR RefHost.host
       [VDate 100; VDate 101; VDate 102; VDate 103; VDate 1] 1.5 = [4%nat].
Proof. vm_compute. repeat split. Qed.

(** ** The missing-value stage copies *)

Section MissingValuesCopy.
Context (H : Host).

Lemma handleMissingValues_step_store (config : MissingValue.t)
  (w : VariableInfo) (pd : list ref) (s : object Entry.t) (h : store) :
  table_ok h pd ->
  exists pd' s' ext,
    handleMissingValues_step H config (pd, s) w h = (Ok (pd', s'), h ++ ext)
    /\ table_ok (h ++ ext) pd'.
Proof.
  intros Hok. unfold handleMissingValues_step.
  assert (Hsame : forall (pd' : list ref) (s' : object Entry.t),
             table_ok h pd' ->
             exists pd'' s'' ext,
               ret (pd', s') h = (Ok (pd'', s''), h ++ ext)
               /\ table_ok (h ++ ext) pd'').
  { intros pd' s' Hok'. exists pd', s', []. rewrite app_nil_r. now split. }
  destruct (type w); try (now apply Hsame).
  rewrite bind_run. cbn [get_store].
  destruct (_ <? _)%float; [now apply Hsame|].
  destruct (MissingValue.method config); try (now apply Hsame).
  - destruct (fillMissing_spec (name w)
                (VNum (calculateMean H (nonNull (cells h pd (name w))))) pd h Hok)
      as (out & ext & Hrun & Hout & _).
    rewrite bind_run, Hrun. cbn [ret fst snd]. now eexists out, _, ext.
  - destruct (fillMissing_spec (name w)
                (calculateMedian H (nonNull (cells h pd (name w)))) pd h Hok)
      as (out & ext & Hrun & Hout & _).
    rewrite bind_run, Hrun. cbn [ret fst snd]. now eexists out, _, ext.
  - apply Hsame. unfold table_ok in *. rewrite Forall_forall in *.
    intros r Hr. apply filter_In in Hr. now apply Hok.
Qed.

(** Whatever the method, [handleMissingValues] writes to no existing row:
    the store it leaves is the one it received, followed by the copies it
    made. *)
Theorem handleMissingValues_keeps_rows (config : MissingValue.t)
  (variables : list VariableInfo) (data : list ref) (h : store) :
  table_ok h data ->
  exists out summary ext,
    handleMissingValues H data variables config h
    = (Ok (out, summary), h ++ ext).
Proof.
  unfold handleMissingValues. cbv zeta.
  generalize (@nil (string * Entry.t) : object Entry.t) as s.
  revert data h. induction variables as [|w ws IH]; intros pd h s Hok.
  - exists pd, s, []. now rewrite app_nil_r.
  - destruct (handleMissingValues_step_store config w pd s h Hok)
      as (pd1 & s1 & ext1 & Hrun1 & Hok1).
    destruct (IH pd1 (h ++ ext1) s1 Hok1) as (pd2 & s2 & ext2 & Hrun2).
    exists pd2, s2, (ext1 ++ ext2).
    cbn [foldM]. now rewrite bind_run, Hrun1, Hrun2, app_assoc.
Qed.

End MissingValuesCopy.

Lemma handleMissingValues_keeps_rows_witness :
  table_ok survey_rows [0; 1; 2; 3]%nat
  /\ exists out summary ext,
       handleMissingValues RefHost.host [0; 1; 2; 3]%nat
         [numeric_variable "age"; numeric_variable "income"] mean_half
         survey_rows
       = (Ok (out, summary), survey_rows ++ ext).
Proof.
  assert (Hok : table_ok survey_rows [0; 1; 2; 3]%nat) by repeat constructor.
  split; [exact Hok|].
  exact (handleMissingValues_keeps_rows RefHost.host mean_half
           [numeric_variable "age"; numeric_variable "income"]
           [0; 1; 2; 3]%nat survey_rows Hok).
Defined.

Lemma handleOutliers_null_free_witness :
  NoDup [0; 1; 2; 3; 4]%nat
  /\ table_ok priced_rows [0; 1; 2; 3; 4]%nat
  /\ nonNull (cells priced_rows [0; 1; 2; 3; 4]%nat "price")
     = cells priced_rows [0; 1; 2; 3; 4]%nat "price"
  /\ exists summary h',
       handleOutliers RefHost.host [0; 1; 2; 3; 4]%nat
         [numeric_variable "price"] iqr_15 priced_rows
       = (Ok ([0; 1; 2; 3; 4]%nat, summary), h')
       /\ lookup summary "price"
          = Some {| Entry.method := "iqr"; Entry.count := 1 |}
       /\ cells h' [0; 1; 2; 3; 4]%nat "price"
          = map VNum [1; 2; 3; 4; 22 + 1.5 * PrimFloat.sqrt 1522]%float.
Proof.
  assert (Hnd : NoDup [0; 1; 2; 3; 4]%nat).
  { repeat constructor; simpl; intuition discriminate. }
  assert (Hok : table_ok priced_rows [0; 1; 2; 3; 4]%nat) by repeat constructor.
  split; [exact Hnd|]. split; [exact Hok|]. split; [reflexivity|].
  destruct (handleOutliers_null_free RefHost.host priced_rows
              [0; 1; 2; 3; 4]%nat [numeric_variable "price"] iqr_15
              (numeric_variable "price"))
    as (summary & h' & Hrun & _ & Hsum & Hcol & _).
  - repeat constructor. simpl. tauto.
  - simpl. auto.
  - reflexivity.
  - exact Hnd.
  - exact Hok.
  - reflexivity.
  - exists summary, h'. split; [exact Hrun|]. split; [exact Hsum|].
    cbn [cells map].
    change (name (numeric_variable "price")) with "price" in Hcol.
    rewrite (Hcol 0%nat 0%nat eq_refl), (Hcol 1%nat 1%nat eq_refl),
      (Hcol 2%nat 2%nat eq_refl), (Hcol 3%nat 3%nat eq_refl),
      (Hcol 4%nat 4%nat eq_refl).
    reflexivity.
Defined.

(** * Further properties of the code *)

(** ** Floating-point facts *)

Lemma float_mul_comm (x y : float) : (x * y = y * x)%float.
Proof.
  apply Prim2SF_inj. rewrite !mul_spec. unfold SF64mul, SFmul.
  destruct (Prim2SF x) as [sx|sx| |sx mx ex];
    destruct (Prim2SF y) as [sy|sy| |sy my ey];
    try reflexivity; try (now rewrite xorb_comm).
  now rewrite xorb_comm, Pos.mul_comm, Z.add_comm.
Qed.

(** ** The correlation matrix *)

Section Correlation.
Context (H : Host).

Lemma correlationSums_swap (mean1 mean2 : float) (pairs : list (value * value)) :
  forall n d1 d2,
    fold_left (correlationSums H mean2 mean1)
              (map (fun p => (snd p, fst p)) pairs) (n, d2, d1)
    = let '(n', d1', d2') :=
        fold_left (correlationSums H mean1 mean2) pairs (n, d1, d2) in
      (n', d2', d1').
Proof.
  induction pairs as [|[a b] pairs IH]; intros n d1 d2; [reflexivity|].
  cbn [map fold_left correlationSums fst snd].
  rewrite (float_mul_comm (ToNumber H b - mean2) (ToNumber H a - mean1)).
  apply IH.
Qed.

Lemma combine_swap {A B} (xs : list A) (ys : list B) :
  combine ys xs = map (fun p => (snd p, fst p)) (combine xs ys).
Proof.
  revert ys. induction xs as [|x xs IH]; intros [|y ys]; simpl;
    try reflexivity.
  now rewrite IH.
Qed.

Lemma calculateCorrelation_sym (values1 values2 : list value) :
  calculateCorrelation H values1 values2 = calculateCorrelation H values2 values1.
Proof.
  unfold calculateCorrelation.
  destruct (List.length values1 =? List.length values2)%nat eqn:Elen.
  - apply Nat.eqb_eq in Elen. rewrite <- Elen, Nat.eqb_refl. cbn [negb orb].
    destruct (List.length values1 =? 0)%nat; [reflexivity|].
    rewrite (combine_swap values1 values2), correlationSums_swap.
    destruct (fold_left _ (combine values1 values2) _) as [[n d1] d2].
    rewrite orb_comm, (float_mul_comm d2 d1). reflexivity.
  - rewrite (Nat.eqb_sym (List.length values2) (List.length values1)), Elen.
    reflexivity.
Qed.

End Correlation.

Lemma nth_map_seq {A} (f : nat -> A) (n i : nat) (d : A) :
  i < n -> nth i (map f (seq 0 n)) d = f i.
Proof.
  intros Hi. rewrite (nth_indep _ d (f 0%nat)) by now rewrite length_map, length_seq.
  rewrite map_nth, seq_nth by assumption. reflexivity.
Qed.

(** The correlation matrix of [n] variables has [n] rows of [n] entries,
    ones on its diagonal, and is symmetric. *)
Theorem generateCorrelationMatrix_square_symmetric (H : Host)
  (data : list row) (variables : list string) :
  List.length (generateCorrelationMatrix H data variables)
  = List.length variables
  /\ Forall (fun r => List.length r = List.length variables)
       (generateCorrelationMatrix H data variables)
  /\ (forall i, i < List.length variables ->
      entry (generateCorrelationMatrix H data variables) i i = 1%float)
  /\ (forall i j, i < List.length variables -> j < List.length variables ->
      entry (generateCorrelationMatrix H data variables) i j
      = entry (generateCorrelationMatrix H data variables) j i).
Proof.
  unfold generateCorrelationMatrix, entry.
  split; [now rewrite length_map, length_seq|].
  split.
  { apply Forall_forall. intros r Hr. apply in_map_iff in Hr.
    destruct Hr as [i [<- _]]. now rewrite length_map, length_seq. }
  split.
  - intros i Hi. rewrite (nth_map_seq _ _ i []) by assumption.
    rewrite nth_map_seq by assumption. now rewrite Nat.eqb_refl.
  - intros i j Hi Hj.
    rewrite (nth_map_seq _ _ i []), (nth_map_seq _ _ j []) by assumption.
    rewrite !nth_map_seq by assumption.
    rewrite (Nat.eqb_sym j i). destruct (i =? j)%nat; [reflexivity|].
    apply calculateCorrelation_sym.
Qed.

Lemma generateCorrelationMatrix_witness :
  entry (generateCorrelationMatrix RefHost.host survey_rows ["age"; "income"]) 0 1
  = entry (generateCorrelationMatrix RefHost.host survey_rows ["age"; "income"]) 1 0.
Proof.
  destruct (generateCorrelationMatrix_square_symmetric RefHost.host
              survey_rows ["age"; "income"]) as (_ & _ & _ & Hsym).
  apply Hsym; simpl; lia.
Defined.

(** A correlation is 0 as soon as the two columns do not hold the same
    number of usable values, or hold none. *)
Lemma calculateCorrelation_unpaired (H : Host) (values1 values2 : list value) :
  List.length values1 <> List.length values2 \/ values1 = [] ->
  calculateCorrelation H values1 values2 = 0%float.
Proof.
  intros [Hne| ->]; unfold calculateCorrelation.
  - apply Nat.eqb_neq in Hne. now rewrite Hne.
  - cbn [List.length]. now rewrite orb_true_r.
Qed.

(** The columns of a pair are filtered one by one, not row by row: as
    soon as two columns do not hold the same number of usable values
    (cells that are neither null nor NaN), or hold none, their entry in
    the correlation matrix is 0. *)
Theorem generateCorrelationMatrix_unpaired (H : Host) (data : list row)
  (variables : list string) (i j : nat) :
  i < List.length variables ->
  j < List.length variables ->
  i <> j ->
  List.length (numericCells H data (nth i variables ""))
  <> List.length (numericCells H data (nth j variables ""))
  \/ numericCells H data (nth i variables "") = [] ->
  entry (generateCorrelationMatrix H data variables) i j = 0%float.
Proof.
  intros Hi Hj Hij Hlen. unfold generateCorrelationMatrix, entry.
  rewrite (nth_map_seq _ _ i []) by assumption.
  rewrite nth_map_seq by assumption.
  apply Nat.eqb_neq in Hij. rewrite Hij.
  now apply calculateCorrelation_unpaired.
Qed.

Lemma generateCorrelationMatrix_unpaired_witness :
  entry (generateCorrelationMatrix RefHost.host
           [ [("age", VNum 31); ("income", VNull)];
             [("age", VNum 45); ("income", VNum 20)];
             [("age", VNum 52); ("income", VNum 30)] ]
           ["age"; "income"]) 0 1
  = 0%float.
Proof.
  apply generateCorrelationMatrix_unpaired.
  - simpl; lia.
  - simpl; lia.
  - discriminate.
  - left. vm_compute. discriminate.
Defined.

(** ** The standardization stage *)

Section Standardization.
Context (H : Host).

Lemma rescale_run (key : string) (shift scale : float) (r : ref) (h : store) :
  rescale H key shift scale r h
  = (Ok tt,
     if is_null (get (deref h r) key) then h
     else update h r (fun o => set o key
                        (VNum ((ToNumber H (get (deref h r) key) - shift)
                               / scale)%float))).
Proof.
  unfold rescale. rewrite bind_run. cbn [read].
  now destruct (is_null (get (deref h r) key)).
Qed.

(** The loop over the rows never throws, keeps the size of the store and
    touches no other key. *)
Lemma forEach_rescale_frame (key : string) (shift scale : float)
  (rs : list ref) :
  forall h,
  exists h',
    forEach rs (rescale H key shift scale) h = (Ok tt, h')
    /\ List.length h' = List.length h
    /\ (forall r key', key <> key' ->
        get (deref h' r) key' = get (deref h r) key').
Proof.
  induction rs as [|r rs IH]; intros h.
  - exists h. now repeat split.
  - cbn [forEach]. rewrite bind_run, rescale_run.
    destruct (is_null (get (deref h r) key)).
    + exact (IH h).
    + destruct (IH (update h r (fun o => set o key
                      (VNum ((ToNumber H (get (deref h r) key) - shift)
                             / scale)%float))))
        as (h' & Hrun & Hlen & Hkeys).
      exists h'. split; [exact Hrun|]. split.
      * now rewrite Hlen, length_update.
      * intros r' key' Hne. rewrite Hkeys by assumption.
        now apply get_update_other_key.
Qed.

(** On distinct rows every cell of the column is rescaled once. *)
Lemma forEach_rescale_column (key : string) (shift scale : float)
  (rs : list ref) :
  NoDup rs ->
  forall h, table_ok h rs ->
  exists h',
    forEach rs (rescale H key shift scale) h = (Ok tt, h')
    /\ List.length h' = List.length h
    /\ (forall r, In r rs ->
        get (deref h' r) key = rescaled H shift scale (get (deref h r) key))
    /\ (forall r, ~ In r rs -> deref h' r = deref h r).
Proof.
  induction 1 as [|r rs Hnotin Hnd IH]; intros h Hok.
  - exists h. repeat split; intros r []. 
  - inversion Hok as [|r0 rs0 Hr Hrest]; subst.
    cbn [forEach]. rewrite bind_run, rescale_run.
    set (h1 := if is_null (get (deref h r) key) then h else update h r _).
    assert (Hlen1 : List.length h1 = List.length h).
    { unfold h1. destruct (is_null _); [reflexivity | apply length_update]. }
    assert (Hself : get (deref h1 r) key
                    = rescaled H shift scale (get (deref h r) key)).
    { unfold h1, rescaled. destruct (is_null (get (deref h r) key)) eqn:E;
        [reflexivity|].
      rewrite deref_update_same by assumption. apply get_set_same. }
    assert (Hother : forall r', r <> r' -> deref h1 r' = deref h r').
    { intros r' Hne. unfold h1. destruct (is_null _); [reflexivity|].
      now apply deref_update_other. }
    assert (Hok1 : table_ok h1 rs).
    { unfold table_ok. now rewrite Hlen1. }
    destruct (IH h1 Hok1) as (h' & Hrun & Hlen & Hin & Hout).
    exists h'. split; [exact Hrun|]. split; [congruence|]. split.
    + intros r' [<-|Hr'].
      * now rewrite (Hout r Hnotin).
      * rewrite (Hin r' Hr'), Hother; [reflexivity|].
        intros ->. contradiction.
    + intros r' Hr'. cbn [In] in Hr'. rewrite Hout by tauto.
      apply Hother. tauto.
Qed.

(** One variable of the stage: it never throws, keeps the size of the store
    and touches neither the other keys nor the other summary entries. *)
Lemma standardizeData_step_frame (data : list ref) (config : Standardization.t)
  (summary : object StdEntry.t) (w : VariableInfo) (h : store) :
  exists summary' h',
    standardizeData_step H data data config summary w h = (Ok summary', h')
    /\ List.length h' = List.length h
    /\ (forall r key, name w <> key ->
        get (deref h' r) key = get (deref h r) key)
    /\ (forall key, name w <> key -> lookup summary' key = lookup summary key).
Proof.
  unfold standardizeData_step.
  destruct (type w); try (exists summary, h; now repeat split).
  rewrite bind_run. cbn [get_store].
  destruct (Standardization.method config).
  - destruct (forEach_rescale_frame (name w)
                (calculateMean H (nonNull (cells h data (name w))))
                (calculateStd H (nonNull (cells h data (name w)))) data h)
      as (h' & Hrun & Hlen & Hkeys).
    rewrite bind_run, Hrun. cbn [ret]. eexists _, h'.
    split; [reflexivity|]. split; [exact Hlen|]. split; [exact Hkeys|].
    intros key Hne. now apply lookup_set_other.
  - destruct (forEach_rescale_frame (name w)
                (Math_min (map (ToNumber H) (nonNull (cells h data (name w)))))
                (Math_max (map (ToNumber H) (nonNull (cells h data (name w))))
                 - Math_min (map (ToNumber H) (nonNull (cells h data (name w)))))
                data h)
      as (h' & Hrun & Hlen & Hkeys).
    rewrite bind_run, Hrun. cbn [ret]. eexists _, h'.
    split; [reflexivity|]. split; [exact Hlen|]. split; [exact Hkeys|].
    intros key Hne. now apply lookup_set_other.
  - exists summary, h. now repeat split.
Qed.

Lemma standardizeData_fold_frame (data : list ref) (config : Standardization.t)
  (ws : list VariableInfo) :
  forall summary h,
  exists summary' h',
    foldM (standardizeData_step H data data config) ws summary h
    = (Ok summary', h')
    /\ List.length h' = List.length h
    /\ (forall r key, ~ In key (map name ws) ->
        get (deref h' r) key = get (deref h r) key)
    /\ (forall key, ~ In key (map name ws) ->
        lookup summary' key = lookup summary key).
Proof.
  induction ws as [|w ws IH]; intros summary h.
  - exists summary, h. now repeat split.
  - destruct (standardizeData_step_frame data config summary w h)
      as (s1 & h1 & Hrun1 & Hlen1 & Hkeys1 & Hsum1).
    destruct (IH s1 h1) as (s2 & h2 & Hrun2 & Hlen2 & Hkeys2 & Hsum2).
    exists s2, h2. cbn [foldM]. rewrite bind_run, Hrun1.
    split; [exact Hrun2|]. split; [congruence|]. cbn [map In].
    split.
    + intros r key Hnot. rewrite Hkeys2, Hkeys1; tauto.
    + intros key Hnot. rewrite Hsum2, Hsum1; tauto.
Qed.

End Standardization.

Section StandardizationStage.
Context (H : Host).

Lemma cells_pointwise (h h' : store) (data : list ref) (key : string)
  (f : value -> value) :
  (forall r, In r data -> get (deref h' r) key = f (get (deref h r) key)) ->
  cells h' data key = map f (cells h data key).
Proof.
  intros Hp. unfold cells. rewrite map_map. now apply map_ext_in.
Qed.

Lemma standardizeData_step_column (data : list ref)
  (config : Standardization.t) (summary : object StdEntry.t)
  (v : VariableInfo) (h : store) :
  type v = numeric ->
  NoDup data ->
  table_ok h data ->
  lookup summary (name v) = None ->
  exists summary' h',
    standardizeData_step H data data config summary v h = (Ok summary', h')
    /\ lookup summary' (name v)
       = standardEntry H config (cells h data (name v))
    /\ cells h' data (name v) = standardized H config (cells h data (name v)).
Proof.
  intros Hnum Hnd Hok Hnone.
  unfold standardizeData_step, standardEntry, standardized.
  rewrite Hnum, bind_run. cbn [get_store]. cbv zeta.
  destruct (Standardization.method config).
  - destruct (forEach_rescale_column H (name v)
                (calculateMean H (nonNull (cells h data (name v))))
                (calculateStd H (nonNull (cells h data (name v))))
                data Hnd h Hok)
      as (h' & Hrun & _ & Hin & _).
    rewrite bind_run, Hrun. cbn [ret]. eexists _, h'.
    split; [reflexivity|]. split; [apply lookup_set_same|].
    now apply cells_pointwise.
  - destruct (forEach_rescale_column H (name v)
                (Math_min (map (ToNumber H) (nonNull (cells h data (name v)))))
                (Math_max (map (ToNumber H) (nonNull (cells h data (name v))))
                 - Math_min (map (ToNumber H) (nonNull (cells h data (name v)))))
                data Hnd h Hok)
      as (h' & Hrun & _ & Hin & _).
    rewrite bind_run, Hrun. cbn [ret]. eexists _, h'.
    split; [reflexivity|]. split; [apply lookup_set_same|].
    now apply cells_pointwise.
  - exists summary, h. now repeat split.
Qed.

End StandardizationStage.

Lemma standardizeData_loop (H : Host) (h : store) (data : list ref)
  (variables : list VariableInfo) (config : Standardization.t)
  (v : VariableInfo) :
  NoDup (map name variables) ->
  In v variables ->
  type v = numeric ->
  NoDup data ->
  table_ok h data ->
  exists summary h',
    foldM (standardizeData_step H data data config) variables
          ([] : object StdEntry.t) h
    = (Ok summary, h')
    /\ List.length h' = List.length h
    /\ lookup summary (name v)
       = standardEntry H config (cells h data (name v))
    /\ cells h' data (name v) = standardized H config (cells h data (name v))
    /\ (forall key, ~ In key (map name variables) ->
        cells h' data key = cells h data key).
Proof.
  intros Hnames Hin Hnum Hnd Hok.
  destruct (in_split _ _ Hin) as (ws1 & ws2 & ->).
  rewrite map_app in Hnames. cbn [map] in Hnames.
  assert (Hnot1 : ~ In (name v) (map name ws1)).
  { intros Hi. apply (NoDup_remove_2 _ _ _ Hnames). apply in_or_app. now left. }
  assert (Hnot2 : ~ In (name v) (map name ws2)).
  { intros Hi. apply (NoDup_remove_2 _ _ _ Hnames). apply in_or_app. now right. }
  destruct (standardizeData_fold_frame H data config ws1 [] h)
    as (s1 & h1 & Hrun1 & Hlen1 & Hkeys1 & Hsum1).
  assert (Hcells1 : cells h1 data (name v) = cells h data (name v)).
  { unfold cells. apply map_ext. intros r. now apply Hkeys1. }
  assert (Hok1 : table_ok h1 data).
  { unfold table_ok. now rewrite Hlen1. }
  destruct (standardizeData_step_column H data config s1 v h1 Hnum Hnd Hok1)
    as (s2 & h2 & Hrun2 & Hsum2 & Hcol2).
  { now rewrite Hsum1. }
  destruct (standardizeData_step_frame H data config s1 v h1)
    as (s2' & h2' & Hrun2' & Hlen2 & Hkeys2 & _).
  rewrite Hrun2 in Hrun2'. injection Hrun2' as <- <-.
  destruct (standardizeData_fold_frame H data config ws2 s2 h2)
    as (s3 & h3 & Hrun3 & Hlen3 & Hkeys3 & Hsum3).
  exists s3, h3.
  rewrite foldM_app, bind_run, Hrun1.
  cbn [foldM]. rewrite bind_run, Hrun2, Hrun3.
  split; [reflexivity|]. split; [congruence|].
  split; [rewrite Hsum3 by assumption; now rewrite Hsum2, Hcells1|]. split.
  - rewrite <- Hcells1, <- Hcol2. unfold cells. apply map_ext. intros r.
    now apply Hkeys3.
  - intros key Hnot. rewrite map_app in Hnot. cbn [map] in Hnot.
    assert (Hk1 : ~ In key (map name ws1)).
    { intros Hi. apply Hnot. apply in_or_app. now left. }
    assert (Hkv : name v <> key).
    { intros Heq. apply Hnot. apply in_or_app. right. now left. }
    assert (Hk2 : ~ In key (map name ws2)).
    { intros Hi. apply Hnot. apply in_or_app. right. now right. }
    unfold cells. apply map_ext. intros r.
    now rewrite Hkeys3, Hkeys2, Hkeys1 by assumption.
Qed.

(** For a numeric variable of a table whose rows are distinct objects
    (variable names being distinct), [standardizeData] never throws,
    returns the same array and keeps the number of rows; every non-null
    cell [x] of the column becomes [(x - mean) / std] (z-score) or
    [(x - min) / (max - min)] (min-max), the statistics being those of the
    non-null cells before the stage, and its null cells stay null; the
    summary records the method with these parameters; the columns that
    belong to no variable are unchanged. *)
Theorem standardizeData_column (H : Host) (h : store) (data : list ref)
  (variables : list VariableInfo) (config : Standardization.t)
  (v : VariableInfo) :
  NoDup (map name variables) ->
  In v variables ->
  type v = numeric ->
  NoDup data ->
  table_ok h data ->
  exists summary h',
    standardizeData H data variables config h = (Ok (data, summary), h')
    /\ List.length h' = List.length h
    /\ lookup summary (name v)
       = standardEntry H config (cells h data (name v))
    /\ cells h' data (name v) = standardized H config (cells h data (name v))
    /\ (forall key, ~ In key (map name variables) ->
        cells h' data key = cells h data key).
Proof.
  intros Hnames Hin Hnum Hnd Hok.
  destruct (standardizeData_loop H h data variables config v
              Hnames Hin Hnum Hnd Hok)
    as (summary & h' & Hrun & Hlen & Hsum & Hcol & Hframe).
  exists summary, h'. unfold standardizeData. cbv zeta.
  rewrite bind_run, Hrun. cbn [ret].
  split; [reflexivity|]. split; [exact Hlen|]. split; [exact Hsum|].
  split; [exact Hcol | exact Hframe].
Qed.

Lemma standardizeData_column_witness :
  exists summary h',
    standardizeData RefHost.host [0; 1; 2; 3]%nat
      [numeric_variable "age"; numeric_variable "income"] minmax_scaling
      survey_rows
    = (Ok ([0; 1; 2; 3]%nat, summary), h')
    /\ lookup summary "income"
       = Some {| StdEntry.method := "minmax";
                 StdEntry.params := MinMaxParams 10 30 |}
    /\ cells h' [0; 1; 2; 3]%nat "income"
       = [VNull; VNum 0; VNum 0.5; VNum 1].
Proof.
  destruct (standardizeData_column RefHost.host survey_rows [0; 1; 2; 3]%nat
              [numeric_variable "age"; numeric_variable "income"]
              minmax_scaling (numeric_variable "income"))
    as (summary & h' & Hrun & _ & Hsum & Hcol & _).
  - repeat constructor; simpl; intuition discriminate.
  - simpl. auto.
  - reflexivity.
  - repeat constructor; simpl; intuition discriminate.
  - repeat constructor.
  - change (name (numeric_variable "income")) with "income" in Hsum, Hcol.
    exists summary, h'. split; [exact Hrun|]. split.
    + rewrite Hsum. reflexivity.
    + rewrite Hcol. reflexivity.
Defined.

(** ** The missing-value stage: dropping rows *)

Lemma filter_filter {A} (p q : A -> bool) (l : list A) :
  filter p (filter q l) = filter (fun x => q x && p x) l.
Proof.
  induction l as [|x l IH]; [reflexivity|].
  cbn [filter]. destruct (q x); cbn [filter andb]; now rewrite IH.
Qed.

Lemma removed_ext (s s' : object Entry.t) (v : VariableInfo) :
  lookup s' (name v) = lookup s (name v) -> removed s' v = removed s v.
Proof. unfold removed. now intros ->. Qed.

Lemma survives_ext (h : store) (s s' : object Entry.t)
  (ws : list VariableInfo) (r : ref) :
  (forall v, In v ws -> lookup s' (name v) = lookup s (name v)) ->
  survives h s' ws r = survives h s ws r.
Proof.
  intros Hs. unfold survives. induction ws as [|w ws IH]; [reflexivity|].
  cbn [forallb]. rewrite IH by (intros v Hv; apply Hs; now right).
  now rewrite (removed_ext s s' w) by (apply Hs; now left).
Qed.

Lemma droppedCount_ext (s s' : object Entry.t) (ws : list VariableInfo) :
  (forall v, In v ws -> lookup s' (name v) = lookup s (name v)) ->
  droppedCount s' ws = droppedCount s ws.
Proof.
  intros Hs. unfold droppedCount. induction ws as [|w ws IH]; [reflexivity|].
  cbn [fold_right]. rewrite IH by (intros v Hv; apply Hs; now right).
  rewrite (removed_ext s s' w) by (apply Hs; now left).
  now rewrite (Hs w) by now left.
Qed.

Section RemoveRows.
Context (H : Host).

Lemma handleMissingValues_remove_fold (config : MissingValue.t)
  (ws : list VariableInfo) :
  MissingValue.method config = mv_remove ->
  NoDup (map name ws) ->
  forall pd s h,
  exists pd' s',
    foldM (handleMissingValues_step H config) ws (pd, s) h = (Ok (pd', s'), h)
    /\ pd' = filter (survives h s' ws) pd
    /\ (forall key, ~ In key (map name ws) -> lookup s' key = lookup s key)
    /\ (forall v, In v ws -> type v = numeric ->
        exists e, lookup s' (name v) = Some e
                  /\ (Entry.method e = "skip" \/ Entry.method e = "remove"))
    /\ droppedCount s' ws
       = (Z.of_nat (List.length pd) - Z.of_nat (List.length pd'))%Z.
Proof.
  intros Hm. induction ws as [|w ws IH]; intros Hnd pd s h.
  - exists pd, s. split; [reflexivity|]. split.
    { unfold survives. cbn [forallb]. induction pd as [|r pd IHpd];
        [reflexivity|]. cbn [filter]. now rewrite <- IHpd. }
    split; [reflexivity|]. split; [now intros v []|].
    cbn [droppedCount fold_right]. lia.
  - cbn [map] in Hnd. apply NoDup_cons_iff in Hnd. destruct Hnd as [Hw Hnd].
    assert (Hstep : exists pd1 s1,
      handleMissingValues_step H config (pd, s) w h = (Ok (pd1, s1), h)
      /\ (forall key, name w <> key -> lookup s1 key = lookup s key)
      /\ pd1 = filter (fun r => negb (removed s1 w)
                                || negb (is_null (get (deref h r) (name w)))) pd
      /\ (type w = numeric ->
          exists e, lookup s1 (name w) = Some e
                    /\ (Entry.method e = "skip" \/ Entry.method e = "remove"))
      /\ match lookup s1 (name w) with
         | Some e => if removed s1 w then Entry.count e else 0%Z
         | None => 0%Z
         end = (Z.of_nat (List.length pd) - Z.of_nat (List.length pd1))%Z).
    { assert (Hall : forall (p : ref -> bool), (forall r, p r = true) ->
                pd = filter p pd).
      { intros p Hp. induction pd as [|r pd' IHpd]; [reflexivity|].
        cbn [filter]. rewrite Hp. now rewrite <- IHpd. }
      unfold handleMissingValues_step.
      destruct (type w) eqn:Etype;
        try (exists pd, s; split; [reflexivity|]; split; [reflexivity|];
             split; [apply Hall; intros r; unfold removed; now rewrite Etype|];
             split; [discriminate|];
             unfold removed; rewrite Etype;
             destruct (lookup s (name w)); lia).
      rewrite bind_run. cbn [get_store].
      destruct (_ <? _)%float.
      - eexists pd, _. split; [reflexivity|].
        split; [intros key Hk; now apply lookup_set_other|].
        split.
        { apply Hall. intros r. unfold removed.
          now rewrite Etype, lookup_set_same. }
        split.
        { intros _. eexists. split; [apply lookup_set_same|]. now left. }
        unfold removed. rewrite Etype, lookup_set_same. cbn. lia.
      - rewrite Hm. eexists _, _. split; [reflexivity|].
        split; [intros key Hk; now apply lookup_set_other|].
        split.
        { unfold removed. rewrite Etype, lookup_set_same. reflexivity. }
        split.
        { intros _. eexists. split; [apply lookup_set_same|]. now right. }
        unfold removed. rewrite Etype, lookup_set_same. reflexivity. }
    destruct Hstep as (pd1 & s1 & Hrun1 & Hs1 & Hpd1 & Hent1 & Hcount1).
    destruct (IH Hnd pd1 s1 h) as (pd2 & s2 & Hrun2 & Hpd2 & Hs2 & Hent2 & Hcount2).
    assert (Hlw : lookup s2 (name w) = lookup s1 (name w)) by now apply Hs2.
    exists pd2, s2. cbn [foldM]. rewrite bind_run, Hrun1, Hrun2.
    split; [reflexivity|]. split.
    { rewrite Hpd2, Hpd1, filter_filter. apply filter_ext. intros r.
      unfold survives. cbn [forallb]. now rewrite (removed_ext s1 s2 w Hlw). }
    split.
    { intros key Hk. cbn [map] in Hk.
      rewrite Hs2 by (intros Hi; apply Hk; now right).
      apply Hs1. intros Heq. apply Hk. now left. }
    split.
    { intros v [<-|Hv] Hnum.
      - rewrite Hlw. now apply Hent1.
      - now apply Hent2. }
    unfold droppedCount in *. cbn [fold_right].
    rewrite Hcount2, (removed_ext s1 s2 w Hlw), Hlw, Hcount1. lia.
Qed.

End RemoveRows.

(** With method ['remove'] (variable names being distinct),
    [handleMissingValues] creates and modifies no row: it returns exactly
    the rows of the table, in their order, whose cell is not null for
    every variable that the summary records as removed; every numeric
    variable is recorded as ['skip'] or as ['remove'], and the counts
    recorded under ['remove'] add up to the number of rows dropped. *)
Theorem handleMissingValues_remove (H : Host) (h : store) (data : list ref)
  (variables : list VariableInfo) (config : MissingValue.t) :
  MissingValue.method config = mv_remove ->
  NoDup (map name variables) ->
  exists out summary,
    handleMissingValues H data variables config h = (Ok (out, summary), h)
    /\ out = filter (survives h summary variables) data
    /\ (forall v, In v variables -> type v = numeric ->
        exists e, lookup summary (name v) = Some e
                  /\ (Entry.method e = "skip" \/ Entry.method e = "remove"))
    /\ droppedCount summary variables
       = (Z.of_nat (List.length data) - Z.of_nat (List.length out))%Z.
Proof.
  intros Hm Hnd. unfold handleMissingValues. cbv zeta.
  destruct (handleMissingValues_remove_fold H config variables Hm Hnd data
              ([] : object Entry.t) h)
    as (out & summary & Hrun & Hout & _ & Hent & Hcount).
  exists out, summary. now repeat split.
Qed.

Lemma handleMissingValues_remove_witness :
  exists summary,
    handleMissingValues RefHost.host [0; 1; 2; 3]%nat
      [numeric_variable "age"; numeric_variable "income"] remove_half
      survey_rows
    = (Ok ([2; 3]%nat, summary), survey_rows)
    /\ droppedCount summary
         [numeric_variable "age"; numeric_variable "income"] = 2%Z.
Proof.
  destruct (handleMissingValues_remove RefHost.host survey_rows
              [0; 1; 2; 3]%nat
              [numeric_variable "age"; numeric_variable "income"] remove_half)
    as (out & summary & Hrun & Hout & _ & Hcount).
  - reflexivity.
  - repeat constructor; simpl; intuition discriminate.
  - exists summary. split; [|rewrite Hcount].
    + rewrite Hrun. vm_compute in Hrun. injection Hrun as <- <-. reflexivity.
    + vm_compute in Hrun. injection Hrun as <- _. reflexivity.
Defined.

(** ** The missing-value stage: imputation *)

Lemma nonNull_impute (fill : value) (cs : list value) :
  is_null fill = false ->
  nonNull (map (impute fill) cs) = map (impute fill) cs.
Proof.
  intros Hfill. unfold nonNull. induction cs as [|c cs IH]; [reflexivity|].
  cbn [map filter]. rewrite IH. unfold impute at 1.
  destruct (is_null c) eqn:Ec; now rewrite ?Hfill, ?Ec.
Qed.

Section MedianFacts.
Context (H : Host).

Lemma insert_sorted_In (x y : value) (sorted : list value) :
  In y (insert_sorted H x sorted) -> y = x \/ In y sorted.
Proof.
  induction sorted as [|z sorted IH]; cbn [insert_sorted].
  - intros [<-|[]]. now left.
  - destruct (_ <? _)%float.
    + intros [<-|Hin]; [right; now left|].
      destruct (IH Hin) as [->|Hs]; [now left | right; now right].
    + intros [<-|Hin]; [now left | now right].
Qed.

Lemma sort_numeric_In (values : list value) (y : value) :
  In y (sort_numeric H values) -> In y values.
Proof.
  unfold sort_numeric. cbv zeta. intros Hin. apply in_app_or in Hin.
  destruct Hin as [Hin|Hin]; [|now apply filter_In in Hin].
  assert (Hdef : forall z,
            In z (filter (fun v => negb (is_undefined v)) values) ->
            In z values).
  { intros z Hz. now apply filter_In in Hz. }
  revert Hin Hdef.
  generalize (filter (fun v => negb (is_undefined v)) values) as defined.
  intros defined Hin Hdef.
  destruct (forallb (fun v => negb (isNaN H v)) defined).
  - apply Hdef. clear Hdef.
    induction defined as [|x defined IH]; [destruct Hin|].
    cbn [fold_right] in Hin. apply insert_sorted_In in Hin.
    destruct Hin as [->|Hin]; [now left | right; now apply IH].
  - destruct (is_order _ _) eqn:Eorder; [|now apply Hdef].
    apply in_map_iff in Hin. destruct Hin as [i [<- Hi]].
    apply Hdef, nth_In.
    unfold is_order in Eorder. apply andb_true_iff in Eorder.
    destruct Eorder as [Eorder _]. apply andb_true_iff in Eorder.
    destruct Eorder as [_ Ebound]. rewrite forallb_forall in Ebound.
    now apply Nat.ltb_lt, Ebound.
Qed.

Lemma at_num_In (xs : list value) (i : float) :
  at_num xs i = VUndefined \/ In (at_num xs i) xs.
Proof.
  unfold at_num. destruct (index_of_num i) as [n|]; [|now left].
  destruct (nth_in_or_default n xs VUndefined); [now right | now left].
Qed.

Lemma calculateMedian_not_null (values : list value) :
  Forall (fun v => is_null v = false) values ->
  is_null (calculateMedian H values) = false.
Proof.
  intros Hall. unfold calculateMedian.
  destruct values as [|v values]; [reflexivity|]. cbv zeta.
  destruct (_ =? 0)%nat; [reflexivity|].
  destruct (at_num_In (sort_numeric H (v :: values))
              (Math_floor
                 (num_of_nat (List.length (sort_numeric H (v :: values))) / 2)))
    as [-> | Hin]; [reflexivity|].
  apply sort_numeric_In in Hin. rewrite Forall_forall in Hall.
  now apply Hall.
Qed.

Lemma nonNull_not_null (cs : list value) :
  Forall (fun v => is_null v = false) (nonNull cs).
Proof.
  apply Forall_forall. intros v Hv. apply filter_In in Hv.
  now apply negb_true_iff.
Qed.

Lemma fill_value_not_null (config : MissingValue.t) (cs : list value) :
  is_null (fill_value H config (nonNull cs)) = false.
Proof.
  unfold fill_value.
  destruct (MissingValue.method config); try reflexivity.
  apply calculateMedian_not_null, nonNull_not_null.
Qed.

End MedianFacts.

Section Imputation.
Context (H : Host).

Lemma handleMissingValues_step_fill (config : MissingValue.t)
  (w : VariableInfo) (pd : list ref) (s : object Entry.t) (h : store) :
  MissingValue.method config = mv_mean
  \/ MissingValue.method config = mv_median ->
  table_ok h pd ->
  exists pd' s' ext,
    handleMissingValues_step H config (pd, s) w h = (Ok (pd', s'), h ++ ext)
    /\ table_ok (h ++ ext) pd'
    /\ List.length pd' = List.length pd
    /\ (forall key, name w <> key ->
        cells (h ++ ext) pd' key = cells h pd key
        /\ lookup s' key = lookup s key)
    /\ (type w = numeric ->
        let cs := cells h pd (name w) in
        let n := List.length (filter is_null cs) in
        if (threshold_or_default config
            <? num_of_nat n / num_of_nat (List.length pd))%float
        then lookup s' (name w)
             = Some {| Entry.method := "skip"; Entry.count := Z.of_nat n |}
             /\ cells (h ++ ext) pd' (name w) = cs
        else lookup s' (name w)
             = Some {| Entry.method := fill_name config;
                       Entry.count := Z.of_nat n |}
             /\ cells (h ++ ext) pd' (name w)
                = map (impute (fill_value H config (nonNull cs))) cs).
Proof.
  intros Hfill Hok. unfold handleMissingValues_step, fill_name, fill_value.
  destruct (type w) eqn:Etype;
    try (exists pd, s, []; rewrite app_nil_r;
         repeat split; auto; discriminate).
  rewrite bind_run. cbn [get_store].
  destruct (_ <? _)%float eqn:Eskip.
  - eexists pd, _, []. rewrite app_nil_r.
    split; [reflexivity|]. split; [exact Hok|]. split; [reflexivity|]. split.
    + intros key Hne. split; [reflexivity | now apply lookup_set_other].
    + intros _. cbv zeta.
      split; [apply lookup_set_same | reflexivity].
  - destruct Hfill as [Hm|Hm]; rewrite Hm.
    + destruct (fillMissing_spec (name w)
                  (VNum (calculateMean H (nonNull (cells h pd (name w))))) pd h Hok)
        as (out & ext & Hrun & Hout & Hlen & Hkey & Hother).
      rewrite bind_run, Hrun. cbn [ret fst snd]. eexists out, _, ext.
      split; [reflexivity|]. split; [exact Hout|]. split; [exact Hlen|]. split.
      * intros key Hne. split; [now apply Hother | now apply lookup_set_other].
      * intros _. cbv zeta. split; [apply lookup_set_same | exact Hkey].
    + destruct (fillMissing_spec (name w)
                  (calculateMedian H (nonNull (cells h pd (name w)))) pd h Hok)
        as (out & ext & Hrun & Hout & Hlen & Hkey & Hother).
      rewrite bind_run, Hrun. cbn [ret fst snd]. eexists out, _, ext.
      split; [reflexivity|]. split; [exact Hout|]. split; [exact Hlen|]. split.
      * intros key Hne. split; [now apply Hother | now apply lookup_set_other].
      * intros _. cbv zeta. split; [apply lookup_set_same | exact Hkey].
Qed.

Lemma handleMissingValues_fill_frame (config : MissingValue.t)
  (ws : list VariableInfo) :
  MissingValue.method config = mv_mean
  \/ MissingValue.method config = mv_median ->
  forall pd s h, table_ok h pd ->
  exists pd' s' ext,
    foldM (handleMissingValues_step H config) ws (pd, s) h
    = (Ok (pd', s'), h ++ ext)
    /\ table_ok (h ++ ext) pd'
    /\ List.length pd' = List.length pd
    /\ (forall key, ~ In key (map name ws) ->
        cells (h ++ ext) pd' key = cells h pd key
        /\ lookup s' key = lookup s key).
Proof.
  intros Hfill. induction ws as [|w ws IH]; intros pd s h Hok.
  - exists pd, s, []. rewrite app_nil_r. now repeat split.
  - destruct (handleMissingValues_step_fill config w pd s h Hfill Hok)
      as (pd1 & s1 & ext1 & Hrun1 & Hok1 & Hlen1 & Hothers & _).
    destruct (IH pd1 s1 (h ++ ext1) Hok1)
      as (pd2 & s2 & ext2 & Hrun2 & Hok2 & Hlen2 & Hframe).
    exists pd2, s2, (ext1 ++ ext2).
    cbn [foldM]. rewrite bind_run, Hrun1, Hrun2, app_assoc.
    split; [reflexivity|]. split; [exact Hok2|]. split; [congruence|].
    intros key Hnot. cbn [map In] in Hnot.
    destruct (Hothers key) as [Hc1 Hs1]; [tauto|].
    destruct (Hframe key) as [Hc2 Hs2]; [tauto|].
    split; congruence.
Qed.

End Imputation.

Lemma handleMissingValues_fill_loop (H : Host) (h : store) (data : list ref)
  (variables : list VariableInfo) (config : MissingValue.t)
  (v : VariableInfo) :
  MissingValue.method config = mv_mean
  \/ MissingValue.method config = mv_median ->
  NoDup (map name variables) ->
  In v variables ->
  type v = numeric ->
  table_ok h data ->
  exists out summary h',
    foldM (handleMissingValues_step H config) variables
          (data, ([] : object Entry.t)) h
    = (Ok (out, summary), h')
    /\ List.length out = List.length data
    /\ (forall key, ~ In key (map name variables) ->
        cells h' out key = cells h data key)
    /\ if (threshold_or_default config
           <? num_of_nat (List.length (filter is_null (cells h data (name v))))
              / num_of_nat (List.length data))%float
       then lookup summary (name v)
            = Some {| Entry.method := "skip";
                      Entry.count :=
                        Z.of_nat (List.length
                                    (filter is_null (cells h data (name v)))) |}
            /\ cells h' out (name v) = cells h data (name v)
       else lookup summary (name v)
            = Some {| Entry.method := fill_name config;
                      Entry.count :=
                        Z.of_nat (List.length
                                    (filter is_null (cells h data (name v)))) |}
            /\ cells h' out (name v)
               = map (impute (fill_value H config
                                (nonNull (cells h data (name v)))))
                     (cells h data (name v)).
Proof.
  intros Hfill Hnd Hin Hnum Hok.
  destruct (in_split _ _ Hin) as (ws1 & ws2 & ->).
  rewrite map_app in Hnd. cbn [map] in Hnd.
  assert (Hnot1 : ~ In (name v) (map name ws1)).
  { intros Hi. apply (NoDup_remove_2 _ _ _ Hnd). apply in_or_app. now left. }
  assert (Hnot2 : ~ In (name v) (map name ws2)).
  { intros Hi. apply (NoDup_remove_2 _ _ _ Hnd). apply in_or_app. now right. }
  destruct (handleMissingValues_fill_frame H config ws1 Hfill data [] h Hok)
    as (pd1 & s1 & ext1 & Hrun1 & Hok1 & Hlen1 & Hframe1).
  destruct (handleMissingValues_step_fill H config v pd1 s1 (h ++ ext1)
              Hfill Hok1)
    as (pd2 & s2 & ext2 & Hrun2 & Hok2 & Hlen2 & Hframe2 & Hself).
  destruct (handleMissingValues_fill_frame H config ws2 Hfill pd2 s2
              ((h ++ ext1) ++ ext2) Hok2)
    as (pd3 & s3 & ext3 & Hrun3 & Hok3 & Hlen3 & Hframe3).
  exists pd3, s3, (((h ++ ext1) ++ ext2) ++ ext3).
  split; [|split; [|split]].
  - rewrite foldM_app, bind_run, Hrun1.
    cbn [foldM]. now rewrite bind_run, Hrun2.
  - congruence.
  - intros key Hnot. rewrite map_app, in_app_iff in Hnot. cbn [map In] in Hnot.
    destruct (Hframe1 key) as [Hc1 _]; [tauto|].
    destruct (Hframe2 key) as [Hc2 _]; [tauto|].
    destruct (Hframe3 key) as [Hc3 _]; [tauto|].
    congruence.
  - specialize (Hself Hnum). cbv zeta in Hself.
    destruct (Hframe1 (name v) Hnot1) as [Hc1 _].
    destruct (Hframe3 (name v) Hnot2) as [Hc3 Hs3].
    rewrite Hc1, Hlen1 in Hself. rewrite Hc3, Hs3.
    exact Hself.
Qed.

(** For every numeric column (variable names being distinct) and the
    methods ['mean'] and ['median'], whatever the configured threshold:
    the column is skipped when its ratio of null cells exceeds
    [config.threshold || 0.5], and is then unchanged; otherwise each of its
    null cells is replaced by the mean of its non-null cells, respectively
    by what [calculateMedian] returns for them (for an odd count the
    middle cell itself, as it is), no null cell is left in it, and the
    summary records the method with the number of replaced cells.  The
    table keeps its number of rows and the columns that belong to no
    variable. *)
Theorem handleMissingValues_imputes (H : Host) (h : store) (data : list ref)
  (variables : list VariableInfo) (config : MissingValue.t)
  (v : VariableInfo) :
  MissingValue.method config = mv_mean
  \/ MissingValue.method config = mv_median ->
  NoDup (map name variables) ->
  In v variables ->
  type v = numeric ->
  table_ok h data ->
  exists out summary h',
    handleMissingValues H data variables config h = (Ok (out, summary), h')
    /\ List.length out = List.length data
    /\ (forall key, ~ In key (map name variables) ->
        cells h' out key = cells h data key)
    /\ if (threshold_or_default config
           <? num_of_nat (List.length (filter is_null (cells h data (name v))))
              / num_of_nat (List.length data))%float
       then lookup summary (name v)
            = Some {| Entry.method := "skip";
                      Entry.count :=
                        Z.of_nat (List.length
                                    (filter is_null (cells h data (name v)))) |}
            /\ cells h' out (name v) = cells h data (name v)
       else lookup summary (name v)
            = Some {| Entry.method := fill_name config;
                      Entry.count :=
                        Z.of_nat (List.length
                                    (filter is_null (cells h data (name v)))) |}
            /\ cells h' out (name v)
               = map (impute (fill_value H config
                                (nonNull (cells h data (name v)))))
                     (cells h data (name v))
            /\ nonNull (cells h' out (name v)) = cells h' out (name v).
Proof.
  intros Hfill Hnd Hin Hnum Hok.
  destruct (handleMissingValues_fill_loop H h data variables config v
              Hfill Hnd Hin Hnum Hok)
    as (out & summary & h' & Hrun & Hlen & Hframe & Hself).
  exists out, summary, h'. unfold handleMissingValues. cbv zeta.
  split; [exact Hrun|]. split; [exact Hlen|]. split; [exact Hframe|].
  destruct (_ <? _)%float; [exact Hself|].
  destruct Hself as [Hs Hc]. split; [exact Hs|]. split; [exact Hc|].
  rewrite Hc. apply nonNull_impute, fill_value_not_null.
Qed.

Lemma handleMissingValues_imputes_witness :
  exists out summary h',
    handleMissingValues RefHost.host [0; 1; 2; 3]%nat
      [numeric_variable "age"; numeric_variable "income"] median_nan
      survey_rows
    = (Ok (out, summary), h')
    /\ lookup summary "age"
       = Some {| Entry.method := "median"; Entry.count := 1 |}
    /\ cells h' out "age" = [VNum 31; VNum 45; VNum 45; VNum 52].
Proof.
  destruct (handleMissingValues_imputes RefHost.host survey_rows
              [0; 1; 2; 3]%nat
              [numeric_variable "age"; numeric_variable "income"] median_nan
              (numeric_variable "age"))
    as (out & summary & h' & Hrun & _ & _ & Hres).
  - now right.
  - repeat constructor; simpl; intuition discriminate.
  - simpl; auto.
  - reflexivity.
  - repeat constructor.
  - exists out, summary, h'. split; [exact Hrun|].
    destruct Hres as (Hsum & Hcol & _). split; [exact Hsum | exact Hcol].
Defined.

(** With method ['mode'] (or ['none']) the missing-value stage imputes
    nothing: it returns the rows it received, leaves the store as it is,
    and its summary holds ['skip'] entries only. *)
Theorem handleMissingValues_mode_imputes_nothing (H : Host) (h : store)
  (data : list ref) (variables : list VariableInfo)
  (config : MissingValue.t) :
  MissingValue.method config = mv_mode
  \/ MissingValue.method config = mv_none ->
  exists summary,
    handleMissingValues H data variables config h = (Ok (data, summary), h)
    /\ forall key e, lookup summary key = Some e -> Entry.method e = "skip".
Proof.
  intros Hm. unfold handleMissingValues. cbv zeta.
  assert (Hgen : forall s : object Entry.t,
    (forall key e, lookup s key = Some e -> Entry.method e = "skip") ->
    exists summary,
      foldM (handleMissingValues_step H config) variables (data, s) h
      = (Ok (data, summary), h)
      /\ forall key e, lookup summary key = Some e -> Entry.method e = "skip").
  { induction variables as [|w ws IH]; intros s Hs.
    - now exists s.
    - cbn [foldM]. rewrite bind_run.
      assert (Hstep : exists s1,
        handleMissingValues_step H config (data, s) w h = (Ok (data, s1), h)
        /\ forall key e, lookup s1 key = Some e -> Entry.method e = "skip").
      { unfold handleMissingValues_step.
        destruct (type w); try (now exists s).
        rewrite bind_run. cbn [get_store].
        destruct (_ <? _)%float.
        - eexists. split; [reflexivity|]. intros key e.
          destruct (String.eqb_spec (name w) key) as [<-|Hne].
          + rewrite lookup_set_same. now intros [= <-].
          + rewrite lookup_set_other by assumption. apply Hs.
        - destruct Hm as [-> | ->]; now exists s. }
      destruct Hstep as (s1 & -> & Hs1). now apply IH. }
  apply Hgen. intros key e. discriminate.
Qed.

Lemma handleMissingValues_mode_witness :
  exists summary,
    handleMissingValues RefHost.host [0; 1; 2; 3]%nat
      [numeric_variable "age"; numeric_variable "income"]
      {| MissingValue.method := mv_mode; MissingValue.threshold := None |}
      survey_rows
    = (Ok ([0; 1; 2; 3]%nat, summary), survey_rows).
Proof.
  destruct (handleMissingValues_mode_imputes_nothing RefHost.host survey_rows
              [0; 1; 2; 3]%nat
              [numeric_variable "age"; numeric_variable "income"]
              {| MissingValue.method := mv_mode;
                 MissingValue.threshold := None |})
    as (summary & Hrun & _).
  - now left.
  - now exists summary.
Defined.

(** ** The pipeline *)

Section Pipeline.
Context (H : Host).

Lemma handleMissingValues_step_length (config : MissingValue.t)
  (w : VariableInfo) (pd : list ref) (s : object Entry.t) (h : store) :
  table_ok h pd ->
  exists pd' s' ext,
    handleMissingValues_step H config (pd, s) w h = (Ok (pd', s'), h ++ ext)
    /\ table_ok (h ++ ext) pd'
    /\ List.length pd' <= List.length pd
    /\ (MissingValue.method config <> mv_remove ->
        List.length pd' = List.length pd).
Proof.
  intros Hok. unfold handleMissingValues_step.
  assert (Hsame : forall s' : object Entry.t,
             exists pd'' s'' ext,
               ret (pd, s') h = (Ok (pd'', s''), h ++ ext)
               /\ table_ok (h ++ ext) pd''
               /\ List.length pd'' <= List.length pd
               /\ (MissingValue.method config <> mv_remove ->
                   List.length pd'' = List.length pd)).
  { intros s'. exists pd, s', []. rewrite app_nil_r. now repeat split. }
  destruct (type w); try (now apply Hsame).
  rewrite bind_run. cbn [get_store].
  destruct (_ <? _)%float; [now apply Hsame|].
  destruct (MissingValue.method config) eqn:Em; try (now apply Hsame).
  - destruct (fillMissing_spec (name w)
                (VNum (calculateMean H (nonNull (cells h pd (name w))))) pd h Hok)
      as (out & ext & Hrun & Hout & Hlen & _).
    rewrite bind_run, Hrun. cbn [ret fst snd]. eexists out, _, ext.
    split; [reflexivity|]. split; [exact Hout|]. split; [lia|]. now intros _.
  - destruct (fillMissing_spec (name w)
                (calculateMedian H (nonNull (cells h pd (name w)))) pd h Hok)
      as (out & ext & Hrun & Hout & Hlen & _).
    rewrite bind_run, Hrun. cbn [ret fst snd]. eexists out, _, ext.
    split; [reflexivity|]. split; [exact Hout|]. split; [lia|]. now intros _.
  - eexists _, _, []. rewrite app_nil_r. split; [reflexivity|]. split.
    { unfold table_ok in *. rewrite Forall_forall in *.
      intros r Hr. apply filter_In in Hr. now apply Hok. }
    split; [apply filter_length_le|]. now intros [].
Qed.

Lemma handleMissingValues_length (config : MissingValue.t)
  (variables : list VariableInfo) (data : list ref) (h : store) :
  table_ok h data ->
  exists out summary ext,
    handleMissingValues H data variables config h
    = (Ok (out, summary), h ++ ext)
    /\ table_ok (h ++ ext) out
    /\ List.length out <= List.length data
    /\ (MissingValue.method config <> mv_remove ->
        List.length out = List.length data).
Proof.
  unfold handleMissingValues. cbv zeta.
  generalize (@nil (string * Entry.t) : object Entry.t) as s.
  revert data h. induction variables as [|w ws IH]; intros pd h s Hok.
  - exists pd, s, []. rewrite app_nil_r. now repeat split.
  - destruct (handleMissingValues_step_length config w pd s h Hok)
      as (pd1 & s1 & ext1 & Hrun1 & Hok1 & Hle1 & Heq1).
    destruct (IH pd1 (h ++ ext1) s1 Hok1)
      as (pd2 & s2 & ext2 & Hrun2 & Hok2 & Hle2 & Heq2).
    exists pd2, s2, (ext1 ++ ext2).
    cbn [foldM]. rewrite bind_run, Hrun1, Hrun2, app_assoc.
    split; [reflexivity|]. split; [exact Hok2|]. split; [lia|].
    intros Hm. rewrite Heq2, Heq1 by assumption. reflexivity.
Qed.

End Pipeline.

(** [preprocessDataAdvanced] never returns more rows than it received, and
    returns exactly as many unless the missing-value method is ['remove'];
    its stages create row objects but never discard one from the store,
    and every returned row is a row of the store. *)
Theorem preprocessDataAdvanced_row_count (H : Host) (h : store)
  (data : list ref) (variables : list VariableInfo)
  (config : PreprocessConfig) :
  table_ok h data ->
  exists out summary h',
    preprocessDataAdvanced H data variables config h
    = (Ok (out, summary), h')
    /\ table_ok h' out
    /\ List.length h <= List.length h'
    /\ List.length out <= List.length data
    /\ (MissingValue.method (missingValue config) <> mv_remove ->
        List.length out = List.length data).
Proof.
  intros Hok. unfold preprocessDataAdvanced. cbv zeta.
  assert (H1 : exists out s1 ext,
    match MissingValue.method (missingValue config) with
    | mv_none => ret (data, [])
    | _ => handleMissingValues H data variables (missingValue config)
    end h = (Ok (out, s1), h ++ ext)
    /\ table_ok (h ++ ext) out
    /\ List.length out <= List.length data
    /\ (MissingValue.method (missingValue config) <> mv_remove ->
        List.length out = List.length data)).
  { pose proof (handleMissingValues_length H (missingValue config) variables
                  data h Hok) as Hrun.
    destruct (MissingValue.method (missingValue config)); try exact Hrun.
    exists data, [], []. rewrite app_nil_r. now repeat split. }
  destruct H1 as (out & s1 & ext & Hrun1 & Hok1 & Hle & Heq).
  rewrite bind_run, Hrun1. cbn [fst snd].
  assert (H2 : exists s2 h2,
    match Outlier.method (outlier config) with
    | out_none => ret (out, [])
    | _ => handleOutliers H out variables (outlier config)
    end (h ++ ext) = (Ok (out, s2), h2)
    /\ List.length h2 = List.length (h ++ ext)).
  { assert (Hrun : exists s2 h2,
      handleOutliers H out variables (outlier config) (h ++ ext)
      = (Ok (out, s2), h2) /\ List.length h2 = List.length (h ++ ext)).
    { unfold handleOutliers. cbv zeta.
      destruct (handleOutliers_fold_frame H out (outlier config) variables
                  [] (h ++ ext)) as (s2 & h2 & Hrun2 & Hlen2 & _).
      exists s2, h2. now rewrite bind_run, Hrun2. }
    destruct (Outlier.method (outlier config)); try exact Hrun.
    now exists [], (h ++ ext). }
  destruct H2 as (s2 & h2 & Hrun2 & Hlen2).
  rewrite bind_run, Hrun2. cbn [fst snd].
  assert (H3 : exists s3 h3,
    match Standardization.method (standardization config) with
    | std_none => ret (out, [])
    | _ => standardizeData H out variables (standardization config)
    end h2 = (Ok (out, s3), h3)
    /\ List.length h3 = List.length h2).
  { assert (Hrun : exists s3 h3,
      standardizeData H out variables (standardization config) h2
      = (Ok (out, s3), h3) /\ List.length h3 = List.length h2).
    { unfold standardizeData. cbv zeta.
      destruct (standardizeData_fold_frame H out (standardization config)
                  variables [] h2) as (s3 & h3 & Hrun3 & Hlen3 & _).
      exists s3, h3. now rewrite bind_run, Hrun3. }
    destruct (Standardization.method (standardization config));
      try exact Hrun.
    now exists [], h2. }
  destruct H3 as (s3 & h3 & Hrun3 & Hlen3).
  rewrite bind_run, Hrun3. cbn [ret fst snd].
  eexists out, _, h3. split; [reflexivity|].
  split.
  { unfold table_ok in *. now rewrite Hlen3, Hlen2. }
  split; [rewrite Hlen3, Hlen2, length_app; lia|].
  split; assumption.
Qed.

Lemma preprocessDataAdvanced_row_count_witness :
  exists out summary h',
    preprocessDataAdvanced RefHost.host [0; 1; 2; 3]%nat
      [numeric_variable "age"; numeric_variable "income"] zscore_only
      survey_rows
    = (Ok (out, summary), h')
    /\ List.length out = 4%nat.
Proof.
  destruct (preprocessDataAdvanced_row_count RefHost.host survey_rows
              [0; 1; 2; 3]%nat
              [numeric_variable "age"; numeric_variable "income"] zscore_only)
    as (out & summary & h' & Hrun & _ & _ & _ & Heq).
  - repeat constructor.
  - exists out, summary, h'. split; [exact Hrun|]. apply Heq. discriminate.
Defined.

(** ** The normalization pass, cell by cell *)

Section NormalizationFacts.
Context (H : Host).

Lemma lookup_normalizedRow (r : row) (k : string) :
  lookup (normalizedRow H r) k = option_map (normalized H) (lookup r k).
Proof.
  induction r as [|[k' v] r IH]; [reflexivity|].
  cbn [normalizedRow map lookup fst snd]. fold (normalizedRow H r).
  now destruct (String.eqb k' k).
Qed.

Lemma normalized_cell_normal (v : value) : cell_normal H (normalized H v).
Proof.
  unfold normalized.
  destruct v as [| |b|x|s|t]; try exact I.
  - destruct b; vm_compute; exact I.
  - cbn [new_Date].
    repeat match goal with
           | |- context [if ?c then _ else _] => destruct c
           end; exact I.
  - destruct s as [|a s]; [exact I|].
    unfold isNaN, Date_parse_value. cbn [ToNumber ToString new_Date].
    destruct (isNaN_num (StringToNumber H (String a s))) eqn:En;
      cbn [negb]; [|exact I].
    destruct (isNaN_num (Date_parse H (String a s))) eqn:Ed;
      cbn [negb]; [|exact I].
    cbn [cell_normal]. repeat split; try assumption. discriminate.
  - cbn [new_Date].
    repeat match goal with
           | |- context [if ?c then _ else _] => destruct c
           end; exact I.
Qed.

Lemma is_null_normalized (v : value) : is_null (normalized H v) = blank v.
Proof.
  unfold normalized.
  destruct v as [| |b|x|s|t]; try reflexivity;
    try (destruct s as [|a s]; [reflexivity|]);
    cbn [blank new_Date];
    repeat match goal with
           | |- context [if ?c then _ else _] => destruct c
           end; reflexivity.
Qed.

Lemma nonNull_column_normalized (data : list row) (k : string) :
  nonNull (column (map (normalizedRow H) data) k)
  = map (fun r => get (normalizedRow H r) k)
        (filter (fun r => negb (blank_cell r k)) data).
Proof.
  unfold nonNull, column. rewrite map_map.
  induction data as [|r data IH]; [reflexivity|].
  cbn [map filter].
  assert (Hr : is_null (get (normalizedRow H r) k) = blank_cell r k).
  { unfold get, blank_cell. rewrite lookup_normalizedRow.
    destruct (lookup r k) as [c|]; [|reflexivity].
    apply is_null_normalized. }
  rewrite Hr. destruct (blank_cell r k); cbn [negb map]; now rewrite IH.
Qed.

End NormalizationFacts.

(** [preprocessData] keeps the number of rows and the keys of every row,
    and leaves in no cell [undefined], a boolean or the empty string; a
    cell that is still a string is neither numeric nor a date the engine
    can parse. *)
Theorem preprocessData_cells (H : Host) (data : list row) :
  Forall row_ok data ->
  List.length (preprocessData H data) = List.length data
  /\ map keys (preprocessData H data) = map keys data
  /\ forall r k c,
       In r (preprocessData H data) -> lookup r k = Some c ->
       cell_normal H c.
Proof.
  intros Hok. rewrite (preprocessData_map H data Hok).
  split; [apply length_map|]. split.
  - rewrite map_map. apply map_ext. intros r. apply keys_normalizedRow.
  - intros r k c Hin Hl. apply in_map_iff in Hin. destruct Hin as [r0 [<- _]].
    rewrite lookup_normalizedRow in Hl.
    destruct (lookup r0 k) as [v|]; [|discriminate].
    injection Hl as <-. apply normalized_cell_normal.
Qed.

Lemma preprocessData_cells_witness :
  map keys (preprocessData RefHost.host sample_table) = map keys sample_table
  /\ cell_normal RefHost.host (VStr "Lyon").
Proof.
  destruct (preprocessData_cells RefHost.host sample_table sample_table_ok)
    as (_ & Hkeys & Hcells).
  split; [exact Hkeys|].
  apply (Hcells (hd [] (preprocessData RefHost.host sample_table)) "city").
  - vm_compute. now left.
  - vm_compute. reflexivity.
Defined.

(** On a table that went through [preprocessData], as in [parseFile],
    [analyzeVariables] reports as [missing] the number of rows that hold
    the column with a blank cell (the empty string, [undefined] or
    [null]) in the raw table, and as [count] the number of the other
    rows, those that lack the column included. *)
Theorem analyzeVariables_missing_counts_blank (H : Host) (data : list row)
  (v : VariableInfo) :
  Forall row_ok data ->
  In v (analyzeVariables H (preprocessData H data)) ->
  missing (stats v)
  = Z.of_nat (List.length (filter (fun r => blank_cell r (name v)) data))
  /\ count (stats v)
     = Z.of_nat (List.length
                   (filter (fun r => negb (blank_cell r (name v))) data)).
Proof.
  intros Hok Hin. rewrite (preprocessData_map H data Hok) in Hin.
  assert (Hv : v = analyzeColumn H (map (normalizedRow H) data) (name v)).
  { unfold analyzeVariables in Hin.
    destruct (map (normalizedRow H) data) as [|first rest]; [destruct Hin|].
    apply in_map_iff in Hin. destruct Hin as [c [<- _]]. reflexivity. }
  pose proof (nonNull_column_normalized H data (name v)) as Hnn.
  rewrite Hv. unfold analyzeColumn. cbn [stats missing count name].
  rewrite Hnn, !length_map.
  pose proof (filter_length (fun r => blank_cell r (name v)) data) as Hlen.
  split; [lia | reflexivity].
Qed.

Lemma analyzeVariables_missing_witness :
  exists v,
    In v (analyzeVariables RefHost.host
            (preprocessData RefHost.host sample_table))
    /\ name v = "note" /\ missing (stats v) = 1%Z /\ count (stats v) = 1%Z.
Proof.
  exists (analyzeColumn RefHost.host
            (preprocessData RefHost.host sample_table) "note").
  assert (Hin : In (analyzeColumn RefHost.host
                      (preprocessData RefHost.host sample_table) "note")
                   (analyzeVariables RefHost.host
                      (preprocessData RefHost.host sample_table))).
  { apply in_map_iff. exists "note". split; [reflexivity|].
    vm_compute. tauto. }
  split; [exact Hin|]. split; [reflexivity|].
  destruct (analyzeVariables_missing_counts_blank RefHost.host sample_table
              _ sample_table_ok Hin) as [Hm Hc].
  split; [exact Hm | exact Hc].
Defined.

(** ** The variable analyzer: types *)

Lemma SFeqb_left_refl (a b : SpecFloat.spec_float) :
  SpecFloat.SFeqb a b = true -> SpecFloat.SFeqb a a = true.
Proof.
  unfold SpecFloat.SFeqb.
  destruct a as [s|s| |s m e]; try reflexivity.
  - now destruct s.
  - intros H. now destruct b.
  - intros _. cbn. rewrite Z.compare_refl, Pcompare_refl.
    now destruct s.
Qed.

Lemma eqb_not_nan (x y : float) :
  (x =? y)%float = true -> PrimFloat.is_nan x = false.
Proof.
  unfold PrimFloat.is_nan. rewrite !FloatAxioms.eqb_spec. intros Hxy.
  now rewrite (SFeqb_left_refl _ _ Hxy).
Qed.

Section ColumnTypes.
Context (H : Host).

Lemma zero_one_not_nan (v : value) :
  zero_one H v = true -> isNaN H v = false.
Proof.
  unfold zero_one, isNaN, isNaN_num. intros Hz.
  apply orb_true_iff in Hz. destruct Hz as [Hz|Hz]; now apply eqb_not_nan in Hz.
Qed.

Lemma filter_all {A} (p : A -> bool) (l : list A) :
  forallb p l = true -> filter p l = l.
Proof.
  induction l as [|x l IH]; [reflexivity|]. cbn [forallb filter].
  destruct (p x); [|discriminate]. cbn [andb]. intros Hl. now rewrite IH.
Qed.

Lemma filter_some_out {A} (p : A -> bool) (l : list A) :
  forallb p l = false -> List.length (filter p l) < List.length l.
Proof.
  induction l as [|x l IH]; [discriminate|]. cbn [forallb filter].
  destruct (p x); cbn [andb List.length].
  - intros Hl. specialize (IH Hl). lia.
  - intros _. pose proof (filter_length_le p l). lia.
Qed.

Lemma dummy_test (values : list value) :
  (List.length (map (ToNumber H) (filter (fun v => negb (isNaN H v)) values))
   =? List.length values)%nat
  && forallb (fun x => (x =? 0)%float || (x =? 1)%float)
       (map (ToNumber H) (filter (fun v => negb (isNaN H v)) values))
  = forallb (zero_one H) values.
Proof.
  destruct (forallb (fun v => negb (isNaN H v)) values) eqn:Hall.
  - rewrite (filter_all _ _ Hall), length_map, Nat.eqb_refl. cbn [andb].
    induction values as [|v values IH]; [reflexivity|].
    cbn [map forallb] in *. apply andb_true_iff in Hall.
    now rewrite IH.
  - apply filter_some_out in Hall. rewrite length_map.
    assert (Hne : (List.length (filter (fun v => negb (isNaN H v)) values)
                   =? List.length values)%nat = false)
      by (apply Nat.eqb_neq; lia).
    rewrite Hne. cbn [andb]. symmetry.
    destruct (forallb (zero_one H) values) eqn:Hz; [|reflexivity].
    exfalso. rewrite forallb_forall in Hz.
    assert (Hfull : filter (fun v => negb (isNaN H v)) values = values).
    { apply filter_all. apply forallb_forall. intros v Hv.
      now rewrite (zero_one_not_nan v (Hz v Hv)). }
    rewrite Hfull in Hall. lia.
Qed.

Lemma analyzeColumn_type (data : list row) (c : string) :
  type (analyzeColumn H data c) = column_type H (nonNull (column data c)).
Proof.
  unfold analyzeColumn, column_type, numeric_share. cbn [type].
  rewrite dummy_test. now rewrite length_map.
Qed.

End ColumnTypes.

(** [analyzeVariables] types a column by its non-null cells: [dummy]
    exactly when every one of them converts to the number 0 or 1 (the
    strings ["0"] and ["1"], booleans and a column without any non-null
    cell included); failing that [numeric] when more than 80% of them
    convert to a number, failing that [date] when all of them parse as
    dates, and [categorical] otherwise. *)
Theorem analyzeVariables_types (H : Host) (data : list row)
  (v : VariableInfo) :
  In v (analyzeVariables H data) ->
  type v = column_type H (nonNull (column data (name v)))
  /\ (type v = dummy
      <-> forallb (zero_one H) (nonNull (column data (name v))) = true).
Proof.
  intros Hin. unfold analyzeVariables in Hin.
  destruct data as [|first rest]; [destruct Hin|].
  apply in_map_iff in Hin. destruct Hin as [c [<- _]].
  rewrite analyzeColumn_type. cbn [name analyzeColumn].
  split; [reflexivity|]. unfold column_type.
  destruct (forallb (zero_one H) _); [now split|].
  split; [|discriminate].
  destruct (_ <? _)%float; [discriminate|].
  destruct (forallb _ _); discriminate.
Qed.

Lemma analyzeVariables_types_witness :
  map type (analyzeVariables RefHost.host answers_table) = [dummy; categorical]
  /\ exists v,
       In v (analyzeVariables RefHost.host answers_table)
       /\ name v = "passed" /\ type v = dummy.
Proof.
  split; [reflexivity|].
  exists (analyzeColumn RefHost.host answers_table "passed").
  assert (Hin : In (analyzeColumn RefHost.host answers_table "passed")
                   (analyzeVariables RefHost.host answers_table)).
  { apply in_map_iff. exists "passed". split; [reflexivity|]. now left. }
  split; [exact Hin|]. split; [reflexivity|].
  apply (analyzeVariables_types RefHost.host answers_table _ Hin).
  reflexivity.
Defined.

(** ** The CSV parser *)

Lemma put_last_new {V} (o : object V) (k : string) (v : V) :
  ~ In k (keys o) -> put_last o k v = o ++ [(k, v)].
Proof.
  induction o as [|[k' v'] o IH]; [reflexivity|].
  cbn [keys map fst In put_last app]. intros Hn.
  destruct (String.eqb_spec k' k) as [->|Hne]; [tauto|].
  f_equal. apply IH. intros Hi. apply Hn. now right.
Qed.

Lemma keys_put_last_in {V} (o : object V) (k : string) (v : V) :
  In k (keys o) -> keys (put_last o k v) = keys o.
Proof.
  induction o as [|[k' v'] o IH]; [intros []|].
  cbn [keys map fst In put_last]. intros Hin.
  destruct (String.eqb_spec k' k) as [->|Hne]; [reflexivity|].
  cbn [map fst]. f_equal. apply IH. destruct Hin; [contradiction|assumption].
Qed.

Lemma lookup_none {V} (o : object V) (k : string) :
  lookup o k = None -> ~ In k (keys o).
Proof.
  induction o as [|[k' v'] o IH]; [intros _ []|].
  cbn [lookup keys map fst In].
  destruct (String.eqb_spec k' k) as [->|Hne]; [discriminate|].
  intros Hnone [Heq|Hin]; [contradiction | now apply IH].
Qed.

Lemma keys_insert_index {V} (o : object V) (n : Z) (k : string) (v : V) :
  Add k (keys o) (keys (insert_index o n k v)).
Proof.
  induction o as [|[k' v'] o IH]; cbn [insert_index keys map fst].
  - constructor.
  - destruct (array_index k') as [m|]; [destruct (m <? n)%Z|];
      cbn [map fst]; try constructor. exact IH.
Qed.

Lemma row_ok_set (r : row) (k : string) (v : value) :
  row_ok r -> row_ok (set r k v).
Proof.
  unfold row_ok, set. intros Hnd.
  assert (Hlast : NoDup (keys (put_last r k v))).
  { destruct (in_dec string_dec k (keys r)) as [Hin|Hn].
    - now rewrite keys_put_last_in.
    - rewrite put_last_new, keys_app by assumption. cbn [keys map fst].
      apply NoDup_app; [assumption | repeat constructor; intros [] |].
      intros x Hx [<-|[]]. contradiction. }
  destruct (lookup r k) eqn:El; [exact Hlast|].
  destruct (array_index k) as [n|]; [|exact Hlast].
  apply (NoDup_Add (keys_insert_index r n k v)).
  split; [exact Hnd | now apply lookup_none].
Qed.

Lemma csv_reduce_row_ok (line : string) (headers : list string) :
  forall (obj : row) (index : nat),
  row_ok obj ->
  row_ok (fst (fold_left
                 (fun (acc : row * nat) header =>
                    let (obj, index) := acc in
                    (assign_string obj header
                       (match nth_error (split line ",") index with
                        | Some v => trim v
                        | None => ""
                        end),
                     S index))
                 headers (obj, index))).
Proof.
  induction headers as [|header headers IH]; intros obj index Hok;
    [exact Hok|].
  cbn [fold_left]. apply IH. unfold assign_string.
  destruct (String.eqb header "__proto__"); [exact Hok|].
  now apply row_ok_set.
Qed.

(** The [reduce] of [parseCSV] sets the fields of the record one after
    the other, the header [__proto__] apart. *)
Lemma csv_reduce_assigns (line : string) (headers : list string) :
  forall (obj : row) (index : nat),
  fst (fold_left
         (fun (acc : row * nat) header =>
            let (obj, index) := acc in
            (assign_string obj header
               (match nth_error (split line ",") index with
                | Some v => trim v
                | None => ""
                end),
             S index))
         headers (obj, index))
  = fold_left (fun (o : row) kv => set o (fst kv) (snd kv))
      (filter assignable
         (map (fun ih => (snd ih, VStr (csv_field line (fst ih))))
              (combine (seq index (List.length headers)) headers)))
      obj.
Proof.
  induction headers as [|header headers IH]; intros obj index;
    [reflexivity|].
  cbn [fold_left List.length seq combine map filter fst snd].
  rewrite IH. unfold assign_string, assignable at 2. cbn [fst].
  destruct (String.eqb header "__proto__"); reflexivity.
Qed.

Lemma keys_assignable_NoDup {V} (o : object V) :
  NoDup (keys o) -> NoDup (keys (filter assignable o)).
Proof.
  induction o as [|[k v] o IH]; [intros _; constructor|].
  cbn [keys map fst filter]. intros Hnd. apply NoDup_cons_iff in Hnd.
  destruct Hnd as [Hk Hnd].
  destruct (assignable (k, v)); [|now apply IH].
  cbn [keys map fst]. constructor; [|now apply IH].
  intros Hin. apply Hk. unfold keys in *. apply in_map_iff in Hin.
  destruct Hin as [e [<- He]]. apply filter_In in He.
  now apply (in_map fst).
Qed.

Section OwnOrder.
Context {V : Type}.
Implicit Types (o sorted rest : object V) (kv : string * V).

Lemma insert_index_sorted sorted rest n k v :
  array_index k = Some n ->
  Forall (fun e => is_index e = true) sorted ->
  Forall (fun e => is_index e = false) rest ->
  insert_index (sorted ++ rest) n k v
  = insert_by_index (k, v) sorted ++ rest.
Proof.
  intros Hk Hsorted Hrest.
  induction Hsorted as [|[k' v'] sorted He _ IH];
    cbn [app insert_index insert_by_index].
  - destruct Hrest as [|[k' v'] rest He _]; [reflexivity|].
    cbn [insert_index]. unfold is_index in He. cbn [fst] in He.
    now destruct (array_index k').
  - unfold index_of, is_index in *. cbn [fst] in *. rewrite Hk.
    destruct (array_index k') as [m|]; [|discriminate].
    destruct (m <? n)%Z; [now rewrite IH | reflexivity].
Qed.

Lemma insert_by_index_in kv sorted e :
  In e (insert_by_index kv sorted) -> e = kv \/ In e sorted.
Proof.
  induction sorted as [|x sorted IH]; cbn [insert_by_index].
  - intros [<-|[]]. now left.
  - destruct (_ <? _)%Z.
    + intros [<-|Hin]; [right; now left|].
      destruct (IH Hin) as [->|Hs]; [now left | right; now right].
    + intros [<-|Hin]; [now left | now right].
Qed.

Lemma insert_by_index_indices kv sorted :
  is_index kv = true ->
  Forall (fun e => is_index e = true) sorted ->
  Forall (fun e => is_index e = true) (insert_by_index kv sorted).
Proof.
  intros Hkv Hsorted.
  induction Hsorted as [|x sorted Hx Hs IH]; cbn [insert_by_index].
  - now repeat constructor.
  - destruct (_ <? _)%Z; constructor; auto.
Qed.

Lemma assignments_own_order (l : object V) :
  forall sorted rest,
  NoDup (keys l) ->
  (forall k, In k (keys l) -> ~ In k (keys (sorted ++ rest))) ->
  Forall (fun e => is_index e = true) sorted ->
  Forall (fun e => is_index e = false) rest ->
  fold_left (fun o kv => set o (fst kv) (snd kv)) l (sorted ++ rest)
  = fold_left (fun sorted kv => insert_by_index kv sorted)
      (filter is_index l) sorted
    ++ (rest ++ filter (fun kv => negb (is_index kv)) l).
Proof.
  induction l as [|[k v] l IH]; intros sorted rest Hnd Hfresh Hsorted Hrest.
  - cbn. now rewrite app_nil_r.
  - cbn [keys map fst] in Hnd, Hfresh. apply NoDup_cons_iff in Hnd.
    destruct Hnd as [Hk Hnd].
    assert (Hnew : ~ In k (keys (sorted ++ rest))).
    { apply Hfresh. now left. }
    cbn [fold_left filter fst snd].
    destruct (is_index (k, v)) eqn:Eidx; cbn [negb].
    + assert (Hstep : set (sorted ++ rest) k v
                      = insert_by_index (k, v) sorted ++ rest).
      { unfold set. rewrite (lookup_not_in (sorted ++ rest) k Hnew).
        unfold is_index in Eidx. cbn [fst] in Eidx.
        destruct (array_index k) as [n|] eqn:Ek; [|discriminate].
        now apply insert_index_sorted. }
      rewrite Hstep. cbn [fold_left]. apply IH; try assumption.
      * intros k' Hk' Hin. rewrite keys_app in Hin.
        apply in_app_or in Hin. destruct Hin as [Hin|Hin].
        -- unfold keys in Hin. apply in_map_iff in Hin.
           destruct Hin as [e [<- He]].
           apply insert_by_index_in in He. destruct He as [->|He].
           ++ now apply Hk.
           ++ apply (Hfresh (fst e)); [now right|].
              rewrite keys_app. apply in_or_app. left.
              now apply (in_map fst).
        -- apply (Hfresh k'); [now right|].
           rewrite keys_app. apply in_or_app. now right.
      * now apply insert_by_index_indices.
    + assert (Hstep : set (sorted ++ rest) k v = sorted ++ (rest ++ [(k, v)])).
      { unfold set. rewrite (lookup_not_in (sorted ++ rest) k Hnew).
        unfold is_index in Eidx. cbn [fst] in Eidx.
        destruct (array_index k) as [n|] eqn:Ek; [discriminate|].
        now rewrite (put_last_new (sorted ++ rest) k v Hnew), <- app_assoc. }
      rewrite Hstep, IH; try assumption.
      * now rewrite <- app_assoc.
      * intros k' Hk' Hin. rewrite !keys_app in Hin.
        cbn [keys map fst] in Hin. rewrite app_assoc in Hin.
        apply in_app_or in Hin. destruct Hin as [Hin|[<-|[]]].
        -- apply (Hfresh k'); [now right|]. now rewrite keys_app.
        -- now apply Hk.
      * apply Forall_app. split; [exact Hrest|]. now repeat constructor.
Qed.

End OwnOrder.

Lemma append_nil_r (s : string) : (s ++ "")%string = s.
Proof. induction s as [|c s IH]; [reflexivity|]. cbn. now rewrite IH. Qed.

Lemma append_assoc (a b c : string) :
  ((a ++ b) ++ c)%string = (a ++ (b ++ c))%string.
Proof. induction a as [|x a IH]; [reflexivity|]. cbn. now rewrite IH. Qed.

Lemma split_go_whole (sep s : string) :
  includes s sep = false ->
  forall cur, split_go sep s 0 cur = [(cur ++ s)%string].
Proof.
  induction s as [|c s IH]; intros Hinc cur.
  - cbn. now rewrite append_nil_r.
  - rewrite includes_unfold in Hinc. apply orb_false_iff in Hinc.
    destruct Hinc as [Hstart Hrest].
    cbn [split_go]. rewrite Hstart, (IH Hrest), append_assoc. reflexivity.
Qed.

Lemma parseCSV_rows_ok (text : string) : Forall row_ok (parseCSV text).
Proof.
  unfold parseCSV. cbv zeta.
  apply Forall_forall. intros r Hr. apply in_map_iff in Hr.
  destruct Hr as [line [<- _]]. apply csv_reduce_row_ok. constructor.
Qed.

Lemma keys_csv_record (headers : list string) (line : string) :
  keys (csv_record headers line) = headers.
Proof.
  unfold csv_record, keys. rewrite map_map. cbn [fst].
  generalize 0%nat. induction headers as [|header headers IH]; intros index;
    [reflexivity|].
  cbn [List.length seq combine map snd]. now rewrite IH.
Qed.

(** [parseCSV] builds rows whose keys are distinct; when the header names
    are distinct, each data line (a line after the first that is not
    blank) yields the record that pairs the [i]-th header with the
    [i]-th field of the line, trimmed, a missing field being the empty
    string and the fields beyond the headers being dropped.  A header
    [__proto__] gives no property.  The record lists its keys as an object
    does: the headers that are array indices first, by increasing index,
    then the other headers in their order. *)
Theorem parseCSV_records (text : string) :
  Forall row_ok (parseCSV text)
  /\ (NoDup (csv_headers text) ->
      parseCSV text
      = map (fun line =>
               own_order
                 (filter assignable (csv_record (csv_headers text) line)))
            (csv_lines text)).
Proof.
  split; [apply parseCSV_rows_ok|].
  unfold parseCSV. cbv zeta. fold (csv_headers text). fold (csv_lines text).
  intros Hnd. apply map_ext. intros line.
  rewrite csv_reduce_assigns. fold (csv_record (csv_headers text) line).
  apply (assignments_own_order
           (filter assignable (csv_record (csv_headers text) line)) [] []).
  - apply keys_assignable_NoDup. now rewrite keys_csv_record.
  - intros k _ [].
  - constructor.
  - constructor.
Qed.

Lemma parseCSV_records_witness :
  parseCSV "id, 2020,__proto__,2019\na, 7 ,p,8,x\n  \nb"
  = [ [("2019", VStr "8"); ("2020", VStr "7"); ("id", VStr "a")];
      [("2019", VStr ""); ("2020", VStr ""); ("id", VStr "b")] ].
Proof.
  destruct (parseCSV_records "id, 2020,__proto__,2019\na, 7 ,p,8,x\n  \nb")
    as [_ Hrec].
  rewrite Hrec; [reflexivity|].
  vm_compute. repeat constructor; cbn [In]; intros Hin;
    repeat (destruct Hin as [Hin|Hin]; [discriminate Hin|]); exact Hin.
Defined.

(** Fields and lines are trimmed of no-break spaces as of blanks. *)
Example parseCSV_no_break_space :
  parseCSV ("a,b\n" ++ no_break_space ++ "x" ++ no_break_space ++ ",1\n"
            ++ no_break_space ++ no_break_space)
  = [ [("a", VStr "x"); ("b", VStr "1")] ].
Proof. vm_compute. reflexivity. Qed.

(** The lines of a CSV text are separated by the two characters backslash
    and [n]: a text that does not hold this pair, however many line feeds
    it holds, is a header line alone, and [parseCSV] returns no row. *)
Theorem parseCSV_without_separator (text : string) :
  includes text "\n" = false -> parseCSV text = [].
Proof.
  intros Hinc. unfold parseCSV, split. cbv zeta.
  rewrite (split_go_whole "\n" text Hinc). reflexivity.
Qed.

Lemma parseCSV_without_separator_witness :
  parseCSV (String "a" (String "," (String "b" (String "010"%char
             (String "1" (String "," (String "2" EmptyString)))))))
  = [].
Proof.
  apply parseCSV_without_separator. reflexivity.
Defined.

(** ** [parseFile]: how the promise settles *)

Section ParseFileFacts.
Context (H : Host) (XLSX_first_sheet : string -> result (list row)).

Lemma detectDataType_none (data : list row) :
  Detected.dataType (detectDataType data) = None <-> data = [].
Proof.
  destruct data as [|first rest]; [now split|].
  cbn [detectDataType].
  destruct (existsb isTimeKey (keys first)),
    (existsb isEntityKey (keys first)); now split.
Qed.

Lemma bundle_consistent (data : list row) :
  let p := {| rawData := data;
              variables := analyzeVariables H data;
              dataType := Detected.dataType (detectDataType data);
              confidence := Detected.confidence (detectDataType data) |} in
  (dataType p = None <-> rawData p = [])
  /\ map name (variables p)
     = match rawData p with [] => [] | first :: _ => keys first end
  /\ Forall (fun v => (count (stats v) + missing (stats v))%Z
                      = Z.of_nat (List.length (rawData p)))
            (variables p).
Proof.
  cbv zeta. cbn [rawData variables dataType].
  split; [apply detectDataType_none|]. split.
  - destruct data as [|first rest]; [reflexivity|].
    cbn [analyzeVariables]. rewrite map_map.
    rewrite (map_ext _ (fun c => c)) by reflexivity. apply map_id.
  - destruct data as [|first rest]; [constructor|].
    cbn [analyzeVariables]. apply Forall_forall. intros v Hv.
    apply in_map_iff in Hv. destruct Hv as [c [<- _]].
    apply analyzeColumn_count_missing.
Qed.

End ParseFileFacts.

(** [parseFile] reads the file as text exactly when its name ends with
    [.csv].  Its promise is rejected in two cases only: the read fails, or
    the name ends with [.xlsx] or [.xls] and the workbook reader throws,
    the message being that of the reader after a fixed prefix.  Whenever
    it resolves, the bundle is consistent: the variables are those of the
    returned rows, one per key of the first row, their [count] and
    [missing] add up to the number of rows, and the detected type is
    [null] exactly when there is no row.  A [.csv] file whose read
    completes always resolves, with the normalized rows of [parseCSV]. *)
Theorem parseFile_settlement (H : Host)
  (XLSX_first_sheet : string -> result (list row))
  (file : File.t) (event : ReaderEvent) :
  (fst (parseFile H XLSX_first_sheet file) = readAsText
   <-> endsWith (File.name file) ".csv" = true)
  /\ (forall message,
      snd (parseFile H XLSX_first_sheet file) event = reject message ->
      (event = onerror /\ message = "文件读取失败")
      \/ (exists content e,
            event = onload content
            /\ endsWith (File.name file) ".csv" = false
            /\ endsWith (File.name file) ".xlsx"
               || endsWith (File.name file) ".xls" = true
            /\ XLSX_first_sheet content = Throw e
            /\ message = ("文件解析失败：" ++ e)%string))
  /\ (forall p,
      snd (parseFile H XLSX_first_sheet file) event = resolve p ->
      variables p = analyzeVariables H (rawData p)
      /\ (dataType p = None <-> rawData p = [])
      /\ map name (variables p)
         = match rawData p with [] => [] | first :: _ => keys first end
      /\ Forall (fun v => (count (stats v) + missing (stats v))%Z
                          = Z.of_nat (List.length (rawData p)))
                (variables p))
  /\ (forall content,
      endsWith (File.name file) ".csv" = true ->
      exists p,
        snd (parseFile H XLSX_first_sheet file) (onload content) = resolve p
        /\ rawData p = map (normalizedRow H) (parseCSV content)).
Proof.
  unfold parseFile. cbn [fst snd]. split; [|split; [|split]].
  - destruct (endsWith (File.name file) ".csv"); split;
      intros; congruence.
  - intros message Hrej. destruct event as [content|].
    + right. unfold parseFile_onload, parseExcel in Hrej.
      destruct (endsWith (File.name file) ".csv"); [discriminate|].
      destruct (endsWith (File.name file) ".xlsx"
                || endsWith (File.name file) ".xls"); [|discriminate].
      destruct (XLSX_first_sheet content) as [data|e] eqn:Ex;
        [discriminate|].
      injection Hrej as <-. now exists content, e.
    + left. now injection Hrej as <-.
  - intros p Hres. destruct event as [content|]; [|discriminate].
    unfold parseFile_onload in Hres.
    assert (Hgen : forall data : list row,
      resolve {| rawData := preprocessData H data;
                 variables := analyzeVariables H (preprocessData H data);
                 dataType :=
                   Detected.dataType (detectDataType (preprocessData H data));
                 confidence :=
                   Detected.confidence
                     (detectDataType (preprocessData H data)) |}
      = resolve p ->
      variables p = analyzeVariables H (rawData p)
      /\ (dataType p = None <-> rawData p = [])
      /\ map name (variables p)
         = match rawData p with [] => [] | first :: _ => keys first end
      /\ Forall (fun v => (count (stats v) + missing (stats v))%Z
                          = Z.of_nat (List.length (rawData p)))
                (variables p)).
    { intros data [= <-]. split; [reflexivity|].
      apply (bundle_consistent H (preprocessData H data)). }
    destruct (endsWith (File.name file) ".csv"); [now apply Hgen in Hres|].
    destruct (endsWith (File.name file) ".xlsx"
              || endsWith (File.name file) ".xls");
      [|now apply Hgen in Hres].
    unfold parseExcel in Hres.
    destruct (XLSX_first_sheet content) as [data|e]; [|discriminate].
    now apply Hgen in Hres.
  - intros content Hcsv. unfold parseFile_onload. rewrite Hcsv.
    eexists. split; [reflexivity|]. cbn [rawData].
    apply preprocessData_map. apply parseCSV_rows_ok.
Qed.

Lemma parseFile_settlement_witness :
  exists p,
    snd (parseFile RefHost.host (fun _ => Throw "no workbook")
           {| File.name := "panel.csv"; File.type := "text/csv" |})
        (onload "firm_id,year,revenue\na,2020,1.5\nb,2021,")
    = resolve p
    /\ rawData p
       = [ [("firm_id", VStr "a"); ("year", VNum 2020); ("revenue", VNum 1.5)];
           [("firm_id", VStr "b"); ("year", VNum 2021); ("revenue", VNull)] ]
    /\ dataType p = Some panel.
Proof.
  destruct (parseFile_settlement RefHost.host (fun _ => Throw "no workbook")
              {| File.name := "panel.csv"; File.type := "text/csv" |}
              onerror) as (_ & _ & _ & Hcsv).
  destruct (Hcsv "firm_id,year,revenue\na,2020,1.5\nb,2021," eq_refl)
    as (p & Hrun & Hraw).
  exists p. split; [exact Hrun|]. split.
  - rewrite Hraw. vm_compute. reflexivity.
  - vm_compute in Hrun. injection Hrun as <-. reflexivity.
Defined.

(** ** The three stages in sequence *)

Section Stages.
Context (H : Host).

Lemma fillMissing_NoDup (key : string) (fill : value) (data : list ref) :
  forall h, NoDup data -> table_ok h data ->
  exists out n ext,
    fillMissing key fill data h = (Ok (out, n), h ++ ext)
    /\ NoDup out
    /\ (forall r, In r out -> In r data \/ List.length h <= r).
Proof.
  induction data as [|r rest IH]; intros h Hnd Hok.
  - exists [], 0%Z, []. rewrite app_nil_r.
    split; [reflexivity|]. split; [constructor | intros r []].
  - inversion Hok as [|r0 rest0 Hr Hrest]; subst.
    apply NoDup_cons_iff in Hnd. destruct Hnd as [Hnotin Hnd].
    cbn [fillMissing]. rewrite bind_run. cbn [read].
    destruct (is_null (get (deref h r) key)).
    + rewrite bind_run. cbn [alloc].
      set (o := set (deref h r) key fill : row).
      assert (Hok1 : table_ok (h ++ [o]) rest) by now apply table_ok_app.
      destruct (IH (h ++ [o]) Hnd Hok1) as (out & n & ext & Hrun & Hout & Hfrom).
      exists (List.length h :: out), (1 + n)%Z, ([o] ++ ext).
      rewrite bind_run, Hrun. cbn [ret fst snd]. rewrite app_assoc.
      split; [reflexivity|]. split.
      * constructor; [|exact Hout]. intros Hin.
        destruct (Hfrom _ Hin) as [Hd|Hge].
        -- unfold table_ok in Hrest. rewrite Forall_forall in Hrest.
           specialize (Hrest _ Hd). lia.
        -- rewrite length_app in Hge. cbn in Hge. lia.
      * intros r' [<-|Hin]; [right; lia|].
        destruct (Hfrom _ Hin) as [Hd|Hge]; [left; now right|].
        right. rewrite length_app in Hge. lia.
    + destruct (IH h Hnd Hrest) as (out & n & ext & Hrun & Hout & Hfrom).
      exists (r :: out), n, ext.
      rewrite bind_run, Hrun. cbn [ret fst snd].
      split; [reflexivity|]. split.
      * constructor; [|exact Hout]. intros Hin.
        destruct (Hfrom _ Hin) as [Hd|Hge]; [contradiction | lia].
      * intros r' [<-|Hin]; [left; now left|].
        destruct (Hfrom _ Hin) as [Hd|Hge]; [left; now right | now right].
Qed.

Lemma handleMissingValues_step_NoDup (config : MissingValue.t)
  (w : VariableInfo) (pd : list ref) (s : object Entry.t) (h : store) :
  NoDup pd -> table_ok h pd ->
  exists pd' s' ext,
    handleMissingValues_step H config (pd, s) w h = (Ok (pd', s'), h ++ ext)
    /\ NoDup pd' /\ table_ok (h ++ ext) pd'.
Proof.
  intros Hnd Hok.
  destruct (handleMissingValues_step_store H config w pd s h Hok)
    as (pd' & s' & ext & Hrun & Hok').
  exists pd', s', ext. split; [exact Hrun|]. split; [|exact Hok'].
  revert Hrun. unfold handleMissingValues_step.
  destruct (type w); try (now intros [= <- _ _]).
  rewrite bind_run. cbn [get_store].
  destruct (_ <? _)%float; [now intros [= <- _ _]|].
  destruct (MissingValue.method config); try (now intros [= <- _ _]).
  - destruct (fillMissing_NoDup (name w)
                (VNum (calculateMean H (nonNull (cells h pd (name w))))) pd h Hnd Hok)
      as (out & n & ext' & Hfill & Hout & _).
    rewrite bind_run, Hfill. cbn [ret fst snd]. now intros [= <- _ _].
  - destruct (fillMissing_NoDup (name w)
                (calculateMedian H (nonNull (cells h pd (name w)))) pd h Hnd Hok)
      as (out & n & ext' & Hfill & Hout & _).
    rewrite bind_run, Hfill. cbn [ret fst snd]. now intros [= <- _ _].
  - intros [= <- _ _]. now apply NoDup_filter.
Qed.

Lemma handleMissingValues_NoDup (config : MissingValue.t)
  (variables : list VariableInfo) (data : list ref) (h : store) :
  NoDup data -> table_ok h data ->
  exists out summary ext,
    handleMissingValues H data variables config h
    = (Ok (out, summary), h ++ ext)
    /\ NoDup out /\ table_ok (h ++ ext) out.
Proof.
  unfold handleMissingValues. cbv zeta.
  generalize (@nil (string * Entry.t) : object Entry.t) as s.
  revert data h. induction variables as [|w ws IH]; intros pd h s Hnd Hok.
  - exists pd, s, []. rewrite app_nil_r. now repeat split.
  - destruct (handleMissingValues_step_NoDup config w pd s h Hnd Hok)
      as (pd1 & s1 & ext1 & Hrun1 & Hnd1 & Hok1).
    destruct (IH pd1 (h ++ ext1) s1 Hnd1 Hok1)
      as (pd2 & s2 & ext2 & Hrun2 & Hnd2 & Hok2).
    exists pd2, s2, (ext1 ++ ext2).
    cbn [foldM]. rewrite bind_run, Hrun1, Hrun2, app_assoc. now repeat split.
Qed.

Lemma map_indexed (G g : ref -> value) (F : nat -> value -> value)
  (data : list ref) :
  forall k,
  (forall i r, nth_error data i = Some r -> G r = F (k + i)%nat (g r)) ->
  map G data
  = map (fun ic => F (fst ic) (snd ic))
        (combine (seq k (List.length (map g data))) (map g data)).
Proof.
  induction data as [|r data IH]; intros k Hp; [reflexivity|].
  cbn [map List.length seq combine fst snd]. f_equal.
  - rewrite (Hp 0%nat r eq_refl). now rewrite Nat.add_0_r.
  - apply IH. intros i r' Hi. rewrite (Hp (S i) r' Hi). f_equal. lia.
Qed.

Lemma handleOutliers_stage (h : store) (data : list ref)
  (variables : list VariableInfo) (config : Outlier.t) (v : VariableInfo) :
  NoDup (map name variables) ->
  In v variables ->
  type v = numeric ->
  NoDup data ->
  table_ok h data ->
  nonNull (cells h data (name v)) = cells h data (name v) ->
  exists summary h',
    handleOutliers H data variables config h = (Ok (data, summary), h')
    /\ List.length h' = List.length h
    /\ lookup summary (name v)
       = Some {| Entry.method := OutlierMethod_str (Outlier.method config);
                 Entry.count :=
                   Z.of_nat (List.length
                               (flagged H config (cells h data (name v)))) |}
    /\ cells h' data (name v) = clampColumn H config (cells h data (name v)).
Proof.
  intros Hnames Hin Hnum Hnd Hok Hfull.
  destruct (in_split _ _ Hin) as (ws1 & ws2 & ->).
  rewrite map_app in Hnames. cbn [map] in Hnames.
  assert (Hnot1 : ~ In (name v) (map name ws1)).
  { intros Hi. apply (NoDup_remove_2 _ _ _ Hnames). apply in_or_app. now left. }
  assert (Hnot2 : ~ In (name v) (map name ws2)).
  { intros Hi. apply (NoDup_remove_2 _ _ _ Hnames). apply in_or_app. now right. }
  destruct (handleOutliers_fold_frame H data config ws1 [] h)
    as (s1 & h1 & Hrun1 & Hlen1 & Hkeys1 & _).
  assert (Hcells1 : cells h1 data (name v) = cells h data (name v)).
  { unfold cells. apply map_ext. intros r. now apply Hkeys1. }
  assert (Hok1 : table_ok h1 data).
  { unfold table_ok. now rewrite Hlen1. }
  destruct (handleOutliers_step_column H data config s1 v h1 Hnum Hnd Hok1)
    as (s2 & h2 & Hrun2 & Hsum2 & Hcol2).
  { now rewrite Hcells1. }
  destruct (handleOutliers_step_frame H data config s1 v h1)
    as (s2' & h2' & Hrun2' & Hlen2 & Hkeys2 & _).
  rewrite Hrun2 in Hrun2'. injection Hrun2' as <- <-.
  destruct (handleOutliers_fold_frame H data config ws2 s2 h2)
    as (s3 & h3 & Hrun3 & Hlen3 & Hkeys3 & Hsum3).
  exists s3, h3.
  unfold handleOutliers. cbv zeta.
  rewrite bind_run, foldM_app, bind_run, Hrun1.
  cbn [foldM]. rewrite bind_run, Hrun2, Hrun3. cbn [ret].
  split; [reflexivity|]. split; [congruence|].
  split; [rewrite Hsum3 by assumption; now rewrite Hsum2, Hcells1|].
  unfold clampColumn, cells at 1 3 4.
  apply (map_indexed _ (fun r => get (deref h r) (name v))
           (fun i c => if existsb (Nat.eqb i)
                            (flagged H config (cells h data (name v)))
                       then clamped H config (cells h data (name v)) c
                       else c) data 0%nat).
  intros i r Hi. cbn [Nat.add].
  rewrite Hkeys3 by assumption. rewrite (Hcol2 i r Hi), Hcells1.
  rewrite (Hkeys1 r (name v) Hnot1).
  assert (Hnth : nth i (cells h data (name v)) VUndefined
                 = get (deref h r) (name v)).
  { apply nth_error_nth. unfold cells. now rewrite nth_error_map, Hi. }
  now rewrite Hnth.
Qed.

Lemma clampColumn_none (config : Outlier.t) (values : list value) :
  Outlier.method config = out_none -> clampColumn H config values = values.
Proof.
  intros Hm. unfold clampColumn, flagged. rewrite Hm. cbn [existsb].
  generalize 0%nat. induction values as [|c values IH]; intros k;
    [reflexivity|].
  cbn [List.length seq combine map snd]. now rewrite IH.
Qed.

End Stages.

(** For a numeric column that the missing-value stage imputes (method
    ['mean'] or ['median'], ratio of null cells not above the threshold),
    in a table whose rows are distinct objects and whose variables have
    distinct names, [preprocessDataAdvanced] returns as many rows as it
    received and the column it returns is the composition of the three
    stages: the null cells are imputed, then the cells flagged by the
    outlier detector on the imputed column are clamped, then the result is
    standardized with the statistics of the clamped column.  The three
    summaries record the imputation with the number of imputed cells, the
    outlier method with the number of flagged cells, and the
    standardization parameters; a stage whose method is ['none'] records
    nothing. *)
Theorem preprocessDataAdvanced_column (H : Host) (h : store)
  (data : list ref) (variables : list VariableInfo)
  (config : PreprocessConfig) (v : VariableInfo) :
  MissingValue.method (missingValue config) = mv_mean
  \/ MissingValue.method (missingValue config) = mv_median ->
  NoDup (map name variables) ->
  In v variables ->
  type v = numeric ->
  NoDup data ->
  table_ok h data ->
  (threshold_or_default (missingValue config)
   <? num_of_nat (List.length (filter is_null (cells h data (name v))))
      / num_of_nat (List.length data))%float = false ->
  exists out summary h',
    preprocessDataAdvanced H data variables config h
    = (Ok (out, summary), h')
    /\ List.length out = List.length data
    /\ cells h' out (name v)
       = standardized H (standardization config)
           (clampColumn H (outlier config)
              (imputed H (missingValue config) (cells h data (name v))))
    /\ lookup (missingValues summary) (name v)
       = Some {| Entry.method := fill_name (missingValue config);
                 Entry.count :=
                   Z.of_nat (List.length
                               (filter is_null (cells h data (name v)))) |}
    /\ lookup (outliers summary) (name v)
       = outlierEntry H (outlier config)
           (imputed H (missingValue config) (cells h data (name v)))
    /\ lookup (standardizationSummary summary) (name v)
       = standardEntry H (standardization config)
           (clampColumn H (outlier config)
              (imputed H (missingValue config) (cells h data (name v)))).
Proof.
  intros Hfill Hnames Hin Hnum Hnd Hok Hkeep.
  unfold preprocessDataAdvanced. cbv zeta.
  (* the missing-value stage *)
  destruct (handleMissingValues_fill_loop H h data variables
              (missingValue config) v Hfill Hnames Hin Hnum Hok)
    as (out & s1 & h1 & Hrun1 & Hlen1 & _ & Hcol1).
  rewrite Hkeep in Hcol1. destruct Hcol1 as (Hsum1 & Hcol1).
  assert (Hfull1 : nonNull (cells h1 out (name v)) = cells h1 out (name v)).
  { rewrite Hcol1. apply nonNull_impute, fill_value_not_null. }
  change (handleMissingValues H data variables (missingValue config) h
          = (Ok (out, s1), h1)) in Hrun1.
  destruct (handleMissingValues_NoDup H (missingValue config) variables
              data h Hnd Hok) as (out' & s1' & ext & Hrun1' & Hnd1 & Hok1).
  rewrite Hrun1 in Hrun1'. injection Hrun1' as <- <- Hh1.
  rewrite <- Hh1 in Hok1. clear Hh1 ext.
  assert (Hcall1 :
    match MissingValue.method (missingValue config) with
    | mv_none => ret (data, [])
    | _ => handleMissingValues H data variables (missingValue config)
    end h = (Ok (out, s1), h1)).
  { now destruct Hfill as [-> | ->]. }
  rewrite bind_run, Hcall1. cbn [fst snd].
  fold (imputed H (missingValue config) (cells h data (name v))) in Hcol1.
  (* the outlier stage *)
  assert (H2 : exists s2 h2,
    match Outlier.method (outlier config) with
    | out_none => ret (out, [])
    | _ => handleOutliers H out variables (outlier config)
    end h1 = (Ok (out, s2), h2)
    /\ List.length h2 = List.length h1
    /\ lookup s2 (name v)
       = outlierEntry H (outlier config) (cells h1 out (name v))
    /\ cells h2 out (name v)
       = clampColumn H (outlier config) (cells h1 out (name v))).
  { destruct (handleOutliers_stage H h1 out variables (outlier config) v
                Hnames Hin Hnum Hnd1 Hok1 Hfull1)
      as (s2 & h2 & Hrun2 & Hlen2 & Hsum2 & Hcol2).
    unfold outlierEntry.
    destruct (Outlier.method (outlier config)) eqn:Em.
    - exists s2, h2. now repeat split.
    - exists s2, h2. now repeat split.
    - exists [], h1. split; [reflexivity|]. split; [reflexivity|].
      split; [reflexivity|]. symmetry. now apply clampColumn_none. }
  destruct H2 as (s2 & h2 & Hrun2 & Hlen2 & Hsum2 & Hcol2).
  rewrite bind_run, Hrun2. cbn [fst snd].
  assert (Hok2 : table_ok h2 out).
  { unfold table_ok in *. now rewrite Hlen2. }
  (* the standardization stage *)
  assert (H3 : exists s3 h3,
    match Standardization.method (standardization config) with
    | std_none => ret (out, [])
    | _ => standardizeData H out variables (standardization config)
    end h2 = (Ok (out, s3), h3)
    /\ lookup s3 (name v)
       = standardEntry H (standardization config) (cells h2 out (name v))
    /\ cells h3 out (name v)
       = standardized H (standardization config) (cells h2 out (name v))).
  { destruct (standardizeData_loop H h2 out variables
                (standardization config) v Hnames Hin Hnum Hnd1 Hok2)
      as (s3 & h3 & Hloop3 & _ & Hsum3 & Hcol3 & _).
    assert (Hrun3 : standardizeData H out variables (standardization config)
                      h2 = (Ok (out, s3), h3)).
    { unfold standardizeData. cbv zeta. now rewrite bind_run, Hloop3. }
    clear Hloop3. unfold standardEntry, standardized in *.
    destruct (Standardization.method (standardization config)) eqn:Em.
    - exists s3, h3. now repeat split.
    - exists s3, h3. now repeat split.
    - exists [], h2. now repeat split. }
  destruct H3 as (s3 & h3 & Hrun3 & Hsum3 & Hcol3).
  rewrite bind_run, Hrun3. cbn [ret fst snd].
  eexists out, _, h3. split; [reflexivity|].
  cbn [missingValues outliers standardizationSummary].
  rewrite Hcol1 in Hsum2, Hcol2. rewrite Hcol2 in Hsum3, Hcol3.
  now repeat split.
Qed.

Lemma preprocessDataAdvanced_column_witness :
  exists out summary h',
    preprocessDataAdvanced RefHost.host [0; 1; 2; 3; 4; 5]%nat
      [numeric_variable "price"] full_pipeline gapped_prices
    = (Ok (out, summary), h')
    /\ lookup (missingValues summary) "price"
       = Some {| Entry.method := "mean"; Entry.count := 1 |}
    /\ lookup (outliers summary) "price"
       = Some {| Entry.method := "iqr"; Entry.count := 1 |}
    /\ nth 2 (imputed RefHost.host (missingValue full_pipeline)
                (cells gapped_prices [0; 1; 2; 3; 4; 5]%nat "price")) VNull
       = VNum 22.
Proof.
  destruct (preprocessDataAdvanced_column RefHost.host gapped_prices
              [0; 1; 2; 3; 4; 5]%nat [numeric_variable "price"]
              full_pipeline (numeric_variable "price"))
    as (out & summary & h' & Hrun & _ & _ & Hs1 & Hs2 & _).
  - now left.
  - repeat constructor; simpl; intuition discriminate.
  - simpl. auto.
  - reflexivity.
  - repeat constructor; simpl; intuition discriminate.
  - repeat constructor.
  - reflexivity.
  - change (name (numeric_variable "price")) with "price" in Hs1, Hs2.
    exists out, summary, h'. split; [exact Hrun|].
    split; [exact Hs1|]. split; [|reflexivity].
    rewrite Hs2. reflexivity.
Defined.

(** ** The editor *)

Module EditorFacts.
Import Editor.

Lemma field_key_inj (f g : Field) : field_key f = field_key g -> f = g.
Proof. destruct f, g; now intros [=]. Qed.

(** [handleChange] always leaves the default threshold of the section it
    changes (0.5 for missing values, 3 for outliers, and a [threshold] of
    0 added to the standardization section), whatever the section held and
    whatever is written, a threshold included; the sub-field written holds
    the value, the other properties of the section and the other sections
    are kept. *)
Theorem handleChange_resets_threshold (config : object row) (field : Field)
  (subField : string) (value : value) :
  get (section (handleChange config field subField value) field) "threshold"
  = VNum (defaultThreshold field)
  /\ (subField <> "threshold" ->
      get (section (handleChange config field subField value) field) subField
      = value)
  /\ (forall key, key <> subField -> key <> "threshold" ->
      get (section (handleChange config field subField value) field) key
      = get (section config field) key)
  /\ (forall other, other <> field ->
      section (handleChange config field subField value) other
      = section config other).
Proof.
  assert (Hsec : section (handleChange config field subField value) field
                 = set (set (section config field) subField value)
                       "threshold" (VNum (defaultThreshold field))).
  { unfold handleChange, section at 1. now rewrite lookup_set_same. }
  rewrite Hsec. split; [apply get_set_same|]. split; [|split].
  - intros Hne. rewrite get_set_other by congruence. apply get_set_same.
  - intros key Hk Ht. now rewrite !get_set_other by congruence.
  - intros other Hne. unfold handleChange, section.
    rewrite lookup_set_other; [reflexivity|].
    intros Heq. apply Hne. symmetry. now apply field_key_inj.
Qed.

(** *** Selecting variables *)

Lemma named_with_role (varName role : string) (variable : VariableInfo) :
  named varName (with_role variable role) = named varName variable.
Proof. reflexivity. Qed.

Lemma find_named (varName : string) (vs : list VariableInfo)
  (v : VariableInfo) :
  find (named varName) vs = Some v -> name v = varName.
Proof.
  intros Hf. apply find_some in Hf. destruct Hf as [_ Hn].
  now apply String.eqb_eq in Hn.
Qed.

Lemma findIndex_none (varName : string) (vs : list VariableInfo) :
  findIndex (named varName) vs = None ->
  existsb (named varName) vs = false.
Proof.
  induction vs as [|x vs IH]; [reflexivity|]. cbn [findIndex existsb].
  destruct (named varName x); [discriminate|].
  destruct (findIndex (named varName) vs); [discriminate|]. exact IH.
Qed.

Lemma findIndex_some (varName : string) (vs : list VariableInfo) (i : nat) :
  findIndex (named varName) vs = Some i ->
  exists pre x post,
    vs = pre ++ x :: post /\ List.length pre = i
    /\ named varName x = true /\ existsb (named varName) pre = false.
Proof.
  revert i. induction vs as [|y vs IH]; intros i; [discriminate|].
  cbn [findIndex]. destruct (named varName y) eqn:Ey.
  - intros [= <-]. now exists [], y, vs.
  - destruct (findIndex (named varName) vs) as [k|]; [|discriminate].
    intros [= <-]. destruct (IH k eq_refl) as (pre & x & post & -> & <- & Hx & Hp).
    exists (y :: pre), x, post. cbn [existsb]. rewrite Ey. now repeat split.
Qed.

Lemma assign_middle {A} (pre post : list A) (x y : A) :
  assign (pre ++ x :: post) (List.length pre) y = pre ++ y :: post.
Proof. induction pre as [|z pre IH]; [reflexivity|]. cbn. now rewrite IH. Qed.

Lemma find_app_none (p : VariableInfo -> bool) (pre post : list VariableInfo) :
  existsb p pre = false -> find p (pre ++ post) = find p post.
Proof.
  induction pre as [|z pre IH]; [reflexivity|]. cbn [existsb app find].
  destruct (p z); [discriminate|]. exact IH.
Qed.

Lemma named_other (a b : string) (v : VariableInfo) :
  a <> b -> named a v = true -> named b v = false.
Proof.
  unfold named. intros Hne Ha. apply String.eqb_eq in Ha.
  apply String.eqb_neq. congruence.
Qed.

Lemma find_replace_other (p : VariableInfo -> bool)
  (pre post : list VariableInfo) (x y : VariableInfo) :
  p x = false -> p y = false ->
  find p (pre ++ y :: post) = find p (pre ++ x :: post).
Proof.
  intros Hx Hy. induction pre as [|z pre IH]; cbn [app find].
  - now rewrite Hx, Hy.
  - now destruct (p z).
Qed.

Lemma find_app_last (p : VariableInfo -> bool) (l : list VariableInfo)
  (w : VariableInfo) :
  p w = false -> find p (l ++ [w]) = find p l.
Proof.
  intros Hw. induction l as [|z l IH]; cbn [app find]; [now rewrite Hw|].
  now destruct (p z).
Qed.

Lemma not_named_in (varName : string) (vs : list VariableInfo) :
  existsb (named varName) vs = false -> ~ In varName (map name vs).
Proof.
  intros He Hin. apply in_map_iff in Hin. destruct Hin as [v [Hn Hv]].
  assert (Ht : existsb (named varName) vs = true).
  { apply existsb_exists. exists v. split; [exact Hv|].
    now apply String.eqb_eq. }
  congruence.
Qed.

(** What one call of [handleVariableChange] passes on, for a name found in
    [variables]. *)
Lemma handleVariableChange_call (variables selectedVars : list VariableInfo)
  (varName role : string) (variable : VariableInfo) :
  find (named varName) variables = Some variable ->
  exists new,
    handleVariableChange variables selectedVars varName role = [new]
    /\ find (named varName) new = Some (with_role variable role)
    /\ (forall other, other <> varName ->
        find (named other) new = find (named other) selectedVars)
    /\ map name new
       = (if existsb (named varName) selectedVars
          then map name selectedVars
          else map name selectedVars ++ [varName])
    /\ filter (fun v => negb (named varName v)) new
       = filter (fun v => negb (named varName v)) selectedVars.
Proof.
  intros Hfind. pose proof (find_named _ _ _ Hfind) as Hname.
  assert (Hnew : named varName (with_role variable role) = true).
  { unfold named. cbn. now apply String.eqb_eq. }
  unfold handleVariableChange. rewrite Hfind. cbv zeta.
  destruct (findIndex (named varName) selectedVars) as [i|] eqn:Ei.
  - destruct (findIndex_some _ _ _ Ei) as (pre & x & post & -> & <- & Hx & Hp).
    eexists. split; [reflexivity|]. rewrite assign_middle.
    split; [|split; [|split]].
    + rewrite find_app_none by assumption. cbn [find]. now rewrite Hnew.
    + intros other Hne. apply find_replace_other.
      * now apply (named_other varName).
      * now apply (named_other varName).
    + assert (Hex : existsb (named varName) (pre ++ x :: post) = true).
      { rewrite existsb_app. cbn [existsb]. rewrite Hx.
        now rewrite orb_true_r. }
      rewrite Hex, !map_app. cbn [map name with_role]. f_equal. f_equal.
      apply String.eqb_eq in Hx. congruence.
    + rewrite !filter_app. cbn [filter]. now rewrite Hnew, Hx.
  - pose proof (findIndex_none _ _ Ei) as Hno.
    eexists. split; [reflexivity|]. split; [|split; [|split]].
    + rewrite find_app_none by assumption. cbn [find]. now rewrite Hnew.
    + intros other Hne. apply find_app_last.
      now apply (named_other varName).
    + rewrite Hno, map_app. cbn [map name with_role]. now rewrite Hname.
    + rewrite filter_app. cbn [filter]. rewrite Hnew. cbn [negb].
      apply app_nil_r.
Qed.

(** [handleVariableChange] makes no call for a name that is not a variable
    of the data set.  Otherwise it passes on one selection, in which the
    variable of that name is the one of the data set with the given role:
    it takes the place of the entry selected under that name, or comes
    last when there was none; the other entries keep their place and
    their role, distinct names stay distinct, and removing the name again
    gives what removing it from the former selection gives. *)
Theorem handleVariableChange_selects
  (variables selectedVars : list VariableInfo) (varName role : string) :
  (find (named varName) variables = None ->
   handleVariableChange variables selectedVars varName role = [])
  /\ (forall variable,
      find (named varName) variables = Some variable ->
      exists new,
        handleVariableChange variables selectedVars varName role = [new]
        /\ find (named varName) new = Some (with_role variable role)
        /\ (forall other, other <> varName ->
            find (named other) new = find (named other) selectedVars)
        /\ map name new
           = (if existsb (named varName) selectedVars
              then map name selectedVars
              else map name selectedVars ++ [varName])
        /\ (NoDup (map name selectedVars) -> NoDup (map name new))
        /\ handleRemoveVariable new varName
           = handleRemoveVariable selectedVars varName).
Proof.
  split.
  - intros Hnone. unfold handleVariableChange. now rewrite Hnone.
  - intros variable Hfind.
    destruct (handleVariableChange_call variables selectedVars varName role
                variable Hfind) as (new & Hrun & Hself & Hother & Hnames & Hrm).
    exists new. split; [exact Hrun|]. split; [exact Hself|].
    split; [exact Hother|]. split; [exact Hnames|]. split.
    + intros Hnd. rewrite Hnames.
      destruct (existsb (named varName) selectedVars) eqn:Hex; [exact Hnd|].
      apply NoDup_app; [exact Hnd | repeat constructor; intros [] |].
      intros x Hx [<-|[]]. now apply (not_named_in varName selectedVars).
    + unfold handleRemoveVariable. now rewrite Hrm.
Qed.

Lemma handleVariableChange_selects_witness :
  exists new,
    handleVariableChange
      [editor_variable "wage" None; editor_variable "age" None]
      [editor_variable "wage" (Some "dependent")] "wage" "control"
    = [new]
    /\ find (named "wage") new = Some (editor_variable "wage" (Some "control"))
    /\ map name new = ["wage"].
Proof.
  destruct (handleVariableChange_selects
              [editor_variable "wage" None; editor_variable "age" None]
              [editor_variable "wage" (Some "dependent")] "wage" "control")
    as [_ Hsome].
  destruct (Hsome (editor_variable "wage" None) eq_refl)
    as (new & Hrun & Hself & _ & Hnames & _).
  exists new. split; [exact Hrun|]. split; [exact Hself | exact Hnames].
Defined.

Lemma filter_idem (varName : string) (vs : list VariableInfo) :
  filter (fun v => negb (named varName v))
         (filter (fun v => negb (named varName v)) vs)
  = filter (fun v => negb (named varName v)) vs.
Proof.
  rewrite filter_filter. apply filter_ext. intros v.
  now destruct (named varName v).
Qed.

(** A multiple-choice selector changes one variable at most, however many
    names were added or cleared at once: each call of the two handlers
    starts from the selection of the current render and the state keeps
    the last one, so the selection after the event and the selection
    before it agree on every variable but one. *)
Theorem onChange_multiple_changes_one_variable
  (variables selectedVars : list VariableInfo) (role : string)
  (values : list string) :
  exists varName,
    handleRemoveVariable
      (settle selectedVars
         (onChange_multiple variables selectedVars role values)) varName
    = handleRemoveVariable selectedVars varName.
Proof.
  unfold settle, handleRemoveVariable.
  assert (Hcalls : forall call,
    In call (onChange_multiple variables selectedVars role values) ->
    exists varName,
      filter (fun v => negb (named varName v)) call
      = filter (fun v => negb (named varName v)) selectedVars).
  { intros call Hin. unfold onChange_multiple in Hin. cbv zeta in Hin.
    apply in_app_or in Hin. destruct Hin as [Hin|Hin];
      apply in_flat_map in Hin; destruct Hin as [x [_ Hin]].
    - destruct Hin as [<-|[]]. exists (name x). apply filter_idem.
    - exists x. unfold handleVariableChange in Hin.
      destruct (find (named x) variables) as [variable|] eqn:Hfind;
        [|destruct Hin].
      destruct (handleVariableChange_call variables selectedVars x role
                  variable Hfind) as (new & Hrun & _ & _ & _ & Hrm).
      unfold handleVariableChange in Hrun. rewrite Hfind in Hrun.
      rewrite Hrun in Hin. destruct Hin as [<-|[]]. exact Hrm. }
  destruct (onChange_multiple variables selectedVars role values)
    as [|c calls] eqn:Ecalls using rev_ind.
  - exists "". reflexivity.
  - rewrite last_last.
    destruct (Hcalls c) as [varName Hv]; [apply in_or_app; right; now left|].
    exists varName. now rewrite Hv.
Qed.

(** Clearing a selector that holds two control variables removes one of
    them only. *)
Lemma onChange_multiple_clear_example :
  settle [editor_variable "age" (Some "control");
          editor_variable "wage" (Some "control")]
    (onChange_multiple
       [editor_variable "age" None; editor_variable "wage" None]
       [editor_variable "age" (Some "control");
        editor_variable "wage" (Some "control")] "control" [])
  = [editor_variable "age" (Some "control")].
Proof. reflexivity. Qed.

(** Choosing a variable in a single-choice selector (time, id, dependent)
    does not release the variable that held the role: every variable
    selected before under another name is still selected, with the role it
    had. *)
Theorem onChange_single_keeps_previous
  (variables selectedVars : list VariableInfo) (role value : string)
  (variable v : VariableInfo) :
  value <> "" ->
  find (named value) variables = Some variable ->
  In v selectedVars ->
  name v <> value ->
  In v (settle selectedVars
          (onChange_single variables selectedVars role (Some value)))
  /\ In (with_role variable role)
        (settle selectedVars
           (onChange_single variables selectedVars role (Some value))).
Proof.
  intros Hne Hfind Hin Hname. unfold onChange_single.
  destruct value as [|c s]; [congruence|].
  destruct (handleVariableChange_call variables selectedVars (String c s)
              role variable Hfind) as (new & Hrun & Hself & _ & _ & Hrm).
  rewrite Hrun. cbn [settle last]. split.
  - assert (Hf : In v (filter (fun v => negb (named (String c s) v)) new)).
    { rewrite Hrm. apply filter_In. split; [exact Hin|].
      unfold named. apply negb_true_iff. now apply String.eqb_neq. }
    now apply filter_In in Hf.
  - apply find_some in Hself. tauto.
Qed.

Lemma onChange_single_witness :
  In (editor_variable "year" (Some "time"))
     (settle [editor_variable "year" (Some "time")]
        (onChange_single
           [editor_variable "year" None; editor_variable "quarter" None]
           [editor_variable "year" (Some "time")] "time" (Some "quarter")))
  /\ In (editor_variable "quarter" (Some "time"))
        (settle [editor_variable "year" (Some "time")]
           (onChange_single
              [editor_variable "year" None; editor_variable "quarter" None]
              [editor_variable "year" (Some "time")] "time" (Some "quarter"))).
Proof.
  apply (onChange_single_keeps_previous
           [editor_variable "year" None; editor_variable "quarter" None]
           [editor_variable "year" (Some "time")] "time" "quarter"
           (editor_variable "quarter" None)
           (editor_variable "year" (Some "time"))).
  - discriminate.
  - reflexivity.
  - now left.
  - discriminate.
Defined.

(** *** Uploading a file *)

Lemma handleFileUpload_catch_shape (response : option ErrorResponse.t) :
  exists m, handleFileUpload_catch response
            = [message_error m; setCurrentFile None].
Proof. unfold handleFileUpload_catch. now eexists. Qed.

Lemma handleFileUpload_data_shape (data : Uploaded.data) :
  (forall b, ~ In (setUploading b) (fst (handleFileUpload_data data)))
  /\ (forall u g, ~ In (post u g) (fst (handleFileUpload_data data)))
  /\ snd (handleFileUpload_data data) = complete data.
Proof.
  unfold handleFileUpload_data, complete, handleFileUpload_catch.
  destruct (Uploaded.detectedDataType data) as [detected|],
    (Uploaded.processedData data) as [processed|];
    try destruct (Uploaded.variables processed) as [variables|];
    cbn; repeat split; intros; intuition discriminate.
Qed.

(** [handleFileUpload] sends no request and touches no state unless the
    file is present and its MIME type is one of the three allowed: it then
    shows one error message and returns [false].  For an accepted file it
    sends exactly one request, to the upload end point of the section; the
    [uploading] flag is set first and cleared last, whatever the answer;
    and it returns [true] exactly when the request succeeds with an answer
    that holds the detected data type and the list of variables. *)
Theorem handleFileUpload_outcome (writingId sectionId : string)
  (file : option DataProcessing.File.t) (answer : PostOutcome) :
  if accepted file
  then exists f body,
         file = Some f
         /\ fst (handleFileUpload writingId sectionId file answer)
            = [setUploading true; setCurrentFile (Some f);
               post (upload_url writingId sectionId) f]
              ++ body ++ [setUploading false]
         /\ (forall b, ~ In (setUploading b) body)
         /\ (forall u g, ~ In (post u g) body)
         /\ (snd (handleFileUpload writingId sectionId file answer) = true
             <-> exists data,
                   answer = fulfilled (Some data) /\ complete data = true)
  else exists m,
         handleFileUpload writingId sectionId file answer
         = ([message_error m], false).
Proof.
  unfold accepted, handleFileUpload.
  destruct file as [f|]; [|now eexists].
  destruct (existsb _ allowedTypes); cbn [negb]; [|now eexists].
  cbv zeta. fold (upload_url writingId sectionId).
  destruct answer as [[data|]|response].
  - destruct (handleFileUpload_data_shape data) as (Hup & Hpost & Hret).
    destruct (handleFileUpload_data data) as [body returned].
    cbn [fst snd] in *. exists f, body.
    split; [reflexivity|]. split; [reflexivity|].
    split; [exact Hup|]. split; [exact Hpost|]. split.
    + intros ->. exists data. now split.
    + intros (data' & [= <-] & Hc). congruence.
  - exists f, []. split; [reflexivity|]. split; [reflexivity|].
    split; [intros b []|]. split; [intros u g []|]. split.
    + discriminate.
    + intros (data & [=] & _).
  - destruct (handleFileUpload_catch_shape response) as [m Hm].
    exists f, (handleFileUpload_catch response).
    split; [reflexivity|]. split; [reflexivity|]. rewrite Hm.
    split; [intros b [|[|[]]]; discriminate|].
    split; [intros u g [|[|[]]]; discriminate|]. split.
    + discriminate.
    + intros (data & [=] & _).
Qed.

Lemma recommend_without_instrument (detected : DataTypeInfo.t)
  (variables : list Uploaded.variable) :
  MethodRecommendation.recommendMethodsByDataStructure
    (dataInfo detected variables)
  = recommended_for (DataTypeInfo.type detected).
Proof.
  unfold MethodRecommendation.recommendMethodsByDataStructure,
    recommended_for, dataInfo.
  cbn [MethodRecommendation.dataType MethodRecommendation.hasInstrumental].
  destruct (String.eqb_spec (DataTypeInfo.type detected) "panel") as [->|_];
    [reflexivity|].
  destruct (String.eqb_spec (DataTypeInfo.type detected) "cross_section")
    as [->|_]; [reflexivity|].
  now destruct (String.eqb (DataTypeInfo.type detected) "time_series").
Qed.

(** The recommendations that [handleFileUpload] stores are those of the
    detected data type alone, without instrumental variable: two-stage
    least squares is never among them, and a type named in the editor's
    own vocabulary (['cross'], ['time']) gets none, since the recommender
    knows ['cross_section'] and ['time_series']. *)
Theorem handleFileUpload_recommendations (writingId sectionId : string)
  (file : option DataProcessing.File.t) (answer : PostOutcome)
  (recommendations : list MethodRecommendation.MethodRecommendation) :
  In (setMethodRecommendations recommendations)
     (fst (handleFileUpload writingId sectionId file answer)) ->
  exists data detected,
    answer = fulfilled (Some data)
    /\ Uploaded.detectedDataType data = Some detected
    /\ recommendations = recommended_for (DataTypeInfo.type detected)
    /\ ~ In MethodRecommendation.twoSLS recommendations
    /\ (DataTypeInfo.type detected = "cross"
        \/ DataTypeInfo.type detected = "time" ->
        recommendations = []).
Proof.
  unfold handleFileUpload.
  destruct file as [f|]; [|intros [|[]]; discriminate].
  destruct (existsb _ allowedTypes); cbn [negb];
    [|intros [|[]]; discriminate].
  cbv zeta.
  destruct answer as [[data|]|response].
  - unfold handleFileUpload_data, handleFileUpload_catch.
    destruct (Uploaded.detectedDataType data) as [detected|] eqn:Edet;
      [destruct (Uploaded.processedData data) as [processed|];
       [destruct (Uploaded.variables processed) as [variables|]|]|];
      cbn [fst app In]; intros Hin;
      repeat (destruct Hin as [Hin|Hin]; [discriminate Hin|]);
      try (now destruct Hin).
    destruct Hin as [Hin|[Hin|[]]]; [|discriminate Hin].
    injection Hin as <-. exists data, detected.
    split; [reflexivity|]. split; [exact Edet|].
    rewrite (recommend_without_instrument detected variables).
    split; [reflexivity|]. unfold recommended_for. split.
    + destruct (String.eqb _ "panel");
        [intros [E|[E|[]]]; discriminate E|].
      destruct (String.eqb _ "cross_section");
        [intros [E|[]]; discriminate E|].
      destruct (String.eqb _ "time_series");
        [intros [E|[]]; discriminate E | intros []].
    + intros [-> | ->]; reflexivity.
  - cbn [fst app In]. intros Hin.
    repeat (destruct Hin as [Hin|Hin]; [discriminate Hin|]). destruct Hin.
  - destruct (handleFileUpload_catch_shape response) as [m ->].
    cbn [fst app In]. intros Hin.
    repeat (destruct Hin as [Hin|Hin]; [discriminate Hin|]). destruct Hin.
Qed.

Lemma handleFileUpload_recommendations_witness :
  In (setMethodRecommendations [])
     (fst (handleFileUpload "w1" "s2" (Some spreadsheet)
             (fulfilled (Some cross_answer))))
  /\ exists data detected,
       fulfilled (Some cross_answer) = fulfilled (Some data)
       /\ Uploaded.detectedDataType data = Some detected
       /\ [] = recommended_for (DataTypeInfo.type detected).
Proof.
  assert (Hin : In (setMethodRecommendations [])
                   (fst (handleFileUpload "w1" "s2" (Some spreadsheet)
                           (fulfilled (Some cross_answer))))).
  { vm_compute. tauto. }
  split; [exact Hin|].
  destruct (handleFileUpload_recommendations "w1" "s2" (Some spreadsheet)
              (fulfilled (Some cross_answer)) [] Hin)
    as (data & detected & Hans & Hdet & Hrec & _).
  now exists data, detected.
Defined.

(** When the request succeeds with an answer that lacks the detected data
    type or the list of variables, [handleFileUpload] has already stored
    the processed data and shown the success message when it fails: the
    success message is followed by the error message, the current file is
    dropped, and the result is [false]. *)
Theorem handleFileUpload_incomplete_answer (writingId sectionId : string)
  (file : option DataProcessing.File.t) (data : Uploaded.data) :
  accepted file = true ->
  complete data = false ->
  exists before,
    handleFileUpload writingId sectionId file (fulfilled (Some data))
    = (before
       ++ [message_success "文件上传成功"; message_error "文件上传失败";
           setCurrentFile None; setUploading false],
       false)
    /\ In (setProcessedData (Uploaded.processedData data)) before.
Proof.
  unfold accepted, complete, handleFileUpload.
  destruct file as [f|]; [|discriminate]. intros -> Hc. cbn [negb]. cbv zeta.
  unfold handleFileUpload_data, handleFileUpload_catch.
  destruct (Uploaded.detectedDataType data) as [detected|].
  - destruct (Uploaded.processedData data) as [processed|];
      [destruct (Uploaded.variables processed); [discriminate|]|];
      (eexists ([_; _; _; _; _; _; _]);
       split; [reflexivity | cbn; tauto]).
  - destruct (Uploaded.processedData data) as [processed|];
      [destruct (Uploaded.variables processed)|];
      (eexists ([_; _; _; _; _]);
       split; [reflexivity | cbn; tauto]).
Qed.

Lemma handleFileUpload_incomplete_witness :
  exists before,
    handleFileUpload "w1" "s2" (Some spreadsheet)
      (fulfilled (Some untyped_answer))
    = (before
       ++ [message_success "文件上传成功"; message_error "文件上传失败";
           setCurrentFile None; setUploading false],
       false).
Proof.
  destruct (handleFileUpload_incomplete_answer "w1" "s2" (Some spreadsheet)
              untyped_answer eq_refl eq_refl) as (before & Hrun & _).
  now exists before.
Defined.

(** *** Starting the empirical analysis *)

(** [triggerEmpiricalAnalysis] sends no request unless processed data, a
    selected method and at least one selected variable are present.  The
    request that marks the section as completed is sent only after the
    request that starts the analysis has succeeded, and carries the same
    content; the success message is shown exactly when both requests
    succeed, [onNext] is called only after it, and an error message is
    shown exactly when the configuration is incomplete, a request fails or
    [onNext] throws. *)
Theorem triggerEmpiricalAnalysis_outcome (writingId sectionId : string)
  (processedData : option Uploaded.processed)
  (selectedMethod : option MethodRecommendation.MethodRecommendation)
  (selectedVariables : list VariableInfo) (dataType : string)
  (preprocessConfig : object row)
  (currentFile : option DataProcessing.File.t)
  (onNext : option bool) (postSucceeds putSucceeds : bool) :
  (forall url w s body,
     In (Empirical.post url w s body)
        (triggerEmpiricalAnalysis writingId sectionId processedData
           selectedMethod selectedVariables dataType preprocessConfig
           currentFile onNext postSucceeds putSucceeds) ->
     ready processedData selectedMethod selectedVariables = true
     /\ map Empirical.name (Empirical.variables body)
        = map name selectedVariables)
  /\ (forall url body completed,
      In (Empirical.put url body completed)
         (triggerEmpiricalAnalysis writingId sectionId processedData
            selectedMethod selectedVariables dataType preprocessConfig
            currentFile onNext postSucceeds putSucceeds) ->
      postSucceeds = true /\ completed = true
      /\ exists url', In (Empirical.post url' writingId sectionId body)
           (triggerEmpiricalAnalysis writingId sectionId processedData
              selectedMethod selectedVariables dataType preprocessConfig
              currentFile onNext postSucceeds putSucceeds))
  /\ ((exists text, In (Empirical.message_success text)
         (triggerEmpiricalAnalysis writingId sectionId processedData
            selectedMethod selectedVariables dataType preprocessConfig
            currentFile onNext postSucceeds putSucceeds))
      <-> ready processedData selectedMethod selectedVariables
          && postSucceeds && putSucceeds = true)
  /\ (In Empirical.onNext
         (triggerEmpiricalAnalysis writingId sectionId processedData
            selectedMethod selectedVariables dataType preprocessConfig
            currentFile onNext postSucceeds putSucceeds) ->
      ready processedData selectedMethod selectedVariables
      && postSucceeds && putSucceeds = true)
  /\ ((exists text, In (Empirical.message_error text)
         (triggerEmpiricalAnalysis writingId sectionId processedData
            selectedMethod selectedVariables dataType preprocessConfig
            currentFile onNext postSucceeds putSucceeds))
      <-> ready processedData selectedMethod selectedVariables
          && postSucceeds && putSucceeds
          && match onNext with Some false => false | _ => true end = false).
Proof.
  unfold triggerEmpiricalAnalysis, ready.
  destruct processedData as [processed|], selectedMethod as [method|],
    selectedVariables as [|v vs];
    try (cbn [andb In]; repeat split;
         try (intros; repeat match goal with
                | H : _ \/ _ |- _ => destruct H
                | H : exists _, _ |- _ => destruct H
                | H : False |- _ => destruct H
                end; discriminate);
         intros; eexists; left; reflexivity).
  cbv zeta. set (body := Empirical.Build_content _ _ _ _ _) in *.
  set (purl := ("/api/writing/" ++ _)%string).
  set (surl := ("/api/writings/" ++ _)%string).
  assert (Hnames : map Empirical.name (Empirical.variables body)
                   = map name (v :: vs)).
  { unfold body. cbn [Empirical.variables]. rewrite map_map. reflexivity. }
  destruct postSucceeds, putSucceeds, onNext as [[|]|];
    cbn [andb In]; repeat split;
    try (intros; repeat match goal with
           | H : _ \/ _ |- _ => destruct H
           | H : exists _, _ |- _ => destruct H
           | H : False |- _ => destruct H
           end; try discriminate;
         match goal with
         | H : Empirical.post _ _ _ _ = Empirical.post _ _ _ _ |- _ =>
             injection H as _ _ _ <-; exact Hnames
         | H : Empirical.put _ _ _ = Empirical.put _ _ _ |- _ =>
             injection H as _ <- <-; try reflexivity;
             exists purl; left; reflexivity
         | _ => idtac
         end);
    try (eexists; cbn; tauto).
Qed.

End EditorFacts.

(** ** The [useApi] hook *)

Module UseApiFacts.
Import UseApi.

(** [execute] sets the loading flag first and clears it last, whatever
    happens in between.  Its promise resolves with the result of the call
    exactly when the call succeeds and [onSuccess] does not throw; it is
    rejected only when [onError] throws, and resolves with [null]
    otherwise.  The result of a successful call is stored even when
    [onSuccess] then throws, and a failure is reported with the
    [detail] of the response when there is one, the message of the error
    otherwise. *)
Theorem execute_settles {T : Type} (api : T + Thrown)
  (onSuccessCallback onErrorCallback : Callback) :
  (exists middle,
     fst (execute api onSuccessCallback onErrorCallback)
     = [setIsLoading true; setError None] ++ middle ++ [setIsLoading false]
     /\ forall b, ~ In (setIsLoading b) middle)
  /\ (forall result,
      snd (execute api onSuccessCallback onErrorCallback)
      = resolved (Some result)
      <-> api = inl result /\ throws onSuccessCallback = false)
  /\ (forall result, api = inl result ->
      In (setData result) (fst (execute api onSuccessCallback onErrorCallback)))
  /\ (forall reason,
      snd (execute api onSuccessCallback onErrorCallback) = rejected reason ->
      onErrorCallback = Some (Some reason))
  /\ (forall err, api = inr err ->
      In (setError (Some (errorMessage err)))
         (fst (execute api onSuccessCallback onErrorCallback))).
Proof.
  unfold execute, execute_catch, throws.
  destruct api as [result|err];
    destruct onSuccessCallback as [[thrown|]|];
    destruct onErrorCallback as [[thrown'|]|];
    cbn [fst snd app];
    (split; [match goal with
             | |- exists middle, ?l = _ /\ _ =>
                 exists (removelast (skipn 2 l))
             end;
             split; [reflexivity|];
             intros b Hb; cbn in Hb;
             repeat (destruct Hb as [Hb|Hb]; [discriminate Hb|]);
             destruct Hb|]);
    repeat split; intros;
    repeat match goal with
           | H : _ /\ _ |- _ => destruct H
           | H : inl _ = inl _ |- _ => injection H as <-
           | H : inr _ = inr _ |- _ => injection H as <-
           | H : resolved _ = resolved _ |- _ => injection H as <-
           | H : rejected _ = rejected _ |- _ => injection H as <-
           end;
    try discriminate; try reflexivity; cbn; tauto.
Qed.

Lemma execute_settles_witness :
  snd (execute (inl 7%nat) (Some (Some OtherValue)) None) = resolved None
  /\ In (setData 7%nat)
        (fst (execute (inl 7%nat) (Some (Some OtherValue)) None)).
Proof.
  split; [reflexivity|].
  destruct (execute_settles (inl 7%nat) (Some (Some OtherValue)) None)
    as (_ & _ & Hdata & _).
  now apply Hdata.
Defined.

End UseApiFacts.
